(** * libthinkdock: the controller pool, the monitor layout and the suspend gate

    A shallow embedding of [src/lib/libthinkdock.cpp].  The definitions
    that translate a C++ member carry its name; the others say what they
    stand for.

    Conventions.
    - X identifiers ([RRCrtc], [RROutput], [RRMode]: unsigned long XIDs) are [N];
      the X constant [None] is [0].
    - Sizes in pixels and millimetres are unsigned in [Xrandr.h] and are [N];
      coordinates are signed and are [Z].  Where the source shows the type
      the arithmetic is that of the type: an [unsigned int] local takes a sum
      modulo 2^32 ([to_unsigned_int]), and a cast [(int)] and the copy of an
      [unsigned int] into a coordinate are the conversion to [int]
      ([to_int]).  The members of [Monitor] and of [point] are declared in
      [libthinkdock.h], which is not among the sources, so no width is known
      for them and the arithmetic on them is the unbounded one; a theorem
      that says what this arithmetic computes is stated for sizes within the
      range of [int], where the two agree.
    - A [Monitor *] is an index into the arena of monitors of the state,
      [nullptr] is [None].  The objects behind [videoOutputInfo] and
      [videoControllerInfo] are allocated per monitor by the X library and
      the one behind [videoModeInfo] lives in the mode catalog, which the
      library never writes; they are held by value, a null pointer is [None].
      [videoOutput] points into the outputs of the screen resources and is
      held as the output id it points to.
    - The code that can read through a null pointer or spin in a cyclic
      neighbour chain runs in a state monad whose outcomes are [Done],
      [Fault] (a read or write through a null or dangling pointer, with the
      state reached so far) and [Diverge] (the loop budget was used up). *)

From Stdlib Require Import ZArith NArith List String Ascii Bool Lia.
From stdpp Require Import base option list numbers.
Import ListNotations.
Local Open Scope N_scope.

(** ** X types *)

Definition XID := N.

(** The X constant [None]. *)
Definition None_ : XID := 0.

Definition VideoController := XID.      (* RRCrtc *)
Definition VideoOutput := XID.          (* RROutput *)
Definition VideoOutputMode := XID.      (* RRMode *)

(** [VideoOutputModeInfo] is [XRRModeInfo]. *)
Module XRRModeInfo.
Record t := mk {
  id : VideoOutputMode;
  width : N;
  height : N
}.
End XRRModeInfo.

(** [VideoOutputInfo] is [XRROutputInfo]. *)
Module XRROutputInfo.
Record t := mk {
  crtc : VideoController;
  mm_width : N;
  mm_height : N
}.
End XRROutputInfo.

(** [VideoControllerInfo] is [XRRCrtcInfo]. *)
Module XRRCrtcInfo.
Record t := mk {
  x : Z;
  y : Z;
  width : N;
  height : N;
  mode : VideoOutputMode
}.
End XRRCrtcInfo.

(** [DisplayManager::point]. *)
Module point.
Record t := mk {
  x : Z;
  y : Z
}.
End point.

(** [(int) v], and also [c = v] for a coordinate [c] and an unsigned [v]:
    the value modulo 2^32 in the range of [int]. *)
Definition to_int (z : Z) : Z := ((z + 2 ^ 31) mod 2 ^ 32 - 2 ^ 31)%Z.

(** What an [unsigned int] holds of a sum. *)
Definition to_unsigned_int (n : N) : N := n mod 2 ^ 32.

(** ** Build configuration

    [config.h] and [libthinkdock.h] are not among the sources; the macros
    the code tests or compares with are parameters. *)
Record config := mkConfig {
  SYSTEMD : bool;
  DEBUG : bool;
  DRYRUN : bool;
  IBM_DOCK_ID : string
}.

(** ** Monitor objects *)

(** A [Monitor *] that is not null. *)
Abbreviation addr := nat (only parsing).

Record Monitor := mkMonitor {
  videoOutput : VideoOutput;
  videoOutputInfo : option XRROutputInfo.t;
  videoModeInfo : option XRRModeInfo.t;
  videoController : VideoController;
  videoControllerInfo : option XRRCrtcInfo.t;
  xAxisMaxHeight : N;
  yAxisMaxWidth : N;
  xAxisMaxHeightmm : N;
  yAxisMaxWidthmm : N;
  screenWidth : N;
  screenHeight : N;
  screenWidthMillimeters : N;
  screenHeightMillimeters : N;
  limitsCalculated : bool;
  isPrimary : bool;
  leftMonitor : option addr;
  rightMonitor : option addr;
  topMonitor : option addr;
  bottomMonitor : option addr
}.

(** Assignments to one member: [this->f = v]. *)

Definition set_videoModeInfo (v : option XRRModeInfo.t) (m : Monitor) : Monitor :=
  mkMonitor (videoOutput m) (videoOutputInfo m) v (videoController m)
  (videoControllerInfo m) (xAxisMaxHeight m) (yAxisMaxWidth m)
  (xAxisMaxHeightmm m) (yAxisMaxWidthmm m) (screenWidth m) (screenHeight m)
  (screenWidthMillimeters m) (screenHeightMillimeters m) (limitsCalculated m)
  (isPrimary m) (leftMonitor m) (rightMonitor m) (topMonitor m) (bottomMonitor
  m).

Definition set_videoController (v : VideoController) (m : Monitor) : Monitor :=
  mkMonitor (videoOutput m) (videoOutputInfo m) (videoModeInfo m) v
  (videoControllerInfo m) (xAxisMaxHeight m) (yAxisMaxWidth m)
  (xAxisMaxHeightmm m) (yAxisMaxWidthmm m) (screenWidth m) (screenHeight m)
  (screenWidthMillimeters m) (screenHeightMillimeters m) (limitsCalculated m)
  (isPrimary m) (leftMonitor m) (rightMonitor m) (topMonitor m) (bottomMonitor
  m).

Definition set_videoControllerInfo (v : option XRRCrtcInfo.t) (m : Monitor) : Monitor :=
  mkMonitor (videoOutput m) (videoOutputInfo m) (videoModeInfo m)
  (videoController m) v (xAxisMaxHeight m) (yAxisMaxWidth m) (xAxisMaxHeightmm
  m) (yAxisMaxWidthmm m) (screenWidth m) (screenHeight m)
  (screenWidthMillimeters m) (screenHeightMillimeters m) (limitsCalculated m)
  (isPrimary m) (leftMonitor m) (rightMonitor m) (topMonitor m) (bottomMonitor
  m).

Definition set_xAxisMaxHeight (v : N) (m : Monitor) : Monitor :=
  mkMonitor (videoOutput m) (videoOutputInfo m) (videoModeInfo m)
  (videoController m) (videoControllerInfo m) v (yAxisMaxWidth m)
  (xAxisMaxHeightmm m) (yAxisMaxWidthmm m) (screenWidth m) (screenHeight m)
  (screenWidthMillimeters m) (screenHeightMillimeters m) (limitsCalculated m)
  (isPrimary m) (leftMonitor m) (rightMonitor m) (topMonitor m) (bottomMonitor
  m).

Definition set_yAxisMaxWidth (v : N) (m : Monitor) : Monitor :=
  mkMonitor (videoOutput m) (videoOutputInfo m) (videoModeInfo m)
  (videoController m) (videoControllerInfo m) (xAxisMaxHeight m) v
  (xAxisMaxHeightmm m) (yAxisMaxWidthmm m) (screenWidth m) (screenHeight m)
  (screenWidthMillimeters m) (screenHeightMillimeters m) (limitsCalculated m)
  (isPrimary m) (leftMonitor m) (rightMonitor m) (topMonitor m) (bottomMonitor
  m).

Definition set_xAxisMaxHeightmm (v : N) (m : Monitor) : Monitor :=
  mkMonitor (videoOutput m) (videoOutputInfo m) (videoModeInfo m)
  (videoController m) (videoControllerInfo m) (xAxisMaxHeight m)
  (yAxisMaxWidth m) v (yAxisMaxWidthmm m) (screenWidth m) (screenHeight m)
  (screenWidthMillimeters m) (screenHeightMillimeters m) (limitsCalculated m)
  (isPrimary m) (leftMonitor m) (rightMonitor m) (topMonitor m) (bottomMonitor
  m).

Definition set_yAxisMaxWidthmm (v : N) (m : Monitor) : Monitor :=
  mkMonitor (videoOutput m) (videoOutputInfo m) (videoModeInfo m)
  (videoController m) (videoControllerInfo m) (xAxisMaxHeight m)
  (yAxisMaxWidth m) (xAxisMaxHeightmm m) v (screenWidth m) (screenHeight m)
  (screenWidthMillimeters m) (screenHeightMillimeters m) (limitsCalculated m)
  (isPrimary m) (leftMonitor m) (rightMonitor m) (topMonitor m) (bottomMonitor
  m).

Definition set_screenWidth (v : N) (m : Monitor) : Monitor :=
  mkMonitor (videoOutput m) (videoOutputInfo m) (videoModeInfo m)
  (videoController m) (videoControllerInfo m) (xAxisMaxHeight m)
  (yAxisMaxWidth m) (xAxisMaxHeightmm m) (yAxisMaxWidthmm m) v (screenHeight
  m) (screenWidthMillimeters m) (screenHeightMillimeters m) (limitsCalculated
  m) (isPrimary m) (leftMonitor m) (rightMonitor m) (topMonitor m)
  (bottomMonitor m).

Definition set_screenHeight (v : N) (m : Monitor) : Monitor :=
  mkMonitor (videoOutput m) (videoOutputInfo m) (videoModeInfo m)
  (videoController m) (videoControllerInfo m) (xAxisMaxHeight m)
  (yAxisMaxWidth m) (xAxisMaxHeightmm m) (yAxisMaxWidthmm m) (screenWidth m) v
  (screenWidthMillimeters m) (screenHeightMillimeters m) (limitsCalculated m)
  (isPrimary m) (leftMonitor m) (rightMonitor m) (topMonitor m) (bottomMonitor
  m).

Definition set_screenWidthMillimeters (v : N) (m : Monitor) : Monitor :=
  mkMonitor (videoOutput m) (videoOutputInfo m) (videoModeInfo m)
  (videoController m) (videoControllerInfo m) (xAxisMaxHeight m)
  (yAxisMaxWidth m) (xAxisMaxHeightmm m) (yAxisMaxWidthmm m) (screenWidth m)
  (screenHeight m) v (screenHeightMillimeters m) (limitsCalculated m)
  (isPrimary m) (leftMonitor m) (rightMonitor m) (topMonitor m) (bottomMonitor
  m).

Definition set_screenHeightMillimeters (v : N) (m : Monitor) : Monitor :=
  mkMonitor (videoOutput m) (videoOutputInfo m) (videoModeInfo m)
  (videoController m) (videoControllerInfo m) (xAxisMaxHeight m)
  (yAxisMaxWidth m) (xAxisMaxHeightmm m) (yAxisMaxWidthmm m) (screenWidth m)
  (screenHeight m) (screenWidthMillimeters m) v (limitsCalculated m)
  (isPrimary m) (leftMonitor m) (rightMonitor m) (topMonitor m) (bottomMonitor
  m).

Definition set_limitsCalculated (v : bool) (m : Monitor) : Monitor :=
  mkMonitor (videoOutput m) (videoOutputInfo m) (videoModeInfo m)
  (videoController m) (videoControllerInfo m) (xAxisMaxHeight m)
  (yAxisMaxWidth m) (xAxisMaxHeightmm m) (yAxisMaxWidthmm m) (screenWidth m)
  (screenHeight m) (screenWidthMillimeters m) (screenHeightMillimeters m) v
  (isPrimary m) (leftMonitor m) (rightMonitor m) (topMonitor m) (bottomMonitor
  m).

(** ** The X server, the output streams and the state *)

(** The requests the library sends to the X server. *)
Inductive XRequest :=
| XGrabServer
| XRRSetCrtcConfig (crtc : VideoController) (x y : Z) (mode : VideoOutputMode)
    (outputs : list VideoOutput) (noutputs : N)
| XRRSetOutputPrimary (output : VideoOutput)
| XRRSetScreenSize (width height mmWidth mmHeight : Z)
| XUngrabServer
| XSync.

(** What [fprintf] writes. *)
Inductive line :=
| stderr (text : string)
| stdout (text : string)
| stdout_screen_size (w h wmm hmm : Z).

(** The one [ScreenResources] object with its monitors, and the server
    behind it: [set_config_ok] is the server's answer to a
    [XRRSetCrtcConfig] request, [requests] the requests sent so far,
    oldest first, and [printed] the lines written so far. *)
Record State := mkState {
  availableControllers : list VideoController;
  videoOutputModes : list XRRModeInfo.t;
  monitors : list Monitor;
  set_config_ok : XRequest -> bool;
  requests : list XRequest;
  printed : list line
}.

Definition set_availableControllers (v : list VideoController) (s : State) : State :=
  mkState v (videoOutputModes s) (monitors s) (set_config_ok s) (requests s) (printed s).

Definition set_monitors (v : list Monitor) (s : State) : State :=
  mkState (availableControllers s) (videoOutputModes s) v (set_config_ok s)
    (requests s) (printed s).

Definition set_requests (v : list XRequest) (s : State) : State :=
  mkState (availableControllers s) (videoOutputModes s) (monitors s)
    (set_config_ok s) v (printed s).

Definition set_printed (v : list line) (s : State) : State :=
  mkState (availableControllers s) (videoOutputModes s) (monitors s)
    (set_config_ok s) (requests s) v.

(** ** The monad *)

Inductive outcome (A : Type) : Type :=
| Done (a : A) (s : State)
| Fault (s : State)
| Diverge.
Arguments Done {A} a s.
Arguments Fault {A} s.
Arguments Diverge {A}.

Definition M (A : Type) : Type := State -> outcome A.

#[global] Instance M_ret : MRet M := fun A a s => Done a s.

#[global] Instance M_bind : MBind M := fun A B f c s =>
  match c s with
  | Done a s' => f a s'
  | Fault s' => Fault s'
  | Diverge => Diverge
  end.

Definition diverge {A : Type} : M A := fun _ => Diverge.

(** [*p] for a [Monitor *p]. *)
Definition load (p : addr) : M Monitor := fun s =>
  match monitors s !! p with
  | Some m => Done m s
  | None => Fault s
  end.

Definition store (p : addr) (m : Monitor) : M unit := fun s =>
  match monitors s !! p with
  | Some _ => Done tt (set_monitors (<[p := m]> (monitors s)) s)
  | None => Fault s
  end.

(** [this->f = ...]. *)
Definition assign (this : addr) (f : Monitor -> Monitor) : M unit :=
  m ← load this; store this (f m).

(** [q->] for one of the info pointers. *)
Definition deref {A : Type} (q : option A) : M A := fun s =>
  match q with
  | Some a => Done a s
  | None => Fault s
  end.

Definition request (r : XRequest) : M unit := fun s =>
  Done tt (set_requests (requests s ++ [r]) s).

Definition fprintf (l : line) : M unit := fun s =>
  Done tt (set_printed (printed s ++ [l]) s).

Definition when (b : bool) (c : M unit) : M unit :=
  if b then c else mret tt.

(** [while (ptr != nullptr) { body; ptr = ptr->next; }] with the local
    variables of the loop in [l].  A cyclic chain uses up [fuel]. *)
Fixpoint walk {L : Type} (fuel : nat) (next : Monitor -> option addr)
  (body : addr -> L -> M L) (ptr : option addr) (l : L) : M L :=
  match ptr with
  | None => mret l
  | Some p =>
      match fuel with
      | O => diverge
      | S fuel' =>
          l' ← body p l;
          m ← load p;
          walk fuel' next body (next m) l'
      end
  end.

(** ** ScreenResources: the vector of available controllers *)

Module ScreenResources.

(** [availableControllers] is a [vector<VideoController>]; order and
    duplicates matter, so it is a list. *)
Definition pool := list VideoController.

(** [ScreenResources::requestController]: the result and the vector
    afterwards. *)
Definition requestController (availableControllers : pool)
  : VideoController * pool :=
  match availableControllers with
  | [] => (None_, availableControllers)
  | ret :: rest => (ret, rest)
  end.

(** [ScreenResources::releaseController]: [push_back]. *)
Definition releaseController (videoController : VideoController)
  (availableControllers : pool) : pool :=
  availableControllers ++ [videoController].

End ScreenResources.

(** ** Monitor *)

(** [ptr->videoModeInfo->], [ptr->videoOutputInfo->], [ptr->videoControllerInfo->]. *)
Definition modeInfo (ptr : addr) : M XRRModeInfo.t :=
  m ← load ptr; deref (videoModeInfo m).

Definition outputInfo (ptr : addr) : M XRROutputInfo.t :=
  m ← load ptr; deref (videoOutputInfo m).

Definition controllerInfo (ptr : addr) : M XRRCrtcInfo.t :=
  m ← load ptr; deref (videoControllerInfo m).

(** [Monitor::isOff]. *)
Definition isOff (this : addr) : M bool :=
  m ← load this;
  if videoController m =? None_ then mret true
  else
    info ← deref (videoControllerInfo m);
    mret (XRRCrtcInfo.mode info =? None_).

(** [Monitor::setPosition]. *)
Definition setPosition (this : addr) (position : point.t) : M unit :=
  m ← load this;
  match videoControllerInfo m with
  | None => fprintf (stderr "requested to set position on inactive monitor\n")
  | Some info =>
      store this
        (set_videoControllerInfo
           (Some (XRRCrtcInfo.mk (point.x position) (point.y position)
                    (XRRCrtcInfo.width info) (XRRCrtcInfo.height info)
                    (XRRCrtcInfo.mode info))) m)
  end.

(** [Monitor::setOutputMode]. *)
Definition setOutputMode (this : addr) (mode : VideoOutputMode) : M unit :=
  assign this (set_videoModeInfo None);;
  infos ← (fun s => Done (videoOutputModes s) s);
  match find (fun info => XRRModeInfo.id info =? mode) infos with
  | Some info => assign this (set_videoModeInfo (Some info))
  | None => mret tt
  end;;
  m ← load this;
  when (bool_decide (videoModeInfo m = None))
    (fprintf (stderr "error querying new output mode info\n"));;
  (* this->videoControllerInfo->mode = mode *)
  c ← controllerInfo this;
  assign this (set_videoControllerInfo
    (Some (XRRCrtcInfo.mk (XRRCrtcInfo.x c) (XRRCrtcInfo.y c)
             (XRRCrtcInfo.width c) (XRRCrtcInfo.height c) mode)));;
  (* this->videoControllerInfo->height = videoModeInfo->height *)
  c ← controllerInfo this;
  info ← modeInfo this;
  assign this (set_videoControllerInfo
    (Some (XRRCrtcInfo.mk (XRRCrtcInfo.x c) (XRRCrtcInfo.y c)
             (XRRCrtcInfo.width c) (XRRModeInfo.height info) (XRRCrtcInfo.mode c))));;
  (* this->videoControllerInfo->width = videoControllerInfo->width *)
  c ← controllerInfo this;
  c' ← controllerInfo this;
  assign this (set_videoControllerInfo
    (Some (XRRCrtcInfo.mk (XRRCrtcInfo.x c) (XRRCrtcInfo.y c)
             (XRRCrtcInfo.width c') (XRRCrtcInfo.height c) (XRRCrtcInfo.mode c)))).

(** [Monitor::release]. *)
Definition release (this : addr) : M unit :=
  m ← load this;
  when (negb (videoController m =? None_))
    (fun s => Done tt (set_availableControllers
       (ScreenResources.releaseController (videoController m) (availableControllers s)) s));;
  assign this (set_videoControllerInfo None);;
  assign this (set_videoController None_);;
  assign this (set_videoModeInfo None).

(** One round of the horizontal part of [Monitor::calculateLimits]: the
    body of the loops over the left and the right wing, and, with
    [ptr = this], the block between them. *)
Definition limits_along_x (this ptr : addr) : M unit :=
  (* pixels *)
  info ← modeInfo ptr;
  t ← load this;
  when (xAxisMaxHeight t <? XRRModeInfo.height info)
    (assign this (set_xAxisMaxHeight (XRRModeInfo.height info)));;
  (* millimeters *)
  out ← outputInfo ptr;
  t ← load this;
  when (xAxisMaxHeightmm t <? XRROutputInfo.mm_height out)
    (assign this (set_xAxisMaxHeightmm (XRROutputInfo.mm_height out)));;
  info ← modeInfo ptr;
  assign this (fun t => set_screenWidth (screenWidth t + XRRModeInfo.width info) t);;
  out ← outputInfo ptr;
  assign this (fun t =>
    set_screenWidthMillimeters
      (screenWidthMillimeters t + XRROutputInfo.mm_width out) t).

(** The same for the vertical part: the loops over the top and the bottom
    wing and the block between them. *)
Definition limits_along_y (this ptr : addr) : M unit :=
  (* pixels *)
  info ← modeInfo ptr;
  t ← load this;
  when (yAxisMaxWidth t <? XRRModeInfo.width info)
    (assign this (set_yAxisMaxWidth (XRRModeInfo.width info)));;
  (* millimeter *)
  out ← outputInfo ptr;
  t ← load this;
  when (yAxisMaxWidthmm t <? XRROutputInfo.mm_width out)
    (assign this (set_yAxisMaxWidthmm (XRROutputInfo.mm_width out)));;
  info ← modeInfo ptr;
  assign this (fun t => set_screenHeight (screenHeight t + XRRModeInfo.height info) t);;
  out ← outputInfo ptr;
  assign this (fun t =>
    set_screenHeightMillimeters
      (screenHeightMillimeters t + XRROutputInfo.mm_height out) t).

(** [a > b ? a : b]. *)
Definition larger (a b : N) : N := if b <? a then a else b.

(** [Monitor::calculateLimits]. *)
Definition calculateLimits (fuel : nat) (this : addr) : M unit :=
  t ← load this;
  walk fuel leftMonitor (fun ptr _ => limits_along_x this ptr) (leftMonitor t) tt;;
  limits_along_x this this;;
  t ← load this;
  walk fuel rightMonitor (fun ptr _ => limits_along_x this ptr) (rightMonitor t) tt;;
  t ← load this;
  walk fuel topMonitor (fun ptr _ => limits_along_y this ptr) (topMonitor t) tt;;
  limits_along_y this this;;
  t ← load this;
  walk fuel bottomMonitor (fun ptr _ => limits_along_y this ptr) (bottomMonitor t) tt;;
  (* normalize the limits relative to maximums *)
  assign this (fun t => set_screenWidth (larger (yAxisMaxWidth t) (screenWidth t)) t);;
  assign this (fun t =>
    set_screenWidthMillimeters
      (larger (yAxisMaxWidthmm t) (screenWidthMillimeters t)) t);;
  assign this (fun t => set_screenHeight (larger (xAxisMaxHeight t) (screenHeight t)) t);;
  assign this (fun t =>
    set_screenHeightMillimeters
      (larger (xAxisMaxHeightmm t) (screenHeightMillimeters t)) t);;
  assign this (set_limitsCalculated true).

(** [Monitor::getPrimaryRelativePosition]. *)
Definition getPrimaryRelativePosition (fuel : nat) (this : addr) : M point.t :=
  t ← load this;
  leftWingWidth ←
    walk fuel leftMonitor
      (fun ptr leftWingWidth =>
         info ← modeInfo ptr;
         mret (to_unsigned_int (leftWingWidth + XRRModeInfo.width info)))
      (leftMonitor t) 0;
  t ← load this;
  topWingTotal ←
    walk fuel topMonitor
      (fun ptr topWingTotal =>
         info ← modeInfo ptr;
         mret (to_unsigned_int (topWingTotal + XRRModeInfo.height info)))
      (topMonitor t) 0;
  let root :=
    point.mk (to_int (Z.of_N leftWingWidth)) (to_int (Z.of_N topWingTotal)) in
  setPosition this root;;
  mret root.

(** [Monitor::calculateRelativePositions]. *)
Definition calculateRelativePositions (fuel : nat) (this : addr) : M unit :=
  root ← getPrimaryRelativePosition fuel this;
  (* the left wing *)
  t ← load this;
  walk fuel leftMonitor
    (fun ptr position =>
       info ← modeInfo ptr;
       let position :=
         point.mk (point.x root - Z.of_N (XRRModeInfo.width info))%Z
           (point.y position) in
       setPosition ptr position;;
       mret position)
    (leftMonitor t) root;;
  (* the right wing *)
  info ← modeInfo this;
  let position :=
    point.mk (point.x root + Z.of_N (XRRModeInfo.width info))%Z (point.y root) in
  t ← load this;
  walk fuel rightMonitor
    (fun ptr position =>
       setPosition ptr position;;
       info ← modeInfo ptr;
       mret (point.mk (point.x position + Z.of_N (XRRModeInfo.width info))%Z
               (point.y position)))
    (rightMonitor t) position;;
  (* the top wing *)
  t ← load this;
  walk fuel topMonitor
    (fun ptr position =>
       info ← modeInfo ptr;
       let position :=
         point.mk (point.x position)
           (point.y position - Z.of_N (XRRModeInfo.height info))%Z in
       setPosition ptr position;;
       mret position)
    (topMonitor t) root;;
  (* the bottom wing *)
  info ← modeInfo this;
  let position :=
    point.mk (point.x root) (point.y root + Z.of_N (XRRModeInfo.height info))%Z in
  t ← load this;
  walk fuel bottomMonitor
    (fun ptr position =>
       setPosition ptr position;;
       info ← modeInfo ptr;
       mret (point.mk (point.x position)
               (point.y position + Z.of_N (XRRModeInfo.height info))%Z))
    (bottomMonitor t) position;;
  mret tt.

(** The request that the static [Monitor::applyConfiguration]
    builds from a monitor and its controller info. *)
Definition crtc_config (m : Monitor) (info : XRRCrtcInfo.t) : XRequest :=
  XRRSetCrtcConfig (videoController m)
    (XRRCrtcInfo.x info) (XRRCrtcInfo.y info) (XRRCrtcInfo.mode info)
    (if XRRCrtcInfo.mode info =? None_ then [] else [videoOutput m])
    (if XRRCrtcInfo.mode info =? None_ then 0 else 1).

(** [Monitor::applyConfiguration(XServer *server, Monitor *monitor)]. *)
Definition applyConfiguration_monitor (cfg : config) (monitor : addr) : M unit :=
  if DRYRUN cfg then mret tt
  else
    m ← load monitor;
    info ← deref (videoControllerInfo m);
    let r := crtc_config m info in
    request r;;
    ok ← (fun s => Done (set_config_ok s r) s);
    when (negb ok) (fprintf (stderr "error setting new screen config")).

(** [Monitor::applyConfiguration()]. *)
Definition applyConfiguration (cfg : config) (fuel : nat) (this : addr) : M bool :=
  isOff this ≫= fun off : bool =>
  if off then
    applyConfiguration_monitor cfg this;;
    mret true
  else
    t ← load this;
    when (negb (limitsCalculated t)) (calculateLimits fuel this);;
    calculateRelativePositions fuel this;;
    request XGrabServer;;
    applyConfiguration_monitor cfg this;;
    t ← load this;
    when (isPrimary t) (request (XRRSetOutputPrimary (videoOutput t)));;
    t ← load this;
    walk fuel leftMonitor (fun ptr _ => applyConfiguration_monitor cfg ptr)
      (leftMonitor t) tt;;
    t ← load this;
    walk fuel rightMonitor (fun ptr _ => applyConfiguration_monitor cfg ptr)
      (rightMonitor t) tt;;
    t ← load this;
    walk fuel topMonitor (fun ptr _ => applyConfiguration_monitor cfg ptr)
      (topMonitor t) tt;;
    t ← load this;
    walk fuel bottomMonitor (fun ptr _ => applyConfiguration_monitor cfg ptr)
      (bottomMonitor t) tt;;
    t ← load this;
    when (DEBUG cfg)
      (fprintf (stdout_screen_size
                  (to_int (Z.of_N (screenWidth t)))
                  (to_int (Z.of_N (screenHeight t)))
                  (to_int (Z.of_N (screenWidthMillimeters t)))
                  (to_int (Z.of_N (screenHeightMillimeters t)))));;
    when (negb (DRYRUN cfg))
      (fprintf (stdout "setting screen size...\n");;
       request (XRRSetScreenSize
                  (to_int (Z.of_N (screenWidth t)))
                  (to_int (Z.of_N (screenHeight t)))
                  (to_int (Z.of_N (screenWidthMillimeters t)))
                  (to_int (Z.of_N (screenHeightMillimeters t)))));;
    request XUngrabServer;;
    request XSync;;
    mret true.

(** ** Dock *)

Module Dock.

(** A file of sysfs as [open], [fstat] and [read] see it. *)
Inductive file :=
| no_file                     (* open fails *)
| io_error                    (* fstat or read fails *)
| contents (bytes : string).

(** The two files the dock driver exposes, and the byte that is in
    [status[0]] before [read] is called. *)
Record sysfs := mkSysfs {
  IBM_DOCK_DOCKED : file;
  IBM_DOCK_MODALIAS : file;
  status0 : ascii
}.

(** [Dock::isDocked]. *)
Definition isDocked (fs : sysfs) : bool :=
  match IBM_DOCK_DOCKED fs with
  | no_file => false
  | io_error => false
  | contents EmptyString => Ascii.eqb (status0 fs) "1"
  | contents (String c _) => Ascii.eqb c "1"
  end.

(** What [strcmp] reads of a buffer: the bytes before the first NUL. *)
Fixpoint c_str (s : string) : string :=
  match s with
  | EmptyString => EmptyString
  | String c rest => if Ascii.eqb c Ascii.zero then EmptyString else String c (c_str rest)
  end.

(** [Dock::probe]. *)
Definition probe (cfg : config) (fs : sysfs) : bool :=
  match IBM_DOCK_MODALIAS fs with
  | no_file => false
  | io_error => false
  | contents readBuffer => String.eqb (c_str readBuffer) (c_str (IBM_DOCK_ID cfg))
  end.

End Dock.

(** ** PowerManager *)

Module PowerManager.

Inductive SUSPEND_REASON :=
| SUSPEND_REASON_LID
| SUSPEND_REASON_BUTTON
| SUSPEND_REASON_other.       (* any other value of the enumeration type *)

(** What logind answers. *)
Record logind := mkLogind {
  bus_opens : bool;
  suspend_error : option string
}.

(** What a call leaves behind: [PowerManager::suspend] was entered, a
    method was called on the bus, a line was written. *)
Inductive event :=
| suspend_called
| sd_bus_call_Suspend
| written (l : line).

(** [PowerManager::suspend]. *)
Definition suspend (cfg : config) (bus : logind) : bool * list event :=
  if SYSTEMD cfg then
    if negb (bus_opens bus) then
      (false, [suspend_called; written (stderr "Connecting to D-Bus failed")])
    else
      match suspend_error bus with
      | Some message =>
          (false, [suspend_called; sd_bus_call_Suspend;
                   written (stderr ("Error calling suspend on logind: " ++ message
                                    ++ "\n"))])
      | None => (true, [suspend_called; sd_bus_call_Suspend])
      end
  else
    (false, [suspend_called; written (stderr "no suspend mechanism available\n")]).

(** [PowerManager::requestSuspend]. *)
Definition requestSuspend (cfg : config) (fs : Dock.sysfs) (bus : logind)
  (reason : SUSPEND_REASON) : bool * list event :=
  match reason with
  | SUSPEND_REASON_BUTTON => suspend cfg bus
  | SUSPEND_REASON_LID =>
      if negb (Dock.probe cfg fs) then
        (false, [written (stderr "dock is not sane/present")])
      else if negb (Dock.isDocked fs) then
        (true, snd (suspend cfg bus))
      else
        (false, [written (stderr "ignoring lid event when docked\n")])
  | SUSPEND_REASON_other =>
      (false, [written (stderr "invalid suspend reason \n")])
  end.

End PowerManager.

(** ** Topologies

    What the theorems below say about a neighbour chain, a monitor with
    its info objects in place and the parts of a monitor that the layout
    leaves alone. *)

(** The monitors met by [ptr = ptr->next] from [ptr] until [nullptr], when
    that takes at most [fuel] rounds through allocated monitors. *)
Fixpoint chain (fuel : nat) (next : Monitor -> option addr) (h : list Monitor)
  (ptr : option addr) : option (list addr) :=
  match ptr with
  | None => Some []
  | Some p =>
      match fuel with
      | O => None
      | S fuel' =>
          match h !! p with
          | Some m =>
              match chain fuel' next h (next m) with
              | Some ps => Some (p :: ps)
              | None => None
              end
          | None => None
          end
      end
  end.

Definition present {A : Type} (q : option A) : bool :=
  match q with
  | Some _ => true
  | None => false
  end.

(** The monitor at [p] has a mode info and an output info. *)
Definition measurable (h : list Monitor) (p : addr) : bool :=
  match h !! p with
  | Some m => present (videoModeInfo m) && present (videoOutputInfo m)
  | None => false
  end.

(** The monitor at [p] has a controller info as well. *)
Definition ready (h : list Monitor) (p : addr) : bool :=
  match h !! p with
  | Some m =>
      present (videoModeInfo m) && present (videoOutputInfo m)
      && present (videoControllerInfo m)
  | None => false
  end.

(** Sizes of the monitor at [p]; [0] where an info object is missing. *)
Definition width_at (h : list Monitor) (p : addr) : N :=
  match h !! p ≫= videoModeInfo with
  | Some info => XRRModeInfo.width info
  | None => 0
  end.

Definition height_at (h : list Monitor) (p : addr) : N :=
  match h !! p ≫= videoModeInfo with
  | Some info => XRRModeInfo.height info
  | None => 0
  end.

Definition mm_width_at (h : list Monitor) (p : addr) : N :=
  match h !! p ≫= videoOutputInfo with
  | Some out => XRROutputInfo.mm_width out
  | None => 0
  end.

Definition mm_height_at (h : list Monitor) (p : addr) : N :=
  match h !! p ≫= videoOutputInfo with
  | Some out => XRROutputInfo.mm_height out
  | None => 0
  end.

Definition sum_over (f : addr -> N) (ps : list addr) : N :=
  foldr (fun p acc => f p + acc) 0 ps.

Definition max_over (f : addr -> N) (ps : list addr) : N :=
  foldr (fun p acc => N.max (f p) acc) 0 ps.

(** The eight canvas-limit members are at their initial value. *)
Definition zeroed (t : Monitor) : Prop :=
  xAxisMaxHeight t = 0 /\ yAxisMaxWidth t = 0 /\
  xAxisMaxHeightmm t = 0 /\ yAxisMaxWidthmm t = 0 /\
  screenWidth t = 0 /\ screenHeight t = 0 /\
  screenWidthMillimeters t = 0 /\ screenHeightMillimeters t = 0.

(** The eight canvas-limit members. *)
Definition limits (t : Monitor) : list N :=
  [xAxisMaxHeight t; yAxisMaxWidth t; xAxisMaxHeightmm t; yAxisMaxWidthmm t;
   screenWidth t; screenHeight t; screenWidthMillimeters t;
   screenHeightMillimeters t].

(** A monitor without its position. *)
Definition unplaced (m : Monitor) : Monitor :=
  set_videoControllerInfo
    (match videoControllerInfo m with
     | Some c =>
         Some (XRRCrtcInfo.mk 0 0 (XRRCrtcInfo.width c) (XRRCrtcInfo.height c)
                 (XRRCrtcInfo.mode c))
     | None => None
     end) m.

(** A monitor without its position and without its canvas limits. *)
Definition frame (m : Monitor) : Monitor :=
  set_xAxisMaxHeight 0 (set_yAxisMaxWidth 0 (set_xAxisMaxHeightmm 0
    (set_yAxisMaxWidthmm 0 (set_screenWidth 0 (set_screenHeight 0
      (set_screenWidthMillimeters 0 (set_screenHeightMillimeters 0
        (set_limitsCalculated false (unplaced m))))))))).

(** The [XRRSetCrtcConfig] requests for the monitors [ps], in order. *)
Definition commits (h : list Monitor) (ps : list addr) : list XRequest :=
  flat_map
    (fun p =>
       match h !! p with
       | Some m =>
           match videoControllerInfo m with
           | Some info => [crtc_config m info]
           | None => []
           end
       | None => []
       end) ps.

(** The [XRRSetScreenSize] request for the limits of [t], each cast to
    [int]. *)
Definition screen_size (t : Monitor) : XRequest :=
  XRRSetScreenSize
    (to_int (Z.of_N (screenWidth t))) (to_int (Z.of_N (screenHeight t)))
    (to_int (Z.of_N (screenWidthMillimeters t)))
    (to_int (Z.of_N (screenHeightMillimeters t))).

(** The order of requests as the specification words it: grab, anchor,
    left, right, top and bottom chain, primary marker, canvas size,
    ungrab, sync. *)
Definition specified_requests (h : list Monitor) (this : addr) (t : Monitor)
  (ls rs ts bs : list addr) : list XRequest :=
  [XGrabServer] ++ commits h [this]
  ++ commits h ls ++ commits h rs ++ commits h ts ++ commits h bs
  ++ (if isPrimary t then [XRRSetOutputPrimary (videoOutput t)] else [])
  ++ [screen_size t; XUngrabServer; XSync].

(** The order in which [Monitor::applyConfiguration()] sends them. *)
Definition sent_requests (h : list Monitor) (this : addr) (t : Monitor)
  (ls rs ts bs : list addr) : list XRequest :=
  [XGrabServer] ++ commits h [this]
  ++ (if isPrimary t then [XRRSetOutputPrimary (videoOutput t)] else [])
  ++ commits h ls ++ commits h rs ++ commits h ts ++ commits h bs
  ++ [screen_size t; XUngrabServer; XSync].

(** What one round of [limits_along_x] and of [limits_along_y] does to the
    members of [this]. *)
Definition along_x (info : XRRModeInfo.t) (out : XRROutputInfo.t) (t : Monitor)
  : Monitor :=
  set_screenWidthMillimeters
    (screenWidthMillimeters t + XRROutputInfo.mm_width out)
    (set_screenWidth (screenWidth t + XRRModeInfo.width info)
       (set_xAxisMaxHeightmm
          (N.max (xAxisMaxHeightmm t) (XRROutputInfo.mm_height out))
          (set_xAxisMaxHeight
             (N.max (xAxisMaxHeight t) (XRRModeInfo.height info)) t))).

Definition along_y (info : XRRModeInfo.t) (out : XRROutputInfo.t) (t : Monitor)
  : Monitor :=
  set_screenHeightMillimeters
    (screenHeightMillimeters t + XRROutputInfo.mm_height out)
    (set_screenHeight (screenHeight t + XRRModeInfo.height info)
       (set_yAxisMaxWidthmm
          (N.max (yAxisMaxWidthmm t) (XRROutputInfo.mm_width out))
          (set_yAxisMaxWidth
             (N.max (yAxisMaxWidth t) (XRRModeInfo.width info)) t))).

(** [this] holds [u] in place of what it held in [s]. *)
Definition put (this : addr) (u : Monitor) (s : State) : State :=
  set_monitors (<[this := u]> (monitors s)) s.

(** What the six passes of [Monitor::calculateLimits] and its last five
    assignments make of the members of [this]. *)
Definition round_x (h : list Monitor) (p : addr) (u : Monitor) : Monitor :=
  match h !! p with
  | Some m =>
      match videoModeInfo m, videoOutputInfo m with
      | Some info, Some out => along_x info out u
      | _, _ => u
      end
  | None => u
  end.

Definition round_y (h : list Monitor) (p : addr) (u : Monitor) : Monitor :=
  match h !! p with
  | Some m =>
      match videoModeInfo m, videoOutputInfo m with
      | Some info, Some out => along_y info out u
      | _, _ => u
      end
  | None => u
  end.

Definition normalized (u : Monitor) : Monitor :=
  let u := set_screenWidth (larger (yAxisMaxWidth u) (screenWidth u)) u in
  let u :=
    set_screenWidthMillimeters
      (larger (yAxisMaxWidthmm u) (screenWidthMillimeters u)) u in
  let u := set_screenHeight (larger (xAxisMaxHeight u) (screenHeight u)) u in
  let u :=
    set_screenHeightMillimeters
      (larger (xAxisMaxHeightmm u) (screenHeightMillimeters u)) u in
  set_limitsCalculated true u.

Definition limited (h : list Monitor) (this : addr) (t : Monitor)
  (ls rs ts bs : list addr) : Monitor :=
  let u := fold_left (fun u p => round_x h p u) ls t in
  let u := round_x h this u in
  let u := fold_left (fun u p => round_x h p u) rs u in
  let u := fold_left (fun u p => round_y h p u) ts u in
  let u := round_y h this u in
  let u := fold_left (fun u p => round_y h p u) bs u in
  normalized u.

(** [s'] is [s] up to the positions of the monitors and the lines written. *)
Definition repositioned (s s' : State) : Prop :=
  unplaced <$> monitors s' = unplaced <$> monitors s /\
  requests s' = requests s.

(** The requests that committing the monitors [ps] sends in the build [cfg]. *)
Definition committed (cfg : config) (h : list Monitor) (ps : list addr)
  : list XRequest :=
  if DRYRUN cfg then [] else commits h ps.

(** ** Example states *)

Module Examples.

(** The default build: logind, no debug output, requests are sent. *)
Definition build : config := mkConfig true false false "acpi:IBM0079:PNP0C15:LNXDOCK:".

(** The mode catalog of the examples. *)
Definition catalog : list XRRModeInfo.t :=
  [XRRModeInfo.mk 101 1920 1080; XRRModeInfo.mk 102 1280 1024;
   XRRModeInfo.mk 103 1024 768; XRRModeInfo.mk 104 1600 900].

(** A monitor on output [o], driven by controller [c] in the mode [mode],
    as the constructor leaves it, with the given flag and neighbours. *)
Definition monitor (o c : XID) (mode : XRRModeInfo.t) (mmw mmh : N)
  (primary : bool) (l r t b : option addr) : Monitor :=
  mkMonitor o (Some (XRROutputInfo.mk c mmw mmh)) (Some mode) c
    (Some (XRRCrtcInfo.mk 0 0 (XRRModeInfo.width mode) (XRRModeInfo.height mode)
             (XRRModeInfo.id mode)))
    0 0 0 0 0 0 0 0 false primary l r t b.

Definition state (ms : list Monitor) : State :=
  mkState [] catalog ms (fun _ => true) [] [].

Definition full_hd : XRRModeInfo.t := XRRModeInfo.mk 101 1920 1080.
Definition sxga : XRRModeInfo.t := XRRModeInfo.mk 102 1280 1024.
Definition xga : XRRModeInfo.t := XRRModeInfo.mk 103 1024 768.
Definition hd_plus : XRRModeInfo.t := XRRModeInfo.mk 104 1600 900.

(** One monitor, no neighbours. *)
Definition alone : State :=
  state [monitor 11 1 full_hd 510 290 true None None None None].

(** A primary anchor with one monitor to its left. *)
Definition one_left : State :=
  state [monitor 11 1 full_hd 510 290 true (Some 1%nat) None None None;
         monitor 12 2 sxga 380 300 false None None None None].

(** An anchor with two monitors to its left: 1 next to it, then 2. *)
Definition two_left : State :=
  state [monitor 11 1 full_hd 510 290 true (Some 1%nat) None None None;
         monitor 12 2 sxga 380 300 false (Some 2%nat) None None None;
         monitor 13 3 xga 300 230 false None None None None].

(** An anchor with two monitors above it: 1 next to it, then 2. *)
Definition two_top : State :=
  state [monitor 11 1 full_hd 510 290 true None None (Some 1%nat) None;
         monitor 12 2 sxga 380 300 false None None (Some 2%nat) None;
         monitor 13 3 xga 300 230 false None None None None].

(** An anchor of width [W] with a monitor of width [L] to its left and a
    monitor of width [R] to its right. *)
Definition one_each_side (W L R hW hL hR : N) : State :=
  state [monitor 11 1 (XRRModeInfo.mk 101 W hW) 510 290 true
           (Some 1%nat) (Some 2%nat) None None;
         monitor 12 2 (XRRModeInfo.mk 102 L hL) 380 300 false None None None None;
         monitor 13 3 (XRRModeInfo.mk 103 R hR) 300 230 false None None None None].


(** An anchor whose left and top neighbour are the same monitor, and a
    monitor to its right. *)
Definition shared : State :=
  state [monitor 11 1 full_hd 510 290 true (Some 1%nat) (Some 2%nat) (Some 1%nat) None;
         monitor 12 2 sxga 380 300 false None None None None;
         monitor 13 3 xga 300 230 false None None None None].

(** The dock files of a docked machine, of an undocked one with the dock
    driver loaded and of a machine without dock driver. *)
Definition docked : Dock.sysfs :=
  Dock.mkSysfs (Dock.contents "1") (Dock.contents "acpi:IBM0079:PNP0C15:LNXDOCK:") "000".
Definition undocked : Dock.sysfs :=
  Dock.mkSysfs (Dock.contents "0") (Dock.contents "acpi:IBM0079:PNP0C15:LNXDOCK:") "000".
Definition no_dock : Dock.sysfs :=
  Dock.mkSysfs Dock.no_file Dock.no_file "000".

Definition logind_up : PowerManager.logind := PowerManager.mkLogind true None.

End Examples.

(** * The rest of the library *)

From Stdlib Require DecimalString.

(** Reading and writing the state outside the monitors. *)
Definition reads {A : Type} (f : State -> A) : M A := fun s => Done (f s) s.

Definition writes (f : State -> State) : M unit := fun s => Done tt (f s).

(** ** ScreenResources: markControllerAsBusy *)

Module Pool.

(** [ScreenResources::markControllerAsBusy]: the vector afterwards.  The
    loop erases at the first equal controller and breaks. *)
Fixpoint markControllerAsBusy (videoController : VideoController)
  (availableControllers : list VideoController) : list VideoController :=
  match availableControllers with
  | [] => []
  | controller :: rest =>
      if controller =? videoController then rest
      else controller :: markControllerAsBusy videoController rest
  end.

(** [n] calls of [ScreenResources::requestController] in a row: the
    results, in call order, and the vector afterwards. *)
Fixpoint lease (n : nat) (availableControllers : list VideoController)
  : list VideoController * list VideoController :=
  match n with
  | O => ([], availableControllers)
  | S n' =>
      let '(ret, rest) := ScreenResources.requestController availableControllers in
      let '(rets, rest') := lease n' rest in
      (ret :: rets, rest')
  end.

End Pool.

(** ** Monitor: the members that the claims do not read *)

Definition set_isPrimary (v : bool) (m : Monitor) : Monitor :=
  mkMonitor (videoOutput m) (videoOutputInfo m) (videoModeInfo m)
    (videoController m) (videoControllerInfo m) (xAxisMaxHeight m)
    (yAxisMaxWidth m) (xAxisMaxHeightmm m) (yAxisMaxWidthmm m) (screenWidth m)
    (screenHeight m) (screenWidthMillimeters m) (screenHeightMillimeters m)
    (limitsCalculated m) v (leftMonitor m) (rightMonitor m) (topMonitor m)
    (bottomMonitor m).

Definition set_leftMonitor (v : option addr) (m : Monitor) : Monitor :=
  mkMonitor (videoOutput m) (videoOutputInfo m) (videoModeInfo m)
    (videoController m) (videoControllerInfo m) (xAxisMaxHeight m)
    (yAxisMaxWidth m) (xAxisMaxHeightmm m) (yAxisMaxWidthmm m) (screenWidth m)
    (screenHeight m) (screenWidthMillimeters m) (screenHeightMillimeters m)
    (limitsCalculated m) (isPrimary m) v (rightMonitor m) (topMonitor m)
    (bottomMonitor m).

Definition set_rightMonitor (v : option addr) (m : Monitor) : Monitor :=
  mkMonitor (videoOutput m) (videoOutputInfo m) (videoModeInfo m)
    (videoController m) (videoControllerInfo m) (xAxisMaxHeight m)
    (yAxisMaxWidth m) (xAxisMaxHeightmm m) (yAxisMaxWidthmm m) (screenWidth m)
    (screenHeight m) (screenWidthMillimeters m) (screenHeightMillimeters m)
    (limitsCalculated m) (isPrimary m) (leftMonitor m) v (topMonitor m)
    (bottomMonitor m).

Definition set_topMonitor (v : option addr) (m : Monitor) : Monitor :=
  mkMonitor (videoOutput m) (videoOutputInfo m) (videoModeInfo m)
    (videoController m) (videoControllerInfo m) (xAxisMaxHeight m)
    (yAxisMaxWidth m) (xAxisMaxHeightmm m) (yAxisMaxWidthmm m) (screenWidth m)
    (screenHeight m) (screenWidthMillimeters m) (screenHeightMillimeters m)
    (limitsCalculated m) (isPrimary m) (leftMonitor m) (rightMonitor m) v
    (bottomMonitor m).

Definition set_bottomMonitor (v : option addr) (m : Monitor) : Monitor :=
  mkMonitor (videoOutput m) (videoOutputInfo m) (videoModeInfo m)
    (videoController m) (videoControllerInfo m) (xAxisMaxHeight m)
    (yAxisMaxWidth m) (xAxisMaxHeightmm m) (yAxisMaxWidthmm m) (screenWidth m)
    (screenHeight m) (screenWidthMillimeters m) (screenHeightMillimeters m)
    (limitsCalculated m) (isPrimary m) (leftMonitor m) (rightMonitor m)
    (topMonitor m) v.

Definition set_videoOutputInfo (v : option XRROutputInfo.t) (m : Monitor) : Monitor :=
  mkMonitor (videoOutput m) v (videoModeInfo m)
    (videoController m) (videoControllerInfo m) (xAxisMaxHeight m)
    (yAxisMaxWidth m) (xAxisMaxHeightmm m) (yAxisMaxWidthmm m) (screenWidth m)
    (screenHeight m) (screenWidthMillimeters m) (screenHeightMillimeters m)
    (limitsCalculated m) (isPrimary m) (leftMonitor m) (rightMonitor m)
    (topMonitor m) (bottomMonitor m).

Definition set_videoOutput (v : VideoOutput) (m : Monitor) : Monitor :=
  mkMonitor v (videoOutputInfo m) (videoModeInfo m)
    (videoController m) (videoControllerInfo m) (xAxisMaxHeight m)
    (yAxisMaxWidth m) (xAxisMaxHeightmm m) (yAxisMaxWidthmm m) (screenWidth m)
    (screenHeight m) (screenWidthMillimeters m) (screenHeightMillimeters m)
    (limitsCalculated m) (isPrimary m) (leftMonitor m) (rightMonitor m)
    (topMonitor m) (bottomMonitor m).

(** [Monitor::turnOff]. *)
Definition turnOff (this : addr) : M unit :=
  m ← load this;
  match videoControllerInfo m with
  | None => mret tt
  | Some c =>
      assign this
        (set_videoControllerInfo
           (Some (XRRCrtcInfo.mk (XRRCrtcInfo.x c) (XRRCrtcInfo.y c)
                    (XRRCrtcInfo.width c) (XRRCrtcInfo.height c) None_)));;
      assign this (set_videoModeInfo None)
  end.

(** [Monitor::getPosition]. *)
Definition getPosition (this : addr) : M point.t :=
  m ← load this;
  match videoControllerInfo m with
  | None =>
      fprintf (stderr "requested position of inactive monitor\n");;
      mret (point.mk (-1) (-1))
  | Some c => mret (point.mk (XRRCrtcInfo.x c) (XRRCrtcInfo.y c))
  end.

(** [Monitor::setLeftMonitor], [setRightMonitor], [setTopMonitor],
    [setBottomMonitor], [setPrimary]. *)
Definition setLeftMonitor (this : addr) (monitor : option addr) : M unit :=
  assign this (set_leftMonitor monitor).

Definition setRightMonitor (this : addr) (monitor : option addr) : M unit :=
  assign this (set_rightMonitor monitor).

Definition setTopMonitor (this : addr) (monitor : option addr) : M unit :=
  assign this (set_topMonitor monitor).

Definition setBottomMonitor (this : addr) (monitor : option addr) : M unit :=
  assign this (set_bottomMonitor monitor).

Definition setPrimary (this : addr) (i : bool) : M unit :=
  assign this (set_isPrimary i).

(** The X library as the library queries it: the answers of
    [XRRGetScreenResourcesCurrent], [XRRGetOutputInfo] and [XRRGetCrtcInfo],
    a null answer is [None]. *)
Record XRRScreenResources := mkXRRScreenResources {
  crtcs : list VideoController;
  outputs : list VideoOutput;
  modes : list XRRModeInfo.t
}.

Record XLib := mkXLib {
  XRRGetScreenResourcesCurrent : option XRRScreenResources;
  XRRGetOutputInfo : VideoOutput -> option XRROutputInfo.t;
  XRRGetCrtcInfo : VideoController -> option XRRCrtcInfo.t
}.

(** [Monitor::setController].  The default X server is the connected one
    that the monitor was made with. *)
Definition setController (x : XLib) (this : addr) (controller : VideoController)
  : M unit :=
  assign this (set_videoController controller);;
  m ← load this;
  assign this (set_videoControllerInfo (XRRGetCrtcInfo x (videoController m)));;
  m ← load this;
  when (negb (present (videoControllerInfo m)))
    (fprintf (stderr "error querying new controller\n")).

(** [Monitor::reconfigure]. *)
Definition reconfigure (x : XLib) (this : addr) : M bool :=
  controller ← reads (fun s =>
    fst (ScreenResources.requestController (availableControllers s)));
  writes (fun s =>
    set_availableControllers
      (snd (ScreenResources.requestController (availableControllers s))) s);;
  if controller =? None_ then
    fprintf (stderr "can't reconfigure output: no available controllers");;
    mret false
  else
    setController x this controller;;
    mret true.

(** ** The modes an output advertises *)

Module OutputModes.

(** The members of the [XRROutputInfo] behind [videoOutputInfo] that
    [isOutputModeSupported] and [getPreferredOutputMode] read: [modes] is
    the array of [nmode] mode ids. *)
Record t := mk {
  nmode : Z;
  npreferred : Z;
  modes : list VideoOutputMode
}.

(** [for (i = ...; i < nmode; i++) if (modes[i] == mode) return true;] with
    [n] rounds to go from index [i]; [None] is a read outside the array. *)
Fixpoint scan (n i : nat) (modes : list VideoOutputMode) (mode : VideoOutputMode)
  : option bool :=
  match n with
  | O => Some false
  | S n' =>
      match nth_error modes i with
      | None => None
      | Some rrMode =>
          if rrMode =? mode then Some true else scan n' (S i) modes mode
      end
  end.

(** [Monitor::isOutputModeSupported]. *)
Definition isOutputModeSupported (info : t) (mode : VideoOutputMode) : option bool :=
  scan (Z.to_nat (nmode info)) 0 (modes info) mode.

(** [Monitor::getPreferredOutputMode]: [modes[npreferred - 1]], [None] is a
    read outside the array. *)
Definition getPreferredOutputMode (info : t) : option VideoOutputMode :=
  let preferredMode := (npreferred info - 1)%Z in
  if (preferredMode <? 0)%Z then None
  else nth_error (modes info) (Z.to_nat preferredMode).

End OutputModes.

(** ** Discovery: the constructors and getMonitors *)

Module Discovery.

(** [%lu]. *)
Definition decimal (n : N) : string := DecimalString.NilZero.string_of_uint (N.to_uint n).

(** [ScreenResources::ScreenResources]: the vectors [controllers] and
    [videoOutputs], and in the state the available controllers, the mode
    catalog and no monitors yet.  [w] gives the server side of the state. *)
Definition ScreenResources_new (x : XLib) (w : State)
  : (list VideoController * list VideoOutput) * State :=
  match XRRGetScreenResourcesCurrent x with
  | None =>
      (([], []),
       mkState [] [] [] (set_config_ok w) (requests w)
         (printed w ++ [stderr "Error getting screen resources!"]))
  | Some resources =>
      ((crtcs resources, outputs resources),
       mkState (crtcs resources) (modes resources) [] (set_config_ok w)
         (requests w) (printed w))
  end.

(** The loop of the constructor over the mode catalog: every entry with the
    id of the current mode is assigned, there is no break. *)
Definition current_mode (mode : VideoOutputMode) (infos : list XRRModeInfo.t)
  (m : Monitor) : Monitor :=
  fold_left
    (fun m info =>
       if XRRModeInfo.id info =? mode then set_videoModeInfo (Some info) m else m)
    infos m.

(** [Monitor::Monitor]: the object made for [videoOutput].  [blank] is the
    object as the default member initialisers of [libthinkdock.h] leave
    it.  The default X server is connected. *)
Definition Monitor_new (x : XLib) (blank : Monitor) (videoOutput : VideoOutput)
  : M Monitor :=
  let m := set_videoOutput videoOutput blank in
  let m := set_videoOutputInfo (XRRGetOutputInfo x videoOutput) m in
  match videoOutputInfo m with
  | None =>
      fprintf (stderr ("error fetching information about output ("
                       ++ decimal videoOutput ++ ")\n"));;
      mret m
  | Some info =>
      if XRROutputInfo.crtc info =? None_ then mret m
      else
        let m := set_videoController (XRROutputInfo.crtc info) m in
        writes (fun s =>
          set_availableControllers
            (Pool.markControllerAsBusy (videoController m) (availableControllers s))
            s);;
        let m := set_videoControllerInfo (XRRGetCrtcInfo x (videoController m)) m in
        match videoControllerInfo m with
        | None =>
            fprintf (stderr ("error fetching information from controller ("
                             ++ decimal (videoController m) ++ ")\n"));;
            mret m
        | Some c =>
            if XRRCrtcInfo.mode c =? None_ then mret m
            else
              infos ← reads videoOutputModes;
              let m := current_mode (XRRCrtcInfo.mode c) infos m in
              when (negb (present (videoModeInfo m)))
                (fprintf (stderr "error fetching info about current mode\n"));;
              mret m
        end
  end.

(** The controllers that drive the outputs [outputs], in output order, as
    [XRRGetOutputInfo] tells. *)
Definition driving (x : XLib) (outputs : list VideoOutput) : list VideoController :=
  flat_map
    (fun output =>
       match XRRGetOutputInfo x output with
       | Some info =>
           if XRROutputInfo.crtc info =? None_ then [] else [XRROutputInfo.crtc info]
       | None => []
       end) outputs.

(** [monitors->push_back(new Monitor(output, this))] for every output. *)
Fixpoint make_monitors (x : XLib) (blank : Monitor) (outputs : list VideoOutput)
  : M unit :=
  match outputs with
  | [] => mret tt
  | output :: rest =>
      monitor ← Monitor_new x blank output;
      writes (fun s => set_monitors (monitors s ++ [monitor]) s);;
      make_monitors x blank rest
  end.

(** [ScreenResources::getMonitors]: the vector of monitors, which is the
    arena. *)
Definition getMonitors (x : XLib) (blank : Monitor) (videoOutputs : list VideoOutput)
  : M (list addr) :=
  size ← reads (fun s => length (monitors s));
  if negb (size =? 0)%nat then mret (seq 0 size)
  else
    make_monitors x blank videoOutputs;;
    size ← reads (fun s => length (monitors s));
    mret (seq 0 size).

End Discovery.

(** ** XServer: the default server *)

Module XServer.

(** An [XServer] object: [display] is null until [connect] succeeds, and
    [screen] and [window] are not set until then. *)
Record t := mk {
  display : option N;
  screen : option Z;
  window : option N
}.

(** The static [XServer::server], what [XOpenDisplay(NULL)] answers now
    (the display with its default screen and root window, or null), and
    the lines written. *)
Record world := mkWorld {
  server : option t;
  XOpenDisplay : option (N * Z * N);
  written : list line
}.

(** [XServer::connect] on a new object: whether it succeeded, the object
    and the lines afterwards. *)
Definition connect (w : world) : bool * t * list line :=
  match XOpenDisplay w with
  | None =>
      (false, mk None None None,
       written w ++ [stderr "Error opening X11 local connection"])
  | Some (d, scr, win) => (true, mk (Some d) (Some scr) (Some win), written w)
  end.

(** [XServer::getDefaultXServer]: the pointer returned and the world
    afterwards. *)
Definition getDefaultXServer (w : world) : option t * world :=
  match server w with
  | None =>
      let '(ok, object, lines) := connect w in
      if ok then (Some object, mkWorld (Some object) (XOpenDisplay w) lines)
      else
        (None,
         mkWorld (Some object) (XOpenDisplay w)
           (lines ++ [stderr "Error connecting to default X Server!"]))
  | Some object => (Some object, w)
  end.

End XServer.

(** ** What the loops of calculateRelativePositions write *)

(** The mode info of the monitor at [p]; zeros where it is missing. *)
Definition info_at (h : list Monitor) (p : addr) : XRRModeInfo.t :=
  match h !! p ≫= videoModeInfo with
  | Some info => info
  | None => XRRModeInfo.mk 0 0 0
  end.

(** A monitor with its controller info moved to [position]. *)
Definition moved (position : point.t) (m : Monitor) : Monitor :=
  match videoControllerInfo m with
  | Some c =>
      set_videoControllerInfo
        (Some (XRRCrtcInfo.mk (point.x position) (point.y position)
                 (XRRCrtcInfo.width c) (XRRCrtcInfo.height c) (XRRCrtcInfo.mode c)))
        m
  | None => m
  end.

(** The state after [setPosition] on a monitor with controller info. *)
Definition place (p : addr) (position : point.t) (s : State) : State :=
  match monitors s !! p with
  | Some m => put p (moved position m) s
  | None => s
  end.

Definition place_all (ws : list (addr * point.t)) (s : State) : State :=
  fold_left (fun s w => place (fst w) (snd w) s) ws s.

(** A loop that, at the monitor [p] and with the local variable [l], writes
    the position [wr p l] and goes on with [nx p l]: the positions it
    writes along [ps], and the local variable at the end. *)
Fixpoint placements (wr nx : addr -> point.t -> point.t) (ps : list addr)
  (l : point.t) : list (addr * point.t) :=
  match ps with
  | [] => []
  | p :: rest => (p, wr p l) :: placements wr nx rest (nx p l)
  end.

Fixpoint local_after (nx : addr -> point.t -> point.t) (ps : list addr)
  (l : point.t) : point.t :=
  match ps with
  | [] => l
  | p :: rest => local_after nx rest (nx p l)
  end.

(** Width and height of the mode of the monitor at [p], as coordinates. *)
Definition wz (h : list Monitor) (p : addr) : Z :=
  Z.of_N (XRRModeInfo.width (info_at h p)).

Definition hz (h : list Monitor) (p : addr) : Z :=
  Z.of_N (XRRModeInfo.height (info_at h p)).

(** The origin of the anchor for the left chain [ls] and the top chain [ts]. *)
Definition origin (h : list Monitor) (ls ts : list addr) : point.t :=
  point.mk (Z.of_N (sum_over (width_at h) ls)) (Z.of_N (sum_over (height_at h) ts)).

(** The same as getPrimaryRelativePosition computes it: the sums held by
    [unsigned int] locals and copied into the coordinates. *)
Definition origin_int (h : list Monitor) (ls ts : list addr) : point.t :=
  point.mk (to_int (Z.of_N (to_unsigned_int (sum_over (width_at h) ls))))
    (to_int (Z.of_N (to_unsigned_int (sum_over (height_at h) ts)))).

(** What the four loops of calculateRelativePositions write, in the order in
    which they write it, for the anchor [this] at [root]. *)
Definition written_left (h : list Monitor) (root : point.t) (ls : list addr)
  : list (addr * point.t) :=
  placements (fun p l => point.mk (point.x root - wz h p) (point.y l))
    (fun p l => point.mk (point.x root - wz h p) (point.y l)) ls root.

Definition written_right (h : list Monitor) (root : point.t) (this : addr)
  (rs : list addr) : list (addr * point.t) :=
  placements (fun p l => l) (fun p l => point.mk (point.x l + wz h p) (point.y l)) rs
    (point.mk (point.x root + wz h this) (point.y root)).

Definition written_top (h : list Monitor) (root : point.t) (ts : list addr)
  : list (addr * point.t) :=
  placements (fun p l => point.mk (point.x l) (point.y l - hz h p))
    (fun p l => point.mk (point.x l) (point.y l - hz h p)) ts root.

Definition written_bottom (h : list Monitor) (root : point.t) (this : addr)
  (bs : list addr) : list (addr * point.t) :=
  placements (fun p l => l) (fun p l => point.mk (point.x l) (point.y l + hz h p)) bs
    (point.mk (point.x root) (point.y root + hz h this)).

(** The monitor at [p] has a controller info, and it is at [position]. *)
Definition placed (h : list Monitor) (p : addr) (position : point.t) : Prop :=
  exists m c,
    h !! p = Some m /\ videoControllerInfo m = Some c /\
    point.mk (XRRCrtcInfo.x c) (XRRCrtcInfo.y c) = position.

(** ** More example states *)

Module MoreExamples.

(** A monitor that no controller drives. *)
Definition no_controller : Monitor :=
  mkMonitor 12 (Some (XRROutputInfo.mk 0 380 300)) None 0 None
    0 0 0 0 0 0 0 0 false false None None None None.

(** A driven monitor and one without controller; controller 2 is free. *)
Definition unbound : State :=
  mkState [2] Examples.catalog
    [Examples.monitor 11 1 Examples.full_hd 510 290 true None None None None;
     no_controller]
    (fun _ => true) [] [].

(** A monitor after turnOff: controller 1, placed at (640, 0), mode None. *)
Definition dark : Monitor :=
  mkMonitor 11 (Some (XRROutputInfo.mk 1 510 290)) None 1
    (Some (XRRCrtcInfo.mk 640 0 1920 1080 None_))
    0 0 0 0 0 0 0 0 false true None None None None.

Definition turned_off : State :=
  mkState [] Examples.catalog [dark] (fun _ => true) [] [].

(** An X library that knows two outputs, on controllers 1 and none, and
    answers every controller query; and one that answers no controller
    query. *)
Definition xlib : XLib :=
  mkXLib
    (Some (mkXRRScreenResources [1; 2] [11; 12] Examples.catalog))
    (fun output =>
       if output =? 11 then Some (XRROutputInfo.mk 1 510 290)
       else if output =? 12 then Some (XRROutputInfo.mk None_ 380 300)
       else None)
    (fun controller =>
       if controller =? 1 then Some (XRRCrtcInfo.mk 0 0 1920 1080 101)
       else Some (XRRCrtcInfo.mk 0 0 0 0 None_)).

Definition xlib_silent : XLib :=
  mkXLib (XRRGetScreenResourcesCurrent xlib) (XRRGetOutputInfo xlib) (fun _ => None).

(** An X library without screen resources. *)
Definition xlib_down : XLib :=
  mkXLib None (fun _ => None) (fun _ => None).

(** The members as null, 0 and false. *)
Definition blank : Monitor :=
  mkMonitor 0 None None 0 None 0 0 0 0 0 0 0 0 false false None None None None.

(** The state that the constructor of ScreenResources leaves for [xlib]. *)
Definition found : State :=
  snd (Discovery.ScreenResources_new xlib (Examples.state [])).

(** A build without logind. *)
Definition no_systemd : config :=
  mkConfig false false false "acpi:IBM0079:PNP0C15:LNXDOCK:".

(** A modalias file that ends in a newline. *)
Definition modalias_newline : Dock.sysfs :=
  Dock.mkSysfs (Dock.contents "1")
    (Dock.contents ("acpi:IBM0079:PNP0C15:LNXDOCK:" ++ String "010" EmptyString))
    "000".

(** An anchor with monitor 1 to its left, 2 and then 3 to its right, 4
    above and 5 below it. *)
Definition cross : State :=
  Examples.state
    [Examples.monitor 11 1 Examples.full_hd 510 290 true
       (Some 1%nat) (Some 2%nat) (Some 4%nat) (Some 5%nat);
     Examples.monitor 12 2 Examples.sxga 380 300 false None None None None;
     Examples.monitor 13 3 Examples.xga 300 230 false None (Some 3%nat) None None;
     Examples.monitor 14 4 Examples.hd_plus 440 250 false None None None None;
     Examples.monitor 15 5 Examples.xga 300 230 false None None None None;
     Examples.monitor 16 6 Examples.sxga 380 300 false None None None None].

End MoreExamples.

(** * Theorems *)

(** ** The integer conversions *)

Lemma to_int_range z : (- 2 ^ 31 <= z < 2 ^ 31)%Z -> to_int z = z.
Proof. intros H. unfold to_int. rewrite Z.mod_small by lia. lia. Qed.

Lemma to_unsigned_int_range n : n < 2 ^ 32 -> to_unsigned_int n = n.
Proof. intros H. unfold to_unsigned_int. apply N.mod_small, H. Qed.

Lemma to_unsigned_int_add n m :
  to_unsigned_int (to_unsigned_int n + m) = to_unsigned_int (n + m).
Proof.
  unfold to_unsigned_int. rewrite N.Div0.add_mod_idemp_l. reflexivity.
Qed.

(** A size within the range of [int] is copied into an [unsigned int] and
    from there into a coordinate as it is. *)
Lemma to_int_unsigned n :
  (Z.of_N n < 2 ^ 31)%Z -> to_int (Z.of_N (to_unsigned_int n)) = Z.of_N n.
Proof.
  intros H. rewrite to_unsigned_int_range by lia. apply to_int_range. lia.
Qed.

(** ** Running the monad *)

Lemma run_bind {A B : Type} (c : M A) (f : A -> M B) (s : State) :
  (c ≫= f) s =
  match c s with
  | Done a s' => f a s'
  | Fault s' => Fault s'
  | Diverge => Diverge
  end.
Proof. reflexivity. Qed.

Lemma bind_Done {A B : Type} (c : M A) (f : A -> M B) s a s' :
  c s = Done a s' -> (c ≫= f) s = f a s'.
Proof. intros H. rewrite run_bind, H. reflexivity. Qed.

Lemma load_Done p m s : monitors s !! p = Some m -> load p s = Done m s.
Proof. intros H. unfold load. rewrite H. reflexivity. Qed.

Lemma store_Done p m m' s :
  monitors s !! p = Some m ->
  store p m' s = Done tt (set_monitors (<[p := m']> (monitors s)) s).
Proof. intros H. unfold store. rewrite H. reflexivity. Qed.

Lemma assign_Done this f t s :
  monitors s !! this = Some t ->
  assign this f s = Done tt (set_monitors (<[this := f t]> (monitors s)) s).
Proof.
  intros H. unfold assign.
  rewrite (bind_Done _ _ _ _ _ (load_Done _ _ _ H)).
  apply (store_Done _ t). exact H.
Qed.

Lemma modeInfo_Done p m info s :
  monitors s !! p = Some m -> videoModeInfo m = Some info ->
  modeInfo p s = Done info s.
Proof.
  intros H Hi. unfold modeInfo.
  rewrite (bind_Done _ _ _ _ _ (load_Done _ _ _ H)). unfold deref. rewrite Hi.
  reflexivity.
Qed.

Lemma outputInfo_Done p m out s :
  monitors s !! p = Some m -> videoOutputInfo m = Some out ->
  outputInfo p s = Done out s.
Proof.
  intros H Hi. unfold outputInfo.
  rewrite (bind_Done _ _ _ _ _ (load_Done _ _ _ H)). unfold deref. rewrite Hi.
  reflexivity.
Qed.

Lemma put_put this u1 u2 s : put this u2 (put this u1 s) = put this u2 s.
Proof. unfold put. cbn. rewrite list_insert_insert_eq. reflexivity. Qed.

Lemma put_same this t s : monitors s !! this = Some t -> put this t s = s.
Proof.
  intros H. unfold put. rewrite list_insert_id by assumption.
  destruct s; reflexivity.
Qed.

Lemma lookup_put_eq this t u s :
  monitors s !! this = Some t -> monitors (put this u s) !! this = Some u.
Proof.
  intros H. cbn. apply list_lookup_insert_eq. eapply lookup_lt_Some, H.
Qed.

Lemma lookup_put_ne this u s p :
  this <> p -> monitors (put this u s) !! p = monitors s !! p.
Proof. intros H. cbn. apply list_lookup_insert_ne, H. Qed.

Lemma assign_put this f t u s :
  monitors s !! this = Some t ->
  assign this f (put this u s) = Done tt (put this (f u) s).
Proof.
  intros H. rewrite (assign_Done _ _ u) by (eapply lookup_put_eq, H).
  fold (put this (f u) (put this u s)). rewrite put_put. reflexivity.
Qed.

(** What [ptr] points to keeps its info objects when [this] is assigned
    members other than them. *)
Lemma lookup_put_infos this t u s ptr p :
  monitors s !! this = Some t -> monitors s !! ptr = Some p ->
  videoModeInfo u = videoModeInfo t ->
  videoOutputInfo u = videoOutputInfo t ->
  exists p', monitors (put this u s) !! ptr = Some p' /\
             videoModeInfo p' = videoModeInfo p /\
             videoOutputInfo p' = videoOutputInfo p.
Proof.
  intros Ht Hp Hm Ho. destruct (decide (this = ptr)) as [->|Hne].
  - exists u. rewrite (lookup_put_eq _ _ _ _ Ht).
    rewrite Ht in Hp. injection Hp as <-. auto.
  - exists p. rewrite lookup_put_ne by assumption. auto.
Qed.

Lemma larger_max a b : larger a b = N.max a b.
Proof.
  unfold larger. destruct (N.ltb_spec b a); [rewrite N.max_l|rewrite N.max_r]; lia.
Qed.

(** [if (v > this->f) this->f = v] is [this->f = max(this->f, v)]. *)
Lemma raise_put this (get : Monitor -> N) (set : N -> Monitor -> Monitor) v t u s :
  (forall m, set (get m) m = m) ->
  monitors s !! this = Some t ->
  when (get u <? v) (assign this (set v)) (put this u s)
  = Done tt (put this (set (N.max (get u) v) u) s).
Proof.
  intros Hid Ht. unfold when. destruct (N.ltb_spec (get u) v).
  - rewrite (assign_put _ _ _ _ _ Ht). rewrite N.max_r by lia. reflexivity.
  - rewrite N.max_l by lia. rewrite Hid. reflexivity.
Qed.

Lemma limits_along_x_put this ptr t u p info out s :
  monitors s !! this = Some t ->
  monitors s !! ptr = Some p ->
  videoModeInfo p = Some info ->
  videoOutputInfo p = Some out ->
  videoModeInfo u = videoModeInfo t ->
  videoOutputInfo u = videoOutputInfo t ->
  limits_along_x this ptr (put this u s) = Done tt (put this (along_x info out u) s).
Proof.
  intros Ht Hp Hi Ho Hum Huo.
  assert (Hptr : forall u', videoModeInfo u' = videoModeInfo t ->
                            videoOutputInfo u' = videoOutputInfo t ->
            modeInfo ptr (put this u' s) = Done info (put this u' s) /\
            outputInfo ptr (put this u' s) = Done out (put this u' s)).
  { intros u' H1 H2.
    destruct (lookup_put_infos this t u' s ptr p Ht Hp H1 H2) as (p' & Hp' & E1 & E2).
    split; [eapply modeInfo_Done|eapply outputInfo_Done]; eauto; congruence. }
  unfold limits_along_x.
  rewrite (bind_Done _ _ _ _ _ (proj1 (Hptr u Hum Huo))).
  rewrite (bind_Done _ _ _ _ _ (load_Done _ _ _ (lookup_put_eq _ _ u _ Ht))).
  rewrite (bind_Done _ _ _ _ _
             (raise_put this xAxisMaxHeight set_xAxisMaxHeight _ t u s
                ltac:(intros []; reflexivity) Ht)).
  set (u1 := set_xAxisMaxHeight _ u).
  rewrite (bind_Done _ _ _ _ _ (proj2 (Hptr u1 Hum Huo))).
  rewrite (bind_Done _ _ _ _ _ (load_Done _ _ _ (lookup_put_eq _ _ u1 _ Ht))).
  rewrite (bind_Done _ _ _ _ _
             (raise_put this xAxisMaxHeightmm set_xAxisMaxHeightmm _ t u1 s
                ltac:(intros []; reflexivity) Ht)).
  set (u2 := set_xAxisMaxHeightmm _ u1).
  rewrite (bind_Done _ _ _ _ _ (proj1 (Hptr u2 Hum Huo))).
  rewrite (bind_Done _ _ _ _ _ (assign_put _ _ _ u2 _ Ht)).
  set (u3 := set_screenWidth _ u2).
  rewrite (bind_Done _ _ _ _ _ (proj2 (Hptr u3 Hum Huo))).
  rewrite (assign_put _ _ _ u3 _ Ht).
  reflexivity.
Qed.

Lemma limits_along_y_put this ptr t u p info out s :
  monitors s !! this = Some t ->
  monitors s !! ptr = Some p ->
  videoModeInfo p = Some info ->
  videoOutputInfo p = Some out ->
  videoModeInfo u = videoModeInfo t ->
  videoOutputInfo u = videoOutputInfo t ->
  limits_along_y this ptr (put this u s) = Done tt (put this (along_y info out u) s).
Proof.
  intros Ht Hp Hi Ho Hum Huo.
  assert (Hptr : forall u', videoModeInfo u' = videoModeInfo t ->
                            videoOutputInfo u' = videoOutputInfo t ->
            modeInfo ptr (put this u' s) = Done info (put this u' s) /\
            outputInfo ptr (put this u' s) = Done out (put this u' s)).
  { intros u' H1 H2.
    destruct (lookup_put_infos this t u' s ptr p Ht Hp H1 H2) as (p' & Hp' & E1 & E2).
    split; [eapply modeInfo_Done|eapply outputInfo_Done]; eauto; congruence. }
  unfold limits_along_y.
  rewrite (bind_Done _ _ _ _ _ (proj1 (Hptr u Hum Huo))).
  rewrite (bind_Done _ _ _ _ _ (load_Done _ _ _ (lookup_put_eq _ _ u _ Ht))).
  rewrite (bind_Done _ _ _ _ _
             (raise_put this yAxisMaxWidth set_yAxisMaxWidth _ t u s
                ltac:(intros []; reflexivity) Ht)).
  set (u1 := set_yAxisMaxWidth _ u).
  rewrite (bind_Done _ _ _ _ _ (proj2 (Hptr u1 Hum Huo))).
  rewrite (bind_Done _ _ _ _ _ (load_Done _ _ _ (lookup_put_eq _ _ u1 _ Ht))).
  rewrite (bind_Done _ _ _ _ _
             (raise_put this yAxisMaxWidthmm set_yAxisMaxWidthmm _ t u1 s
                ltac:(intros []; reflexivity) Ht)).
  set (u2 := set_yAxisMaxWidthmm _ u1).
  rewrite (bind_Done _ _ _ _ _ (proj1 (Hptr u2 Hum Huo))).
  rewrite (bind_Done _ _ _ _ _ (assign_put _ _ _ u2 _ Ht)).
  set (u3 := set_screenHeight _ u2).
  rewrite (bind_Done _ _ _ _ _ (proj2 (Hptr u3 Hum Huo))).
  rewrite (assign_put _ _ _ u3 _ Ht).
  reflexivity.
Qed.

(** ** Chains and loops *)

Lemma chain_ext fuel next (h h' : list Monitor) ptr :
  next <$> h = next <$> h' -> chain fuel next h ptr = chain fuel next h' ptr.
Proof.
  intros E. revert ptr. induction fuel as [|fuel IH]; intros [p|]; cbn; try reflexivity.
  assert (Ep : next <$> (h !! p) = next <$> (h' !! p)).
  { rewrite <- !list_lookup_fmap, E. reflexivity. }
  destruct (h !! p) as [m|], (h' !! p) as [m'|]; cbn in Ep; try discriminate;
    try reflexivity.
  injection Ep as ->. rewrite IH. reflexivity.
Qed.

(** The loop over a chain, by an invariant on the monitors still to come,
    the local variables and the state.  A round must leave the links of
    the chain as they are. *)
Lemma walk_chain {L : Type} (I : list addr -> L -> State -> Prop)
  (next : Monitor -> option addr) (body : addr -> L -> M L) :
  (forall p rest l s, I (p :: rest) l s ->
     exists l' s', body p l s = Done l' s' /\ I rest l' s' /\
                   next <$> monitors s' = next <$> monitors s) ->
  forall fuel ptr ps l s,
    chain fuel next (monitors s) ptr = Some ps ->
    I ps l s ->
    exists l' s', walk fuel next body ptr l s = Done l' s' /\ I [] l' s'.
Proof.
  intros Hbody. induction fuel as [|fuel IH]; intros [p|] ps l s Hc HI; cbn in Hc;
    try discriminate.
  - injection Hc as <-. exists l, s. split; [reflexivity|assumption].
  - destruct (monitors s !! p) as [m|] eqn:Hp; [|discriminate].
    destruct (chain fuel next (monitors s) (next m)) as [rest|] eqn:Hrest;
      [|discriminate].
    injection Hc as <-.
    destruct (Hbody p rest l s HI) as (l' & s' & Hrun & HI' & Hlinks).
    assert (Ep : next <$> (monitors s' !! p) = Some (next m)).
    { rewrite <- list_lookup_fmap, Hlinks, list_lookup_fmap, Hp. reflexivity. }
    destruct (monitors s' !! p) as [m'|] eqn:Hp'; [|discriminate].
    injection Ep as Ep.
    destruct (IH (next m) rest l' s') as (l'' & s'' & Hrun' & HI'').
    { rewrite (chain_ext _ _ _ (monitors s)) by assumption. exact Hrest. }
    { exact HI'. }
    exists l'', s''. split; [|assumption].
    cbn. rewrite (bind_Done _ _ _ _ _ Hrun).
    rewrite (bind_Done _ _ _ _ _ (load_Done _ _ _ Hp')). rewrite Ep. exact Hrun'.
  - injection Hc as <-. exists l, s. split; [reflexivity|assumption].
Qed.

(** ** calculateLimits *)

Lemma frame_proj {A : Type} (f : Monitor -> A) u t :
  (forall m, f (frame m) = f m) -> frame u = frame t -> f u = f t.
Proof. intros Hf E. rewrite <- (Hf u), <- (Hf t), E. reflexivity. Qed.

Lemma frame_normalized u : frame (normalized u) = frame u.
Proof. destruct u; reflexivity. Qed.

Lemma fmap_put {A : Type} (f : Monitor -> A) this t u s :
  monitors s !! this = Some t -> f u = f t ->
  f <$> monitors (put this u s) = f <$> monitors s.
Proof.
  intros Ht E. cbn. rewrite list_fmap_insert, E.
  apply list_insert_id. rewrite list_lookup_fmap, Ht. reflexivity.
Qed.

Lemma measurable_infos (h : list Monitor) p :
  measurable h p = true ->
  exists m info out, h !! p = Some m /\ videoModeInfo m = Some info /\
                     videoOutputInfo m = Some out.
Proof.
  unfold measurable. destruct (h !! p) as [m|]; [|discriminate].
  destruct (videoModeInfo m) as [info|] eqn:E1; [|discriminate].
  destruct (videoOutputInfo m) as [out|] eqn:E2; [|discriminate].
  intros _. eauto 6.
Qed.

Lemma round_put (round : list Monitor -> addr -> Monitor -> Monitor)
  (step : addr -> addr -> M unit)
  (along : XRRModeInfo.t -> XRROutputInfo.t -> Monitor -> Monitor) this t u s p :
  (forall ptr t u p info out s,
     monitors s !! this = Some t -> monitors s !! ptr = Some p ->
     videoModeInfo p = Some info -> videoOutputInfo p = Some out ->
     videoModeInfo u = videoModeInfo t -> videoOutputInfo u = videoOutputInfo t ->
     step this ptr (put this u s) = Done tt (put this (along info out u) s)) ->
  (forall h p u, round h p u =
     match h !! p with
     | Some m =>
         match videoModeInfo m, videoOutputInfo m with
         | Some info, Some out => along info out u
         | _, _ => u
         end
     | None => u
     end) ->
  monitors s !! this = Some t ->
  measurable (monitors s) p = true ->
  frame u = frame t ->
  step this p (put this u s) = Done tt (put this (round (monitors s) p u) s).
Proof.
  intros Hstep Hround Ht Hp Hu.
  destruct (measurable_infos _ _ Hp) as (m & info & out & Hm & Hi & Ho).
  rewrite Hround, Hm, Hi, Ho.
  eapply Hstep; eauto.
  - apply (frame_proj videoModeInfo); [intros []; reflexivity|assumption].
  - apply (frame_proj videoOutputInfo); [intros []; reflexivity|assumption].
Qed.

Lemma walk_limits (round : list Monitor -> addr -> Monitor -> Monitor)
  (step : addr -> addr -> M unit) (next : Monitor -> option addr)
  fuel this t s ptr ps u :
  (forall p u, measurable (monitors s) p = true -> frame u = frame t ->
     step this p (put this u s) = Done tt (put this (round (monitors s) p u) s) /\
     frame (round (monitors s) p u) = frame u) ->
  (forall m, next (frame m) = next m) ->
  monitors s !! this = Some t ->
  chain fuel next (monitors s) ptr = Some ps ->
  forallb (measurable (monitors s)) ps = true ->
  frame u = frame t ->
  walk fuel next (fun ptr _ => step this ptr) ptr tt (put this u s)
  = Done tt (put this (fold_left (fun u p => round (monitors s) p u) ps u) s)
  /\ frame (fold_left (fun u p => round (monitors s) p u) ps u) = frame t.
Proof.
  intros Hstep Hnext Ht Hc Hps Hu.
  set (target := fold_left (fun u p => round (monitors s) p u) ps u).
  destruct (walk_chain
    (fun rest (_ : unit) σ =>
       exists u', σ = put this u' s /\ frame u' = frame t /\
                  forallb (measurable (monitors s)) rest = true /\
                  fold_left (fun u p => round (monitors s) p u) rest u' = target)
    next (fun ptr _ => step this ptr)) with (fuel := fuel) (ptr := ptr) (ps := ps)
    (l := tt) (s := put this u s) as ([] & s' & Hrun & u' & -> & Hu' & _ & E).
  - intros p rest [] σ (u' & -> & Hu' & Hm & E). cbn in Hm, E.
    apply andb_true_iff in Hm as [Hp Hrest].
    destruct (Hstep p u' Hp Hu') as [Hrun Hf].
    exists tt, (put this (round (monitors s) p u') s). split; [exact Hrun|]. split.
    + eexists. split; [reflexivity|]. repeat split; try assumption. congruence.
    + rewrite !(fmap_put next this t) by
        first [assumption | apply (frame_proj next); [assumption|congruence]].
      reflexivity.
  - rewrite (chain_ext _ _ _ (monitors s)); [exact Hc|].
    apply (fmap_put next this t); [assumption|].
    apply (frame_proj next); assumption.
  - exists u. auto.
  - cbn in E. subst u'. split; assumption.
Qed.

Lemma frame_round_x h p u : frame (round_x h p u) = frame u.
Proof.
  unfold round_x. destruct (h !! p) as [m|]; [|reflexivity].
  destruct (videoModeInfo m), (videoOutputInfo m); reflexivity.
Qed.

Lemma frame_round_y h p u : frame (round_y h p u) = frame u.
Proof.
  unfold round_y. destruct (h !! p) as [m|]; [|reflexivity].
  destruct (videoModeInfo m), (videoOutputInfo m); reflexivity.
Qed.

Lemma forallb_app_true {A : Type} (f : A -> bool) l1 l2 :
  forallb f (l1 ++ l2) = true -> forallb f l1 = true /\ forallb f l2 = true.
Proof. rewrite forallb_app. apply andb_true_iff. Qed.

Section Anchor.

(** The monitor [this] that [calculateLimits] runs on, as it is when the
    function is entered. *)
Variables (this : addr) (t : Monitor) (s : State).
Hypothesis Ht : monitors s !! this = Some t.

Lemma round_x_put p u :
  measurable (monitors s) p = true -> frame u = frame t ->
  limits_along_x this p (put this u s) = Done tt (put this (round_x (monitors s) p u) s)
  /\ frame (round_x (monitors s) p u) = frame u.
Proof.
  intros Hp Hu. split; [|apply frame_round_x].
  apply (round_put round_x (fun this ptr => limits_along_x this ptr) along_x this t);
    try assumption; [|reflexivity].
  intros; eapply limits_along_x_put; eauto.
Qed.

Lemma round_y_put p u :
  measurable (monitors s) p = true -> frame u = frame t ->
  limits_along_y this p (put this u s) = Done tt (put this (round_y (monitors s) p u) s)
  /\ frame (round_y (monitors s) p u) = frame u.
Proof.
  intros Hp Hu. split; [|apply frame_round_y].
  apply (round_put round_y (fun this ptr => limits_along_y this ptr) along_y this t);
    try assumption; [|reflexivity].
  intros; eapply limits_along_y_put; eauto.
Qed.

Lemma load_put u : load this (put this u s) = Done u (put this u s).
Proof. apply load_Done. eapply lookup_put_eq, Ht. Qed.

(** [Monitor::calculateLimits] on a monitor whose four chains end and whose
    monitors have their mode and output infos: it returns, and only the
    members of [this] have changed. *)
Lemma calculateLimits_Done fuel ls rs ts bs :
  chain fuel leftMonitor (monitors s) (leftMonitor t) = Some ls ->
  chain fuel rightMonitor (monitors s) (rightMonitor t) = Some rs ->
  chain fuel topMonitor (monitors s) (topMonitor t) = Some ts ->
  chain fuel bottomMonitor (monitors s) (bottomMonitor t) = Some bs ->
  forallb (measurable (monitors s)) (this :: ls ++ rs ++ ts ++ bs) = true ->
  calculateLimits fuel this s
  = Done tt (put this (limited (monitors s) this t ls rs ts bs) s).
Proof.
  intros Hl Hr Htop Hb Hall.
  cbn [forallb] in Hall. apply andb_true_iff in Hall as [Hthis Hall].
  apply forallb_app_true in Hall as [Hls Hall].
  apply forallb_app_true in Hall as [Hrs Hall].
  apply forallb_app_true in Hall as [Hts Hbs].
  unfold calculateLimits, limited.
  rewrite <- (put_same this t s Ht) at 1.
  (* the left wing *)
  rewrite (bind_Done _ _ _ _ _ (load_put t)).
  destruct (walk_limits round_x limits_along_x leftMonitor fuel this t s
              (leftMonitor t) ls t round_x_put ltac:(intros []; reflexivity)
              Ht Hl Hls eq_refl)
    as [R1 F1].
  rewrite (bind_Done _ _ _ _ _ R1). clear R1.
  set (u1 := fold_left _ ls t) in *.
  (* the centre *)
  destruct (round_x_put this u1 Hthis F1) as [R2 F2].
  rewrite (bind_Done _ _ _ _ _ R2). clear R2. rewrite F1 in F2.
  set (u2 := round_x _ this u1) in *.
  (* the right wing *)
  rewrite (bind_Done _ _ _ _ _ (load_put u2)).
  rewrite (frame_proj rightMonitor u2 t ltac:(intros []; reflexivity) F2).
  destruct (walk_limits round_x limits_along_x rightMonitor fuel this t s
              (rightMonitor t) rs u2 round_x_put ltac:(intros []; reflexivity)
              Ht Hr Hrs F2)
    as [R3 F3].
  rewrite (bind_Done _ _ _ _ _ R3). clear R3.
  set (u3 := fold_left _ rs u2) in *.
  (* the top wing *)
  rewrite (bind_Done _ _ _ _ _ (load_put u3)).
  rewrite (frame_proj topMonitor u3 t ltac:(intros []; reflexivity) F3).
  destruct (walk_limits round_y limits_along_y topMonitor fuel this t s
              (topMonitor t) ts u3 round_y_put ltac:(intros []; reflexivity)
              Ht Htop Hts F3)
    as [R4 F4].
  rewrite (bind_Done _ _ _ _ _ R4). clear R4.
  set (u4 := fold_left _ ts u3) in *.
  (* the centre *)
  destruct (round_y_put this u4 Hthis F4) as [R5 F5].
  rewrite (bind_Done _ _ _ _ _ R5). clear R5. rewrite F4 in F5.
  set (u5 := round_y _ this u4) in *.
  (* the bottom wing *)
  rewrite (bind_Done _ _ _ _ _ (load_put u5)).
  rewrite (frame_proj bottomMonitor u5 t ltac:(intros []; reflexivity) F5).
  destruct (walk_limits round_y limits_along_y bottomMonitor fuel this t s
              (bottomMonitor t) bs u5 round_y_put ltac:(intros []; reflexivity)
              Ht Hb Hbs F5)
    as [R6 F6].
  rewrite (bind_Done _ _ _ _ _ R6). clear R6.
  set (u6 := fold_left _ bs u5) in *.
  (* the maximums *)
  rewrite (bind_Done _ _ _ _ _ (assign_put _ _ _ u6 _ Ht)).
  rewrite (bind_Done _ _ _ _ _ (assign_put _ _ _ _ _ Ht)).
  rewrite (bind_Done _ _ _ _ _ (assign_put _ _ _ _ _ Ht)).
  rewrite (bind_Done _ _ _ _ _ (assign_put _ _ _ _ _ Ht)).
  rewrite (assign_put _ _ _ _ _ Ht).
  reflexivity.
Qed.

End Anchor.

(** ** The canvas limits *)

Lemma measurable_sizes (h : list Monitor) p m info out :
  h !! p = Some m -> videoModeInfo m = Some info -> videoOutputInfo m = Some out ->
  width_at h p = XRRModeInfo.width info /\ height_at h p = XRRModeInfo.height info /\
  mm_width_at h p = XRROutputInfo.mm_width out /\
  mm_height_at h p = XRROutputInfo.mm_height out.
Proof.
  intros Hm Hi Ho. unfold width_at, height_at, mm_width_at, mm_height_at.
  rewrite Hm. cbn. rewrite Hi, Ho. auto.
Qed.

Lemma limits_round_x h p u a b c d e f g i :
  measurable h p = true ->
  limits u = [a; b; c; d; e; f; g; i] ->
  limits (round_x h p u)
  = [N.max a (height_at h p); b; N.max c (mm_height_at h p); d;
     e + width_at h p; f; g + mm_width_at h p; i].
Proof.
  intros Hp Hu. destruct (measurable_infos _ _ Hp) as (m & info & out & Hm & Hi & Ho).
  destruct (measurable_sizes _ _ _ _ _ Hm Hi Ho) as (-> & -> & -> & ->).
  unfold round_x. rewrite Hm, Hi, Ho.
  unfold limits in *. cbn. injection Hu as <- <- <- <- <- <- <- <-. reflexivity.
Qed.

Lemma limits_round_y h p u a b c d e f g i :
  measurable h p = true ->
  limits u = [a; b; c; d; e; f; g; i] ->
  limits (round_y h p u)
  = [a; N.max b (width_at h p); c; N.max d (mm_width_at h p);
     e; f + height_at h p; g; i + mm_height_at h p].
Proof.
  intros Hp Hu. destruct (measurable_infos _ _ Hp) as (m & info & out & Hm & Hi & Ho).
  destruct (measurable_sizes _ _ _ _ _ Hm Hi Ho) as (-> & -> & -> & ->).
  unfold round_y. rewrite Hm, Hi, Ho.
  unfold limits in *. cbn. injection Hu as <- <- <- <- <- <- <- <-. reflexivity.
Qed.

Lemma limits_rounds_x h ps : forall u a b c d e f g i,
  forallb (measurable h) ps = true ->
  limits u = [a; b; c; d; e; f; g; i] ->
  limits (fold_left (fun u p => round_x h p u) ps u)
  = [N.max a (max_over (height_at h) ps); b;
     N.max c (max_over (mm_height_at h) ps); d;
     e + sum_over (width_at h) ps; f; g + sum_over (mm_width_at h) ps; i].
Proof.
  induction ps as [|p ps IH]; intros u a b c d e f g i Hps Hu; cbn.
  - rewrite Hu, !N.max_0_r, !N.add_0_r. reflexivity.
  - cbn in Hps. apply andb_true_iff in Hps as [Hp Hps].
    rewrite (IH _ _ _ _ _ _ _ _ _ Hps (limits_round_x _ _ _ _ _ _ _ _ _ _ _ Hp Hu)).
    rewrite !N.max_assoc, !N.add_assoc. reflexivity.
Qed.

Lemma limits_rounds_y h ps : forall u a b c d e f g i,
  forallb (measurable h) ps = true ->
  limits u = [a; b; c; d; e; f; g; i] ->
  limits (fold_left (fun u p => round_y h p u) ps u)
  = [a; N.max b (max_over (width_at h) ps); c;
     N.max d (max_over (mm_width_at h) ps);
     e; f + sum_over (height_at h) ps; g; i + sum_over (mm_height_at h) ps].
Proof.
  induction ps as [|p ps IH]; intros u a b c d e f g i Hps Hu; cbn.
  - rewrite Hu, !N.max_0_r, !N.add_0_r. reflexivity.
  - cbn in Hps. apply andb_true_iff in Hps as [Hp Hps].
    rewrite (IH _ _ _ _ _ _ _ _ _ Hps (limits_round_y _ _ _ _ _ _ _ _ _ _ _ Hp Hu)).
    rewrite !N.max_assoc, !N.add_assoc. reflexivity.
Qed.

Lemma limits_normalized u a b c d e f g i :
  limits u = [a; b; c; d; e; f; g; i] ->
  limits (normalized u) = [a; b; c; d; N.max b e; N.max a f; N.max d g; N.max c i].
Proof.
  intros Hu. unfold limits in *. injection Hu as <- <- <- <- <- <- <- <-.
  cbn. rewrite !larger_max. reflexivity.
Qed.

Lemma max_over_cons f p ps : max_over f (p :: ps) = N.max (f p) (max_over f ps).
Proof. reflexivity. Qed.

Lemma max_over_app f ps qs :
  max_over f (ps ++ qs) = N.max (max_over f ps) (max_over f qs).
Proof.
  induction ps as [|p ps IH]; cbn.
  - rewrite N.max_0_l. reflexivity.
  - unfold max_over in IH. rewrite IH, N.max_assoc. reflexivity.
Qed.

Lemma limits_limited h this t ls rs ts bs :
  forallb (measurable h) (this :: ls ++ rs ++ ts ++ bs) = true ->
  zeroed t ->
  limits (limited h this t ls rs ts bs)
  = let xh := max_over (height_at h) (this :: ls ++ rs) in
    let yw := max_over (width_at h) (this :: ts ++ bs) in
    let xhmm := max_over (mm_height_at h) (this :: ls ++ rs) in
    let ywmm := max_over (mm_width_at h) (this :: ts ++ bs) in
    [xh; yw; xhmm; ywmm;
     N.max (width_at h this + sum_over (width_at h) ls + sum_over (width_at h) rs) yw;
     N.max (height_at h this + sum_over (height_at h) ts + sum_over (height_at h) bs) xh;
     N.max (mm_width_at h this + sum_over (mm_width_at h) ls + sum_over (mm_width_at h) rs)
       ywmm;
     N.max (mm_height_at h this + sum_over (mm_height_at h) ts
            + sum_over (mm_height_at h) bs) xhmm].
Proof.
  intros Hall (F1 & F2 & F3 & F4 & F5 & F6 & F7 & F8).
  cbn [forallb] in Hall. apply andb_true_iff in Hall as [Hthis Hall].
  apply forallb_app_true in Hall as [Hls Hall].
  apply forallb_app_true in Hall as [Hrs Hall].
  apply forallb_app_true in Hall as [Hts Hbs].
  assert (H0 : limits t = [0; 0; 0; 0; 0; 0; 0; 0]).
  { unfold limits. rewrite F1, F2, F3, F4, F5, F6, F7, F8. reflexivity. }
  unfold limited.
  pose proof (limits_rounds_x h ls _ _ _ _ _ _ _ _ _ Hls H0) as H1.
  pose proof (limits_round_x h this _ _ _ _ _ _ _ _ _ Hthis H1) as H2.
  pose proof (limits_rounds_x h rs _ _ _ _ _ _ _ _ _ Hrs H2) as H3.
  pose proof (limits_rounds_y h ts _ _ _ _ _ _ _ _ _ Hts H3) as H4.
  pose proof (limits_round_y h this _ _ _ _ _ _ _ _ _ Hthis H4) as H5.
  pose proof (limits_rounds_y h bs _ _ _ _ _ _ _ _ _ Hbs H5) as H6.
  rewrite (limits_normalized _ _ _ _ _ _ _ _ _ H6).
  cbv zeta. rewrite !max_over_cons, !max_over_app.
  repeat (f_equal; try lia).
Qed.

(** ** calculateRelativePositions *)

Lemma repositioned_refl s : repositioned s s.
Proof. split; reflexivity. Qed.

Lemma repositioned_trans s1 s2 s3 :
  repositioned s1 s2 -> repositioned s2 s3 -> repositioned s1 s3.
Proof. intros [A1 B1] [A2 B2]. split; congruence. Qed.

Lemma fmap_unplaced {A : Type} (f : Monitor -> A) (h h' : list Monitor) :
  (forall m, f (unplaced m) = f m) ->
  unplaced <$> h' = unplaced <$> h -> f <$> h' = f <$> h.
Proof.
  intros Hf E.
  rewrite <- (list_fmap_ext (f ∘ unplaced) f h' (fun _ m _ => Hf m)).
  rewrite <- (list_fmap_ext (f ∘ unplaced) f h (fun _ m _ => Hf m)).
  rewrite !list_fmap_compose, E. reflexivity.
Qed.

Lemma lookup_unplaced (h h' : list Monitor) p m :
  unplaced <$> h' = unplaced <$> h -> h !! p = Some m ->
  exists m', h' !! p = Some m' /\ unplaced m' = unplaced m.
Proof.
  intros E Hm.
  assert (Ep : unplaced <$> (h' !! p) = Some (unplaced m)).
  { rewrite <- list_lookup_fmap, E, list_lookup_fmap, Hm. reflexivity. }
  destruct (h' !! p) as [m'|]; [|discriminate]. apply (inj Some) in Ep.
  exists m'. split; [reflexivity|exact Ep].
Qed.

Lemma unplaced_proj {A : Type} (f : Monitor -> A) u t :
  (forall m, f (unplaced m) = f m) -> unplaced u = unplaced t -> f u = f t.
Proof. intros Hf E. rewrite <- (Hf u), <- (Hf t), E. reflexivity. Qed.

Lemma present_controller_unplaced u t :
  unplaced u = unplaced t ->
  present (videoControllerInfo u) = present (videoControllerInfo t).
Proof.
  intros E. apply (f_equal videoControllerInfo) in E.
  destruct u as [? ? ? ? [?|]], t as [? ? ? ? [?|]]; cbn in *; congruence.
Qed.

Lemma ready_unplaced (h h' : list Monitor) p :
  unplaced <$> h' = unplaced <$> h -> ready h' p = ready h p.
Proof.
  intros E. unfold ready.
  assert (Ep : unplaced <$> (h' !! p) = unplaced <$> (h !! p)).
  { rewrite <- !list_lookup_fmap, E. reflexivity. }
  destruct (h' !! p) as [m'|], (h !! p) as [m|]; try discriminate; [|reflexivity].
  apply (inj Some) in Ep.
  rewrite (unplaced_proj videoModeInfo m' m ltac:(intros []; reflexivity) Ep).
  rewrite (unplaced_proj videoOutputInfo m' m ltac:(intros []; reflexivity) Ep).
  rewrite (present_controller_unplaced m' m Ep). reflexivity.
Qed.

Lemma ready_infos (h : list Monitor) p :
  ready h p = true ->
  exists m info out c, h !! p = Some m /\ videoModeInfo m = Some info /\
    videoOutputInfo m = Some out /\ videoControllerInfo m = Some c.
Proof.
  unfold ready. destruct (h !! p) as [m|]; [|discriminate].
  destruct (videoModeInfo m) as [info|] eqn:E1; [|discriminate].
  destruct (videoOutputInfo m) as [out|] eqn:E2; [|discriminate].
  destruct (videoControllerInfo m) as [c|] eqn:E3; [|discriminate].
  intros _. eauto 8.
Qed.

Lemma ready_measurable h p : ready h p = true -> measurable h p = true.
Proof.
  unfold ready, measurable. destruct (h !! p) as [m|]; [|discriminate].
  intros H. apply andb_true_iff in H as [H _]. exact H.
Qed.

Lemma modeInfo_ready p s :
  ready (monitors s) p = true -> exists info, modeInfo p s = Done info s.
Proof.
  intros H. destruct (ready_infos _ _ H) as (m & info & out & c & Hm & Hi & _).
  exists info. eapply modeInfo_Done; eauto.
Qed.

Lemma setPosition_ready p position s :
  ready (monitors s) p = true ->
  exists s', setPosition p position s = Done tt s' /\ repositioned s s'.
Proof.
  intros H. destruct (ready_infos _ _ H) as (m & info & out & c & Hm & _ & _ & Hc).
  unfold setPosition. rewrite (bind_Done _ _ _ _ _ (load_Done _ _ _ Hm)), Hc.
  rewrite (store_Done _ m) by assumption.
  eexists. split; [reflexivity|]. split; [|reflexivity].
  cbn. rewrite list_fmap_insert. apply list_insert_id.
  rewrite list_lookup_fmap, Hm. cbn. f_equal.
  destruct m; cbn in *. subst. reflexivity.
Qed.

Lemma load_repositioned this t s σ :
  monitors s !! this = Some t -> repositioned s σ ->
  exists t', load this σ = Done t' σ /\ unplaced t' = unplaced t.
Proof.
  intros Ht [E _]. destruct (lookup_unplaced _ _ _ _ E Ht) as (t' & Ht' & Eu).
  exists t'. split; [apply load_Done|]; assumption.
Qed.

(** A loop over a chain whose rounds only move monitors. *)
Lemma walk_positions {L : Type} (next : Monitor -> option addr)
  (body : addr -> L -> M L) fuel s ptr ps l σ :
  (forall m, next (unplaced m) = next m) ->
  chain fuel next (monitors s) ptr = Some ps ->
  forallb (ready (monitors s)) ps = true ->
  repositioned s σ ->
  (forall p l σ', ready (monitors σ') p = true ->
     exists l' σ'', body p l σ' = Done l' σ'' /\ repositioned σ' σ'') ->
  exists l' σ', walk fuel next body ptr l σ = Done l' σ' /\ repositioned s σ'.
Proof.
  intros Hnext Hc Hps Hσ Hbody.
  destruct (walk_chain
    (fun rest (_ : L) σ' =>
       repositioned s σ' /\ forallb (ready (monitors s)) rest = true)
    next body) with (fuel := fuel) (ptr := ptr) (ps := ps) (l := l) (s := σ)
    as (l' & σ' & Hrun & Hrel & _).
  - intros p rest l0 σ0 [Hrel Hrest]. cbn in Hrest.
    apply andb_true_iff in Hrest as [Hp Hrest].
    destruct (Hbody p l0 σ0) as (l' & σ' & Hrun & Hstep).
    { rewrite (ready_unplaced (monitors s)); [assumption|apply Hrel]. }
    exists l', σ'. split; [assumption|]. split.
    + split; [eapply repositioned_trans; eassumption|assumption].
    + apply fmap_unplaced; [assumption|apply Hstep].
  - rewrite (chain_ext _ _ _ (monitors s)); [assumption|].
    apply fmap_unplaced; [assumption|apply Hσ].
  - split; assumption.
  - eauto.
Qed.

(** Runs the loop at the head of the goal, a loop whose rounds only move
    monitors; the rounds are left to be checked. *)
Ltac run_positions s Hc Hps Hσ :=
  match goal with
  | |- context [mbind _ (walk ?fuel ?next ?body ?ptr ?l) ?σ] =>
      let l' := fresh "l" in
      let σ' := fresh "σ" in
      let Hrun := fresh "Hrun" in
      let Hrel := fresh "Hrel" in
      destruct (walk_positions next body fuel s ptr _ l σ
                  ltac:(intros []; reflexivity) Hc Hps Hσ)
        as (l' & σ' & Hrun & Hrel);
      [|rewrite (bind_Done _ _ _ _ _ Hrun); clear Hrun]
  end.

(** Reads [this] at the head of the goal, in a state that differs from [s]
    by positions only. *)
Ltac run_load this t s Ht Hσ :=
  let t' := fresh "t" in
  let Hl := fresh "Hl" in
  let Eu := fresh "Eu" in
  destruct (load_repositioned this t s _ Ht Hσ) as (t' & Hl & Eu);
  rewrite (bind_Done _ _ _ _ _ Hl); clear Hl;
  try rewrite (unplaced_proj leftMonitor t' t ltac:(intros []; reflexivity) Eu);
  try rewrite (unplaced_proj rightMonitor t' t ltac:(intros []; reflexivity) Eu);
  try rewrite (unplaced_proj topMonitor t' t ltac:(intros []; reflexivity) Eu);
  try rewrite (unplaced_proj bottomMonitor t' t ltac:(intros []; reflexivity) Eu).

Lemma getPrimaryRelativePosition_Done fuel this s t ls ts σ :
  monitors s !! this = Some t ->
  chain fuel leftMonitor (monitors s) (leftMonitor t) = Some ls ->
  chain fuel topMonitor (monitors s) (topMonitor t) = Some ts ->
  ready (monitors s) this = true ->
  forallb (ready (monitors s)) ls = true ->
  forallb (ready (monitors s)) ts = true ->
  repositioned s σ ->
  exists root σ',
    getPrimaryRelativePosition fuel this σ = Done root σ' /\ repositioned s σ'.
Proof.
  intros Ht Hl Htop Hthis Hls Hts Hσ. unfold getPrimaryRelativePosition.
  run_load this t s Ht Hσ.
  run_positions s Hl Hls Hσ.
  { intros p l σ' Hr. destruct (modeInfo_ready p σ' Hr) as [info Hi].
    rewrite (bind_Done _ _ _ _ _ Hi). eexists _, _.
    split; [reflexivity|apply repositioned_refl]. }
  run_load this t s Ht Hrel.
  run_positions s Htop Hts Hrel.
  { intros p l' σ' Hr. destruct (modeInfo_ready p σ' Hr) as [info Hi].
    rewrite (bind_Done _ _ _ _ _ Hi). eexists _, _.
    split; [reflexivity|apply repositioned_refl]. }
  cbv zeta.
  destruct (setPosition_ready this
              (point.mk (to_int (Z.of_N l)) (to_int (Z.of_N l0))) σ1)
    as (σ2 & Hset & Hrel2).
  { rewrite (ready_unplaced (monitors s)); [assumption|apply Hrel0]. }
  rewrite (bind_Done _ _ _ _ _ Hset).
  eexists _, _. split; [reflexivity|].
  eapply repositioned_trans; eassumption.
Qed.

(** [Monitor::calculateRelativePositions] on a monitor whose four chains
    end and whose monitors have their info objects: it returns, and only
    positions have changed. *)
Lemma calculateRelativePositions_Done fuel this s t ls rs ts bs σ :
  monitors s !! this = Some t ->
  chain fuel leftMonitor (monitors s) (leftMonitor t) = Some ls ->
  chain fuel rightMonitor (monitors s) (rightMonitor t) = Some rs ->
  chain fuel topMonitor (monitors s) (topMonitor t) = Some ts ->
  chain fuel bottomMonitor (monitors s) (bottomMonitor t) = Some bs ->
  forallb (ready (monitors s)) (this :: ls ++ rs ++ ts ++ bs) = true ->
  repositioned s σ ->
  exists σ', calculateRelativePositions fuel this σ = Done tt σ' /\ repositioned s σ'.
Proof.
  intros Ht Hl Hr Htop Hb Hall Hσ.
  cbn [forallb] in Hall. apply andb_true_iff in Hall as [Hthis Hall].
  apply forallb_app_true in Hall as [Hls Hall].
  apply forallb_app_true in Hall as [Hrs Hall].
  apply forallb_app_true in Hall as [Hts Hbs].
  assert (Hbefore : forall (f : point.t -> XRRModeInfo.t -> point.t) p (l : point.t) σ',
    ready (monitors σ') p = true ->
    exists l' σ'',
      (info ← modeInfo p; let position := f l info in
       setPosition p position;; mret position) σ' = Done l' σ''
      /\ repositioned σ' σ'').
  { intros f p l σ' Hrd. destruct (modeInfo_ready p σ' Hrd) as [info Hi].
    rewrite (bind_Done _ _ _ _ _ Hi). cbv zeta.
    destruct (setPosition_ready p (f l info) σ' Hrd) as (σ'' & Hs & Hrel).
    rewrite (bind_Done _ _ _ _ _ Hs). eexists _, _. split; [reflexivity|exact Hrel]. }
  assert (Hafter : forall (f : point.t -> XRRModeInfo.t -> point.t) p (l : point.t) σ',
    ready (monitors σ') p = true ->
    exists l' σ'',
      (setPosition p l;; info ← modeInfo p; mret (f l info)) σ' = Done l' σ''
      /\ repositioned σ' σ'').
  { intros f p l σ' Hrd.
    destruct (setPosition_ready p l σ' Hrd) as (σ'' & Hs & Hrel).
    rewrite (bind_Done _ _ _ _ _ Hs).
    destruct (modeInfo_ready p σ'') as [info Hi].
    { rewrite (ready_unplaced (monitors σ')); [assumption|apply Hrel]. }
    rewrite (bind_Done _ _ _ _ _ Hi). eexists _, _. split; [reflexivity|exact Hrel]. }
  assert (Hmode : forall σ', repositioned s σ' ->
    exists info, modeInfo this σ' = Done info σ').
  { intros σ' Hrel. apply modeInfo_ready.
    rewrite (ready_unplaced (monitors s)); [assumption|apply Hrel]. }
  unfold calculateRelativePositions.
  destruct (getPrimaryRelativePosition_Done fuel this s t ls ts σ)
    as (root & σ0 & Hroot & Hrel0); try assumption.
  rewrite (bind_Done _ _ _ _ _ Hroot). clear Hroot.
  (* the left wing *)
  run_load this t s Ht Hrel0.
  run_positions s Hl Hls Hrel0.
  { intros p l σ' Hrd.
    apply (Hbefore (fun position info =>
      point.mk (point.x root - Z.of_N (XRRModeInfo.width info))%Z (point.y position)));
      assumption. }
  (* the right wing *)
  destruct (Hmode _ Hrel) as [info Hi]. rewrite (bind_Done _ _ _ _ _ Hi). clear Hi.
  cbv zeta.
  run_load this t s Ht Hrel.
  run_positions s Hr Hrs Hrel.
  { intros p l' σ' Hrd.
    apply (Hafter (fun position info =>
      point.mk (point.x position + Z.of_N (XRRModeInfo.width info))%Z
        (point.y position))); assumption. }
  (* the top wing *)
  run_load this t s Ht Hrel1.
  run_positions s Htop Hts Hrel1.
  { intros p l' σ' Hrd.
    apply (Hbefore (fun position info =>
      point.mk (point.x position)
        (point.y position - Z.of_N (XRRModeInfo.height info))%Z)); assumption. }
  (* the bottom wing *)
  destruct (Hmode _ Hrel2) as [info' Hi]. rewrite (bind_Done _ _ _ _ _ Hi). clear Hi.
  cbv zeta.
  run_load this t s Ht Hrel2.
  run_positions s Hb Hbs Hrel2.
  { intros p l' σ' Hrd.
    apply (Hafter (fun position info =>
      point.mk (point.x position)
        (point.y position + Z.of_N (XRRModeInfo.height info))%Z)); assumption. }
  eexists. split; [reflexivity|assumption].
Qed.

(** ** applyConfiguration *)

Lemma commits_cons h p ps : commits h (p :: ps) = commits h [p] ++ commits h ps.
Proof. unfold commits. cbn. rewrite app_nil_r. reflexivity. Qed.

(** Every monitor with its info objects is committed by one request. *)
Lemma commits_length h ps :
  forallb (ready h) ps = true -> length (commits h ps) = length ps.
Proof.
  induction ps as [|p ps IH]; intros H; [reflexivity|].
  cbn [forallb] in H. apply andb_true_iff in H as [Hp Hps].
  rewrite commits_cons, length_app, (IH Hps).
  destruct (ready_infos _ _ Hp) as (m & info & out & c & Hm & _ & _ & Hc).
  unfold commits. cbn [flat_map]. rewrite Hm, Hc. reflexivity.
Qed.

Lemma committed_cons cfg h p ps :
  committed cfg h (p :: ps) = committed cfg h [p] ++ committed cfg h ps.
Proof. unfold committed. destruct (DRYRUN cfg); [reflexivity|apply commits_cons]. Qed.

Lemma applyConfiguration_monitor_Done cfg p s :
  ready (monitors s) p = true ->
  exists s', applyConfiguration_monitor cfg p s = Done tt s' /\
    monitors s' = monitors s /\
    requests s' = requests s ++ committed cfg (monitors s) [p].
Proof.
  intros H. destruct (ready_infos _ _ H) as (m & info & out & c & Hm & _ & _ & Hc).
  unfold applyConfiguration_monitor, committed. destruct (DRYRUN cfg).
  - exists s. rewrite app_nil_r. auto.
  - rewrite (bind_Done _ _ _ _ _ (load_Done _ _ _ Hm)).
    unfold deref at 1. rewrite run_bind, Hc.
    unfold commits. cbn [flat_map]. rewrite Hm, Hc, app_nil_r.
    rewrite (bind_Done (request _) _ _ _ _ eq_refl).
    rewrite run_bind. cbn [set_config_ok set_requests].
    destruct (set_config_ok s (crtc_config m c)); cbn;
      eexists; (split; [reflexivity|]); split; reflexivity.
Qed.

(** The loops of [Monitor::applyConfiguration()]: one commit per monitor of
    the chain, in chain order. *)
Lemma walk_commits cfg (next : Monitor -> option addr) fuel s ptr ps :
  chain fuel next (monitors s) ptr = Some ps ->
  forallb (ready (monitors s)) ps = true ->
  exists s',
    walk fuel next (fun ptr _ => applyConfiguration_monitor cfg ptr) ptr tt s
    = Done tt s' /\
    monitors s' = monitors s /\
    requests s' = requests s ++ committed cfg (monitors s) ps.
Proof.
  intros Hc Hps.
  destruct (walk_chain
    (fun rest (_ : unit) σ =>
       monitors σ = monitors s /\ forallb (ready (monitors s)) rest = true /\
       requests σ ++ committed cfg (monitors s) rest
       = requests s ++ committed cfg (monitors s) ps)
    next (fun ptr _ => applyConfiguration_monitor cfg ptr))
    with (fuel := fuel) (ptr := ptr) (ps := ps) (l := tt) (s := s)
    as ([] & s' & Hrun & Hm & _ & Hreq).
  - intros p rest [] σ (Hm & Hrest & Hreq). cbn in Hrest.
    apply andb_true_iff in Hrest as [Hp Hrest].
    destruct (applyConfiguration_monitor_Done cfg p σ) as (σ' & Hrun & Hm' & Hreq').
    { rewrite Hm. exact Hp. }
    exists tt, σ'. split; [exact Hrun|]. split.
    + split; [congruence|]. split; [assumption|].
      rewrite Hreq', Hm, <- app_assoc, <- committed_cons. exact Hreq.
    + rewrite Hm'. reflexivity.
  - exact Hc.
  - auto.
  - exists s'. split; [exact Hrun|]. split; [exact Hm|].
    unfold committed in Hreq at 1. unfold commits in Hreq at 1. cbn in Hreq.
    destruct (DRYRUN cfg); rewrite app_nil_r in Hreq; exact Hreq.
Qed.

Lemma ready_put this t u s p :
  monitors s !! this = Some t -> frame u = frame t ->
  ready (monitors (put this u s)) p = ready (monitors s) p.
Proof.
  intros Ht E. unfold ready. destruct (decide (this = p)) as [<-|Hne].
  - rewrite (lookup_put_eq _ _ _ _ Ht), Ht.
    rewrite (frame_proj videoModeInfo u t ltac:(intros []; reflexivity) E).
    rewrite (frame_proj videoOutputInfo u t ltac:(intros []; reflexivity) E).
    rewrite (frame_proj (fun m => present (videoControllerInfo m)) u t
               ltac:(intros [? ? ? ? [?|]]; reflexivity) E).
    reflexivity.
  - rewrite lookup_put_ne by assumption. reflexivity.
Qed.

Lemma forallb_same {A : Type} (f g : A -> bool) l :
  (forall a, f a = g a) -> forallb f l = forallb g l.
Proof. intros E. induction l as [|a l IH]; cbn; [reflexivity|]. rewrite E, IH. reflexivity. Qed.

Lemma frame_rounds (round : list Monitor -> addr -> Monitor -> Monitor) h ps :
  (forall p u, frame (round h p u) = frame u) ->
  forall u, frame (fold_left (fun u p => round h p u) ps u) = frame u.
Proof.
  intros Hr. induction ps as [|p ps IH]; intros u; cbn; [reflexivity|].
  rewrite IH. apply Hr.
Qed.

Lemma frame_limited h this t ls rs ts bs :
  frame (limited h this t ls rs ts bs) = frame t.
Proof.
  unfold limited. cbv zeta. rewrite frame_normalized.
  rewrite (frame_rounds round_y) by apply frame_round_y. rewrite frame_round_y.
  rewrite (frame_rounds round_y) by apply frame_round_y.
  rewrite (frame_rounds round_x) by apply frame_round_x. rewrite frame_round_x.
  apply (frame_rounds round_x), frame_round_x.
Qed.

(** [Monitor::applyConfiguration()] on a monitor that is on, whose four
    chains end and whose monitors have their info objects: it returns
    [true]; the monitors are those that [calculateLimits] (when the limits
    were not yet calculated) and then [calculateRelativePositions] leave,
    and the requests are the ones below. *)
Lemma applyConfiguration_layout cfg fuel this s t ls rs ts bs :
  monitors s !! this = Some t ->
  chain fuel leftMonitor (monitors s) (leftMonitor t) = Some ls ->
  chain fuel rightMonitor (monitors s) (rightMonitor t) = Some rs ->
  chain fuel topMonitor (monitors s) (topMonitor t) = Some ts ->
  chain fuel bottomMonitor (monitors s) (bottomMonitor t) = Some bs ->
  forallb (ready (monitors s)) (this :: ls ++ rs ++ ts ++ bs) = true ->
  isOff this s = Done false s ->
  exists s1 s2 s' t',
    when (negb (limitsCalculated t)) (calculateLimits fuel this) s = Done tt s1 /\
    calculateRelativePositions fuel this s1 = Done tt s2 /\
    applyConfiguration cfg fuel this s = Done true s' /\
    monitors s' = monitors s2 /\
    monitors s' !! this = Some t' /\
    unplaced <$> monitors s'
    = unplaced <$> monitors
        (put this (if limitsCalculated t then t
                   else limited (monitors s) this t ls rs ts bs) s) /\
    requests s'
    = requests s ++ [XGrabServer] ++ committed cfg (monitors s') [this]
      ++ (if isPrimary t' then [XRRSetOutputPrimary (videoOutput t')] else [])
      ++ committed cfg (monitors s') ls ++ committed cfg (monitors s') rs
      ++ committed cfg (monitors s') ts ++ committed cfg (monitors s') bs
      ++ (if DRYRUN cfg then [] else [screen_size t'])
      ++ [XUngrabServer; XSync].
Proof.
  intros Ht Hl Hr Htop Hb Hall Hoff.
  unfold applyConfiguration. rewrite (bind_Done _ _ _ _ _ Hoff).
  rewrite (bind_Done _ _ _ _ _ (load_Done _ _ _ Ht)).
  set (t1 := if limitsCalculated t then t
             else limited (monitors s) this t ls rs ts bs).
  (* the limits *)
  assert (Hlim : when (negb (limitsCalculated t)) (calculateLimits fuel this) s
                 = Done tt (put this t1 s)).
  { unfold t1. destruct (limitsCalculated t); cbn.
    - rewrite put_same by assumption. reflexivity.
    - apply calculateLimits_Done; try assumption.
      apply forallb_forall. intros p Hp. apply ready_measurable.
      exact (proj1 (forallb_forall _ _) Hall p Hp). }
  rewrite (bind_Done _ _ _ _ _ Hlim).
  assert (F1 : frame t1 = frame t).
  { unfold t1. destruct (limitsCalculated t); [reflexivity|apply frame_limited]. }
  set (s1 := put this t1 s).
  assert (Ht1 : monitors s1 !! this = Some t1) by (eapply lookup_put_eq, Ht).
  assert (Hchain1 : forall next ps, (forall m, next (frame m) = next m) ->
            chain fuel next (monitors s) (next t) = Some ps ->
            chain fuel next (monitors s1) (next t1) = Some ps).
  { intros next ps Hn Hc. rewrite (frame_proj next t1 t Hn F1).
    rewrite (chain_ext _ _ _ (monitors s)); [exact Hc|].
    apply (fmap_put next this t); [assumption|]. apply (frame_proj next); assumption. }
  assert (Hall1 : forallb (ready (monitors s1)) (this :: ls ++ rs ++ ts ++ bs) = true).
  { rewrite <- Hall. apply forallb_same. intros p. apply (ready_put this t); assumption. }
  (* the positions *)
  destruct (calculateRelativePositions_Done fuel this s1 t1 ls rs ts bs s1)
    as (s2 & Hpos & Hview & Hreq2); try assumption;
    try (apply Hchain1; [intros []; reflexivity|assumption]);
    [apply repositioned_refl|].
  rewrite (bind_Done _ _ _ _ _ Hpos).
  destruct (lookup_unplaced _ _ _ _ Hview Ht1) as (t2 & Ht2 & E2).
  assert (Hchain2 : forall next ps, (forall m, next (frame m) = next m) ->
            (forall m, next (unplaced m) = next m) ->
            chain fuel next (monitors s) (next t) = Some ps ->
            chain fuel next (monitors s2) (next t2) = Some ps).
  { intros next ps Hn Hn' Hc. rewrite (unplaced_proj next t2 t1 Hn' E2).
    rewrite (chain_ext _ _ _ (monitors s1)); [apply Hchain1; assumption|].
    apply fmap_unplaced; assumption. }
  assert (Hall2 : forallb (ready (monitors s2)) (this :: ls ++ rs ++ ts ++ bs) = true).
  { rewrite <- Hall1. apply forallb_same. intros p. apply ready_unplaced, Hview. }
  pose proof Hall2 as Hsplit.
  cbn [forallb] in Hsplit. apply andb_true_iff in Hsplit as [Hthis Hsplit].
  apply forallb_app_true in Hsplit as [Hls Hsplit].
  apply forallb_app_true in Hsplit as [Hrs Hsplit].
  apply forallb_app_true in Hsplit as [Hts Hbs].
  (* the grab and the anchor *)
  rewrite (bind_Done (request XGrabServer) _ _ _ _ eq_refl).
  set (s3 := set_requests (requests s2 ++ [XGrabServer]) s2).
  destruct (applyConfiguration_monitor_Done cfg this s3 Hthis)
    as (s4 & Hrun4 & Hm4 & Hr4).
  rewrite (bind_Done _ _ _ _ _ Hrun4). clear Hrun4.
  change (monitors s3) with (monitors s2) in Hm4, Hr4.
  change (requests s3) with (requests s2 ++ [XGrabServer]) in Hr4.
  (* the primary output *)
  rewrite (bind_Done _ _ _ _ _ (load_Done this t2 s4 ltac:(rewrite Hm4; exact Ht2))).
  set (s5 := if isPrimary t2
             then set_requests (requests s4 ++ [XRRSetOutputPrimary (videoOutput t2)]) s4
             else s4).
  assert (Hrun5 : when (isPrimary t2) (request (XRRSetOutputPrimary (videoOutput t2))) s4
                  = Done tt s5).
  { unfold s5. destruct (isPrimary t2); reflexivity. }
  assert (Hm5 : monitors s5 = monitors s2).
  { unfold s5. destruct (isPrimary t2); exact Hm4. }
  assert (Hr5 : requests s5 = requests s4 ++
            (if isPrimary t2 then [XRRSetOutputPrimary (videoOutput t2)] else [])).
  { unfold s5. destruct (isPrimary t2); [reflexivity|]. rewrite app_nil_r. reflexivity. }
  rewrite (bind_Done _ _ _ _ _ Hrun5). clear Hrun5.
  (* the four wings *)
  rewrite (bind_Done _ _ _ _ _ (load_Done this t2 s5 ltac:(rewrite Hm5; exact Ht2))).
  destruct (walk_commits cfg leftMonitor fuel s5 (leftMonitor t2) ls)
    as (s6 & Hrun6 & Hm6 & Hr6);
    [rewrite Hm5; apply Hchain2; [intros []; reflexivity..|assumption]
    |rewrite Hm5; exact Hls|].
  rewrite (bind_Done _ _ _ _ _ Hrun6). clear Hrun6. rewrite Hm5 in Hm6, Hr6.
  rewrite (bind_Done _ _ _ _ _ (load_Done this t2 s6 ltac:(rewrite Hm6; exact Ht2))).
  destruct (walk_commits cfg rightMonitor fuel s6 (rightMonitor t2) rs)
    as (s7 & Hrun7 & Hm7 & Hr7);
    [rewrite Hm6; apply Hchain2; [intros []; reflexivity..|assumption]
    |rewrite Hm6; exact Hrs|].
  rewrite (bind_Done _ _ _ _ _ Hrun7). clear Hrun7. rewrite Hm6 in Hm7, Hr7.
  rewrite (bind_Done _ _ _ _ _ (load_Done this t2 s7 ltac:(rewrite Hm7; exact Ht2))).
  destruct (walk_commits cfg topMonitor fuel s7 (topMonitor t2) ts)
    as (s8 & Hrun8 & Hm8 & Hr8);
    [rewrite Hm7; apply Hchain2; [intros []; reflexivity..|assumption]
    |rewrite Hm7; exact Hts|].
  rewrite (bind_Done _ _ _ _ _ Hrun8). clear Hrun8. rewrite Hm7 in Hm8, Hr8.
  rewrite (bind_Done _ _ _ _ _ (load_Done this t2 s8 ltac:(rewrite Hm8; exact Ht2))).
  destruct (walk_commits cfg bottomMonitor fuel s8 (bottomMonitor t2) bs)
    as (s9 & Hrun9 & Hm9 & Hr9);
    [rewrite Hm8; apply Hchain2; [intros []; reflexivity..|assumption]
    |rewrite Hm8; exact Hbs|].
  rewrite (bind_Done _ _ _ _ _ Hrun9). clear Hrun9. rewrite Hm8 in Hm9, Hr9.
  (* the screen size *)
  rewrite (bind_Done _ _ _ _ _ (load_Done this t2 s9 ltac:(rewrite Hm9; exact Ht2))).
  fold (screen_size t2).
  set (s10 := if DEBUG cfg
              then set_printed (printed s9 ++
                     [stdout_screen_size (to_int (Z.of_N (screenWidth t2)))
                        (to_int (Z.of_N (screenHeight t2)))
                        (to_int (Z.of_N (screenWidthMillimeters t2)))
                        (to_int (Z.of_N (screenHeightMillimeters t2)))]) s9
              else s9).
  assert (Hrun10 : when (DEBUG cfg)
            (fprintf (stdout_screen_size (to_int (Z.of_N (screenWidth t2)))
                        (to_int (Z.of_N (screenHeight t2)))
                        (to_int (Z.of_N (screenWidthMillimeters t2)))
                        (to_int (Z.of_N (screenHeightMillimeters t2))))) s9
            = Done tt s10).
  { unfold s10. destruct (DEBUG cfg); reflexivity. }
  assert (Hm10 : monitors s10 = monitors s2).
  { unfold s10. destruct (DEBUG cfg); exact Hm9. }
  assert (Hr10 : requests s10 = requests s9).
  { unfold s10. destruct (DEBUG cfg); reflexivity. }
  rewrite (bind_Done _ _ _ _ _ Hrun10). clear Hrun10.
  assert (Ht10 : monitors s10 !! this = Some t2) by (rewrite Hm10; exact Ht2).
  assert (Hreq : requests s10
    = requests s ++ [XGrabServer] ++ committed cfg (monitors s2) [this]
      ++ (if isPrimary t2 then [XRRSetOutputPrimary (videoOutput t2)] else [])
      ++ committed cfg (monitors s2) ls ++ committed cfg (monitors s2) rs
      ++ committed cfg (monitors s2) ts ++ committed cfg (monitors s2) bs).
  { rewrite Hr10, Hr9, Hr8, Hr7, Hr6, Hr5, Hr4, Hreq2.
    change (requests s1) with (requests s).
    rewrite <- !app_assoc. reflexivity. }
  destruct (DRYRUN cfg) eqn:Hdry.
  - exists s1, s2. eexists _, t2. split; [exact Hlim|]. split; [exact Hpos|].
    split; [reflexivity|].
    cbn [monitors requests set_requests set_printed]. rewrite Hm10.
    split; [reflexivity|]. split; [exact Ht2|]. split; [exact Hview|].
    rewrite Hreq, <- !app_assoc. reflexivity.
  - exists s1, s2. eexists _, t2. split; [exact Hlim|]. split; [exact Hpos|].
    split; [reflexivity|].
    cbn [monitors requests set_requests set_printed]. rewrite Hm10.
    split; [reflexivity|]. split; [exact Ht2|]. split; [exact Hview|].
    rewrite Hreq, <- !app_assoc. reflexivity.
Qed.

(** The same without the two steps of the layout. *)
Lemma applyConfiguration_Done cfg fuel this s t ls rs ts bs :
  monitors s !! this = Some t ->
  chain fuel leftMonitor (monitors s) (leftMonitor t) = Some ls ->
  chain fuel rightMonitor (monitors s) (rightMonitor t) = Some rs ->
  chain fuel topMonitor (monitors s) (topMonitor t) = Some ts ->
  chain fuel bottomMonitor (monitors s) (bottomMonitor t) = Some bs ->
  forallb (ready (monitors s)) (this :: ls ++ rs ++ ts ++ bs) = true ->
  isOff this s = Done false s ->
  exists s' t',
    applyConfiguration cfg fuel this s = Done true s' /\
    monitors s' !! this = Some t' /\
    unplaced <$> monitors s'
    = unplaced <$> monitors
        (put this (if limitsCalculated t then t
                   else limited (monitors s) this t ls rs ts bs) s) /\
    requests s'
    = requests s ++ [XGrabServer] ++ committed cfg (monitors s') [this]
      ++ (if isPrimary t' then [XRRSetOutputPrimary (videoOutput t')] else [])
      ++ committed cfg (monitors s') ls ++ committed cfg (monitors s') rs
      ++ committed cfg (monitors s') ts ++ committed cfg (monitors s') bs
      ++ (if DRYRUN cfg then [] else [screen_size t'])
      ++ [XUngrabServer; XSync].
Proof.
  intros Ht Hl Hr Htop Hb Hall Hoff.
  destruct (applyConfiguration_layout cfg fuel this s t ls rs ts bs)
    as (s1 & s2 & s' & t' & _ & _ & Hrun & _ & Ht' & Hview & Hreq); try assumption.
  exists s', t'. auto.
Qed.

(** ** What survives a layout *)

Lemma fmap_frame {A : Type} (f : Monitor -> A) (h h' : list Monitor) :
  (forall m, f (frame m) = f m) ->
  frame <$> h' = frame <$> h -> f <$> h' = f <$> h.
Proof.
  intros Hf E.
  rewrite <- (list_fmap_ext (f ∘ frame) f h' (fun _ m _ => Hf m)).
  rewrite <- (list_fmap_ext (f ∘ frame) f h (fun _ m _ => Hf m)).
  rewrite !list_fmap_compose, E. reflexivity.
Qed.

Lemma lookup_frame (h h' : list Monitor) p m :
  frame <$> h' = frame <$> h -> h !! p = Some m ->
  exists m', h' !! p = Some m' /\ frame m' = frame m.
Proof.
  intros E Hm.
  assert (Ep : frame <$> (h' !! p) = Some (frame m)).
  { rewrite <- list_lookup_fmap, E, list_lookup_fmap, Hm. reflexivity. }
  destruct (h' !! p) as [m'|]; [|discriminate]. apply (inj Some) in Ep.
  exists m'. split; [reflexivity|exact Ep].
Qed.

Lemma ready_frame (h h' : list Monitor) p :
  frame <$> h' = frame <$> h -> ready h' p = ready h p.
Proof.
  intros E. unfold ready.
  assert (Ep : frame <$> (h' !! p) = frame <$> (h !! p)).
  { rewrite <- !list_lookup_fmap, E. reflexivity. }
  destruct (h' !! p) as [m'|], (h !! p) as [m|]; try discriminate; [|reflexivity].
  apply (inj Some) in Ep.
  rewrite (frame_proj videoModeInfo m' m ltac:(intros []; reflexivity) Ep).
  rewrite (frame_proj videoOutputInfo m' m ltac:(intros []; reflexivity) Ep).
  rewrite (frame_proj (fun m => present (videoControllerInfo m)) m' m
             ltac:(intros [? ? ? ? [?|]]; reflexivity) Ep).
  reflexivity.
Qed.

Lemma isOff_frame this s s' t t' b :
  monitors s !! this = Some t -> monitors s' !! this = Some t' ->
  frame t' = frame t ->
  isOff this s = Done b s -> isOff this s' = Done b s'.
Proof.
  intros Ht Ht' E. unfold isOff.
  rewrite (bind_Done _ _ _ _ _ (load_Done _ _ _ Ht)).
  rewrite (bind_Done _ _ _ _ _ (load_Done _ _ _ Ht')).
  rewrite (frame_proj videoController t' t ltac:(intros []; reflexivity) E).
  destruct (videoController t =? None_).
  - intros H. injection H as <-. reflexivity.
  - pose proof (frame_proj
      (fun m => option_map XRRCrtcInfo.mode (videoControllerInfo m)) t' t
      ltac:(intros [? ? ? ? [?|]]; reflexivity) E) as Em.
    cbn in Em. rewrite !run_bind. unfold deref.
    destruct (videoControllerInfo t') as [c'|], (videoControllerInfo t) as [c|];
      try discriminate.
    cbn in Em. injection Em as ->. intros H. injection H as <-. reflexivity.
Qed.

(** The hypotheses of [applyConfiguration_Done] hold again in a state
    whose monitors have the same frame. *)
Lemma topology_frame fuel this s s' t ls rs ts bs :
  frame <$> monitors s' = frame <$> monitors s ->
  monitors s !! this = Some t ->
  chain fuel leftMonitor (monitors s) (leftMonitor t) = Some ls ->
  chain fuel rightMonitor (monitors s) (rightMonitor t) = Some rs ->
  chain fuel topMonitor (monitors s) (topMonitor t) = Some ts ->
  chain fuel bottomMonitor (monitors s) (bottomMonitor t) = Some bs ->
  forallb (ready (monitors s)) (this :: ls ++ rs ++ ts ++ bs) = true ->
  isOff this s = Done false s ->
  exists t',
    monitors s' !! this = Some t' /\ frame t' = frame t /\
    chain fuel leftMonitor (monitors s') (leftMonitor t') = Some ls /\
    chain fuel rightMonitor (monitors s') (rightMonitor t') = Some rs /\
    chain fuel topMonitor (monitors s') (topMonitor t') = Some ts /\
    chain fuel bottomMonitor (monitors s') (bottomMonitor t') = Some bs /\
    forallb (ready (monitors s')) (this :: ls ++ rs ++ ts ++ bs) = true /\
    isOff this s' = Done false s'.
Proof.
  intros E Ht Hl Hr Htop Hb Hall Hoff.
  destruct (lookup_frame _ _ _ _ E Ht) as (t' & Ht' & Et).
  assert (Hchain : forall next ps, (forall m, next (frame m) = next m) ->
            chain fuel next (monitors s) (next t) = Some ps ->
            chain fuel next (monitors s') (next t') = Some ps).
  { intros next ps Hn Hc. rewrite (frame_proj next t' t Hn Et).
    rewrite (chain_ext _ _ _ (monitors s)); [exact Hc|].
    apply fmap_frame; assumption. }
  exists t'. split; [assumption|]. split; [assumption|].
  repeat (split; [apply Hchain; [intros []; reflexivity|assumption]|]).
  split.
  - rewrite <- Hall. apply forallb_same. intros p. apply ready_frame, E.
  - exact (isOff_frame this s s' t t' false Ht Ht' Et Hoff).
Qed.

Lemma frame_after_layout this s t u s' :
  monitors s !! this = Some t -> frame u = frame t ->
  unplaced <$> monitors s' = unplaced <$> monitors (put this u s) ->
  frame <$> monitors s' = frame <$> monitors s.
Proof.
  intros Ht Eu E.
  rewrite (fmap_unplaced frame _ _ ltac:(intros [? ? ? ? [[]|]]; reflexivity) E).
  apply (fmap_put frame this t); assumption.
Qed.

Lemma find_present (mode : VideoOutputMode) (infos : list XRRModeInfo.t) :
  (exists info, In info infos /\ XRRModeInfo.id info = mode) ->
  exists info, find (fun info => XRRModeInfo.id info =? mode) infos = Some info /\
               In info infos /\ XRRModeInfo.id info = mode.
Proof.
  intros (info & Hin & Hid).
  destruct (find (fun info => XRRModeInfo.id info =? mode) infos) as [found|] eqn:E.
  - exists found. split; [reflexivity|]. apply find_some in E as [H1 H2].
    split; [assumption|]. apply N.eqb_eq, H2.
  - exfalso. pose proof (find_none _ _ E info Hin) as H. cbn in H.
    apply N.eqb_neq in H. contradiction.
Qed.

(** ** The controller pool *)

Example seeded_pool_first_lease :
  ScreenResources.requestController [1; 2] = (1, [2]).
Proof. reflexivity. Qed.

(** C7: requestController removes and returns the first available
    controller; on an empty vector it returns None (0) and leaves the
    vector as it was.  For a vector seeded with 1 and 2: the first lease
    gives 1, the second 2, the third fails and changes nothing, and after 1
    is released a further lease gives 1. *)
Theorem requestController_first :
  (forall c rest,
     ScreenResources.requestController (c :: rest) = (c, rest)) /\
  ScreenResources.requestController [] = (None_, []) /\
  (let '(r1, p1) := ScreenResources.requestController [1; 2] in
   let '(r2, p2) := ScreenResources.requestController p1 in
   let '(r3, p3) := ScreenResources.requestController p2 in
   let '(r4, p4) :=
     ScreenResources.requestController (ScreenResources.releaseController 1 p3) in
   r1 = 1 /\ r2 = 2 /\ r3 = None_ /\ p3 = p2 /\ r4 = 1).
Proof.
  split; [intros c rest; reflexivity|].
  split; [reflexivity|].
  cbn. repeat split.
Qed.

(** C8: on a non-empty vector, leasing a controller and releasing that
    same controller gives a vector of the same length that is a
    permutation of the one before: nothing is lost, nothing is
    duplicated. *)
Theorem lease_release_restores (avail : ScreenResources.pool) :
  avail <> [] ->
  let '(c, rest) := ScreenResources.requestController avail in
  let avail' := ScreenResources.releaseController c rest in
  length avail' = length avail /\ Permutation avail' avail.
Proof.
  destruct avail as [|c rest]; [congruence|]. intros _. cbn.
  unfold ScreenResources.releaseController. split.
  - rewrite length_app. cbn. lia.
  - symmetry. apply Permutation_cons_append.
Qed.

Lemma lease_release_restores_witness :
  length (ScreenResources.releaseController 3 [5; 3]) = length [3; 5; 3] /\
  Permutation (ScreenResources.releaseController 3 [5; 3]) [3; 5; 3].
Proof. apply (lease_release_restores [3; 5; 3]). discriminate. Defined.

(** ** The canvas *)



(** ** The commit *)

(** C1 (amended): in a build that sends requests, applyConfiguration on a
    monitor that is on, whose four chains end and whose monitors have
    their info objects, for sizes within the range of int: it returns true
    after sending, in this order: the server grab, the commit of the
    anchor, the primary-output marker if and only if the anchor is
    primary, the commits of the left, the right, the top and the bottom
    chain (a monitor in two chains once per chain), the canvas size once,
    the ungrab and the sync.  The monitors it leaves are those that
    calculateLimits (when the limits were not yet calculated) and then
    calculateRelativePositions leave: the commits change no monitor.  All
    but positions and limits is as before the call, so every monitor of the
    anchor and the chains still has its controller info and every commit
    listed is one XRRSetCrtcConfig, for the controller, the mode and the
    output the monitor had before the call. *)
Theorem applyConfiguration_request_order cfg fuel this s t ls rs ts bs :
  DRYRUN cfg = false ->
  monitors s !! this = Some t ->
  chain fuel leftMonitor (monitors s) (leftMonitor t) = Some ls ->
  chain fuel rightMonitor (monitors s) (rightMonitor t) = Some rs ->
  chain fuel topMonitor (monitors s) (topMonitor t) = Some ts ->
  chain fuel bottomMonitor (monitors s) (bottomMonitor t) = Some bs ->
  forallb (ready (monitors s)) (this :: ls ++ rs ++ ts ++ bs) = true ->
  isOff this s = Done false s ->
  (Z.of_N (sum_over (width_at (monitors s)) (this :: ls ++ rs)) < 2 ^ 31)%Z ->
  (Z.of_N (sum_over (height_at (monitors s)) (this :: ts ++ bs)) < 2 ^ 31)%Z ->
  exists s1 s2 s' t',
    when (negb (limitsCalculated t)) (calculateLimits fuel this) s = Done tt s1 /\
    calculateRelativePositions fuel this s1 = Done tt s2 /\
    applyConfiguration cfg fuel this s = Done true s' /\
    monitors s' = monitors s2 /\
    frame <$> monitors s' = frame <$> monitors s /\
    forallb (ready (monitors s')) (this :: ls ++ rs ++ ts ++ bs) = true /\
    monitors s' !! this = Some t' /\
    isPrimary t' = isPrimary t /\
    requests s' = requests s ++ sent_requests (monitors s') this t' ls rs ts bs /\
    length (commits (monitors s') (this :: ls ++ rs ++ ts ++ bs))
    = length (this :: ls ++ rs ++ ts ++ bs).
Proof.
  intros Hdry Ht Hl Hr Htop Hb Hall Hoff _ _.
  destruct (applyConfiguration_layout cfg fuel this s t ls rs ts bs)
    as (s1 & s2 & s' & t' & Hlim & Hpos & Hrun & Hmon & Ht' & Hview & Hreq);
    try assumption.
  set (t1 := if limitsCalculated t then t
             else limited (monitors s) this t ls rs ts bs) in Hview.
  assert (F1 : frame t1 = frame t).
  { unfold t1. destruct (limitsCalculated t); [reflexivity|apply frame_limited]. }
  pose proof (frame_after_layout this s t t1 s' Ht F1 Hview) as Hframe.
  assert (Hall' : forallb (ready (monitors s')) (this :: ls ++ rs ++ ts ++ bs) = true).
  { rewrite <- Hall. apply forallb_same. intros p. apply ready_frame, Hframe. }
  exists s1, s2, s', t'.
  split; [assumption|]. split; [assumption|]. split; [assumption|].
  split; [assumption|]. split; [assumption|]. split; [assumption|].
  split; [assumption|]. split; [|split].
  - destruct (lookup_unplaced _ _ this t1 Hview) as (t2 & Ht2 & E2).
    { eapply lookup_put_eq, Ht. }
    rewrite Ht' in Ht2. injection Ht2 as <-.
    rewrite (unplaced_proj isPrimary t' t1 ltac:(intros []; reflexivity) E2).
    apply (frame_proj isPrimary); [intros []; reflexivity|assumption].
  - rewrite Hreq. unfold committed, sent_requests. rewrite Hdry. reflexivity.
  - apply commits_length, Hall'.
Qed.

(** The left and the top neighbour are one monitor: it is committed twice. *)
Lemma applyConfiguration_request_order_witness :
  exists s1 s2 s' t',
    when (negb false) (calculateLimits 4 0) Examples.shared = Done tt s1 /\
    calculateRelativePositions 4 0 s1 = Done tt s2 /\
    applyConfiguration Examples.build 4 0 Examples.shared = Done true s' /\
    monitors s' = monitors s2 /\
    frame <$> monitors s' = frame <$> monitors Examples.shared /\
    forallb (ready (monitors s')) [0; 1; 2; 1]%nat = true /\
    monitors s' !! 0%nat = Some t' /\
    isPrimary t' = true /\
    requests s' = sent_requests (monitors s') 0 t' [1%nat] [2%nat] [1%nat] [] /\
    length (commits (monitors s') [0; 1; 2; 1]%nat) = 4%nat.
Proof.
  apply (applyConfiguration_request_order Examples.build 4 0 Examples.shared
           (Examples.monitor 11 1 Examples.full_hd 510 290 true (Some 1%nat)
              (Some 2%nat) (Some 1%nat) None)
           [1%nat] [2%nat] [1%nat] []);
    reflexivity.
Defined.

(** C1 as specified fails: with a primary anchor and one left neighbour the
    marker is set before the neighbour is committed, not after. *)
Lemma applyConfiguration_specified_order_fails :
  isOff 0 Examples.one_left = Done false Examples.one_left /\
  exists s' t',
    applyConfiguration Examples.build 4 0 Examples.one_left = Done true s' /\
    monitors s' !! 0%nat = Some t' /\
    requests s'
    = [XGrabServer; XRRSetCrtcConfig 1 1280 0 101 [11] 1; XRRSetOutputPrimary 11;
       XRRSetCrtcConfig 2 0 0 102 [12] 1; XRRSetScreenSize 3200 1080 890 300;
       XUngrabServer; XSync] /\
    specified_requests (monitors s') 0 t' [1%nat] [] [] []
    = [XGrabServer; XRRSetCrtcConfig 1 1280 0 101 [11] 1;
       XRRSetCrtcConfig 2 0 0 102 [12] 1; XRRSetOutputPrimary 11;
       XRRSetScreenSize 3200 1080 890 300; XUngrabServer; XSync] /\
    requests s' <> specified_requests (monitors s') 0 t' [1%nat] [] [] [].
Proof.
  split; [reflexivity|].
  eexists _, _. split; [vm_compute; reflexivity|].
  split; [reflexivity|]. split; [reflexivity|]. split; [reflexivity|].
  vm_compute. discriminate.
Qed.

(** ** The limits are calculated once *)

(** C2 (amended): applyConfiguration calls calculateLimits only while
    limitsCalculated is unset, and calculateLimits sets it: after one
    applyConfiguration a second one leaves the eight canvas-limit members
    as they are. *)
Theorem applyConfiguration_limits_once cfg fuel this s t ls rs ts bs :
  monitors s !! this = Some t ->
  chain fuel leftMonitor (monitors s) (leftMonitor t) = Some ls ->
  chain fuel rightMonitor (monitors s) (rightMonitor t) = Some rs ->
  chain fuel topMonitor (monitors s) (topMonitor t) = Some ts ->
  chain fuel bottomMonitor (monitors s) (bottomMonitor t) = Some bs ->
  forallb (ready (monitors s)) (this :: ls ++ rs ++ ts ++ bs) = true ->
  isOff this s = Done false s ->
  exists s1 s2 t1 t2,
    applyConfiguration cfg fuel this s = Done true s1 /\
    applyConfiguration cfg fuel this s1 = Done true s2 /\
    monitors s1 !! this = Some t1 /\
    monitors s2 !! this = Some t2 /\
    limitsCalculated t1 = true /\
    limits t2 = limits t1.
Proof.
  intros Ht Hl Hr Htop Hb Hall Hoff.
  destruct (applyConfiguration_Done cfg fuel this s t ls rs ts bs)
    as (s1 & t1 & Hrun1 & Ht1 & Hview1 & _); try assumption.
  set (u := if limitsCalculated t then t
            else limited (monitors s) this t ls rs ts bs) in Hview1.
  assert (Fu : frame u = frame t).
  { unfold u. destruct (limitsCalculated t); [reflexivity|apply frame_limited]. }
  assert (Cu : limitsCalculated u = true).
  { unfold u. destruct (limitsCalculated t) eqn:E; [exact E|reflexivity]. }
  destruct (lookup_unplaced _ _ this u Hview1) as (t1' & Ht1' & E1).
  { eapply lookup_put_eq, Ht. }
  rewrite Ht1 in Ht1'. injection Ht1' as <-.
  assert (C1 : limitsCalculated t1 = true).
  { rewrite (unplaced_proj limitsCalculated t1 u ltac:(intros []; reflexivity) E1).
    exact Cu. }
  pose proof (frame_after_layout this s t u s1 Ht Fu Hview1) as Hframe.
  destruct (topology_frame fuel this s s1 t ls rs ts bs Hframe Ht Hl Hr Htop Hb Hall Hoff)
    as (t1' & Ht1' & _ & Hl1 & Hr1 & Htop1 & Hb1 & Hall1 & Hoff1).
  rewrite Ht1 in Ht1'. injection Ht1' as <-.
  destruct (applyConfiguration_Done cfg fuel this s1 t1 ls rs ts bs)
    as (s2 & t2 & Hrun2 & Ht2 & Hview2 & _); try assumption.
  rewrite C1 in Hview2. rewrite (put_same this t1 s1 Ht1) in Hview2.
  destruct (lookup_unplaced _ _ this t1 Hview2 Ht1) as (t2' & Ht2' & E2).
  rewrite Ht2 in Ht2'. injection Ht2' as <-.
  exists s1, s2, t1, t2. repeat (split; [assumption|]).
  apply (unplaced_proj limits); [intros []; reflexivity|assumption].
Qed.

Lemma applyConfiguration_limits_once_witness :
  exists s1 s2 t1 t2,
    applyConfiguration Examples.build 4 0 Examples.shared = Done true s1 /\
    applyConfiguration Examples.build 4 0 s1 = Done true s2 /\
    monitors s1 !! 0%nat = Some t1 /\
    monitors s2 !! 0%nat = Some t2 /\
    limitsCalculated t1 = true /\
    limits t2 = limits t1.
Proof.
  apply (applyConfiguration_limits_once Examples.build 4 0 Examples.shared
           (Examples.monitor 11 1 Examples.full_hd 510 290 true (Some 1%nat)
              (Some 2%nat) (Some 1%nat) None)
           [1%nat] [2%nat] [1%nat] []);
    reflexivity.
Defined.

(** C2 as specified fails: calculateLimits does not look at
    limitsCalculated, and a second call on a lone 1920x1080 monitor adds the
    totals again. *)
Lemma calculateLimits_second_call_accumulates :
  exists s1 s2 t1 t2,
    calculateLimits 4 0 Examples.alone = Done tt s1 /\
    calculateLimits 4 0 s1 = Done tt s2 /\
    monitors s1 !! 0%nat = Some t1 /\
    monitors s2 !! 0%nat = Some t2 /\
    limits t1 = [1080; 1920; 290; 510; 1920; 1080; 510; 290] /\
    limits t2 = [1080; 1920; 290; 510; 3840; 2160; 1020; 580] /\
    limits t2 <> limits t1.
Proof.
  eexists _, _, _, _. split; [vm_compute; reflexivity|].
  split; [vm_compute; reflexivity|].
  split; [reflexivity|]. split; [reflexivity|].
  split; [reflexivity|]. split; [reflexivity|]. discriminate.
Qed.

(** ** The positions *)

(** C3, the code at an anchor of width 1920 with two left neighbours, of
    width 1280 next to it and of width 1024 beyond: the anchor is at
    x = 2304, the first neighbour at 2304 - 1280 = 1024, and the second at
    2304 - 1024 = 1280, inside the first one, where the previous x minus its
    own width is 1024 - 1024 = 0: the loop subtracts from [root.x], not from
    [position.x]. *)
Theorem calculateRelativePositions_two_left :
  exists s',
    calculateRelativePositions 4 0 Examples.two_left = Done tt s' /\
    (fun m => XRRCrtcInfo.x <$> videoControllerInfo m) <$> monitors s'
    = [Some 2304; Some 1024; Some 1280]%Z.
Proof. eexists. split; [vm_compute; reflexivity|reflexivity]. Qed.

(** The loop over the top wing does subtract from [position.y]: with two
    top neighbours of heights 1024 and 768 the anchor is at y = 1792, the
    first neighbour at 768 and the second at 0. *)
Example calculateRelativePositions_two_top :
  exists s',
    calculateRelativePositions 4 0 Examples.two_top = Done tt s' /\
    (fun m => XRRCrtcInfo.y <$> videoControllerInfo m) <$> monitors s'
    = [Some 1792; Some 768; Some 0]%Z.
Proof. eexists. split; [vm_compute; reflexivity|reflexivity]. Qed.

(** With one neighbour on each side the two ways to subtract agree: for an
    anchor of width W, a left neighbour of width L within the range of int
    and a right neighbour of width R the x-coordinates are L, 0 and
    L + W. *)
Lemma calculateRelativePositions_one_each_side (W L R hW hL hR : N) :
  (Z.of_N L < 2 ^ 31)%Z ->
  exists s',
    calculateRelativePositions 4 0 (Examples.one_each_side W L R hW hL hR)
    = Done tt s' /\
    (fun m => XRRCrtcInfo.x <$> videoControllerInfo m) <$> monitors s'
    = [Some (Z.of_N L); Some 0%Z; Some (Z.of_N L + Z.of_N W)%Z].
Proof.
  intros HL. eexists. split.
  - lazy -[Z.add Z.sub Z.of_N N.add to_int to_unsigned_int]. reflexivity.
  - cbn. rewrite N.add_0_l, (to_int_unsigned L HL), Z.sub_diag. reflexivity.
Qed.

(** ** setOutputMode *)

Lemma controllerInfo_Done p m c s :
  monitors s !! p = Some m -> videoControllerInfo m = Some c ->
  controllerInfo p s = Done c s.
Proof.
  intros H Hc. unfold controllerInfo.
  rewrite (bind_Done _ _ _ _ _ (load_Done _ _ _ H)). unfold deref. rewrite Hc.
  reflexivity.
Qed.

(** C5: for a monitor with a controller info and a mode of the catalog,
    setOutputMode returns; the mode info is the catalog entry with that id,
    the controller info has the given mode and the height of that entry, and
    its width is the one it had. *)
Theorem setOutputMode_present this mode s m c :
  monitors s !! this = Some m ->
  videoControllerInfo m = Some c ->
  (exists info, In info (videoOutputModes s) /\ XRRModeInfo.id info = mode) ->
  exists info s' m' c',
    In info (videoOutputModes s) /\ XRRModeInfo.id info = mode /\
    setOutputMode this mode s = Done tt s' /\
    monitors s' !! this = Some m' /\
    videoModeInfo m' = Some info /\
    videoControllerInfo m' = Some c' /\
    XRRCrtcInfo.mode c' = mode /\
    XRRCrtcInfo.height c' = XRRModeInfo.height info /\
    XRRCrtcInfo.width c' = XRRCrtcInfo.width c.
Proof.
  intros Hm Hc Hin.
  destruct (find_present mode _ Hin) as (info & Hfind & Hin' & Hid).
  set (c' := XRRCrtcInfo.mk (XRRCrtcInfo.x c) (XRRCrtcInfo.y c) (XRRCrtcInfo.width c)
               (XRRModeInfo.height info) mode).
  set (m' := set_videoControllerInfo (Some c') (set_videoModeInfo (Some info) m)).
  exists info, (put this m' s), m', c'.
  split; [assumption|]. split; [assumption|].
  split; [|split; [eapply lookup_put_eq, Hm|repeat split]].
  unfold setOutputMode.
  rewrite (bind_Done _ _ _ _ _ (assign_Done _ _ _ _ Hm)).
  fold (put this (set_videoModeInfo None m) s).
  rewrite run_bind. cbn [videoOutputModes put set_monitors]. rewrite Hfind.
  fold (put this (set_videoModeInfo None m) s).
  rewrite (bind_Done _ _ _ _ _ (assign_put _ _ _ _ _ Hm)).
  set (m2 := set_videoModeInfo (Some info) (set_videoModeInfo None m)).
  assert (L2 : forall u, monitors (put this u s) !! this = Some u)
    by (intros u; eapply lookup_put_eq, Hm).
  rewrite (bind_Done _ _ _ _ _ (load_Done _ _ _ (L2 m2))).
  rewrite run_bind. cbn [when bool_decide decide_rel option_eq_None_dec m2
    videoModeInfo set_videoModeInfo mret M_ret].
  rewrite (bind_Done _ _ _ _ _ (controllerInfo_Done this m2 c _ (L2 m2) Hc)).
  rewrite (bind_Done _ _ _ _ _ (assign_put _ _ _ _ _ Hm)).
  set (m3 := set_videoControllerInfo _ m2).
  rewrite (bind_Done _ _ _ _ _ (controllerInfo_Done this m3 _ _ (L2 m3) eq_refl)).
  rewrite (bind_Done _ _ _ _ _ (modeInfo_Done this m3 info _ (L2 m3) eq_refl)).
  rewrite (bind_Done _ _ _ _ _ (assign_put _ _ _ _ _ Hm)).
  set (m4 := set_videoControllerInfo _ m3).
  rewrite (bind_Done _ _ _ _ _ (controllerInfo_Done this m4 _ _ (L2 m4) eq_refl)).
  rewrite (bind_Done _ _ _ _ _ (controllerInfo_Done this m4 _ _ (L2 m4) eq_refl)).
  rewrite (assign_put _ _ _ _ _ Hm).
  reflexivity.
Qed.

(** A monitor in 1920x1080 is given the mode 102, 1280x1024: its controller
    info has mode 102 and height 1024, and still width 1920. *)
Lemma setOutputMode_present_witness :
  exists info s' m' c',
    In info Examples.catalog /\ XRRModeInfo.id info = 102 /\
    setOutputMode 0 102 Examples.alone = Done tt s' /\
    monitors s' !! 0%nat = Some m' /\
    videoModeInfo m' = Some info /\
    videoControllerInfo m' = Some c' /\
    XRRCrtcInfo.mode c' = 102 /\
    XRRCrtcInfo.height c' = XRRModeInfo.height info /\
    XRRCrtcInfo.width c' = 1920.
Proof.
  apply (setOutputMode_present 0 102 Examples.alone
           (Examples.monitor 11 1 Examples.full_hd 510 290 true None None None None)
           (XRRCrtcInfo.mk 0 0 1920 1080 101));
    [reflexivity|reflexivity|].
  exists Examples.sxga. split; [right; left; reflexivity|reflexivity].
Defined.

(** C6, the code at a mode that is not in the catalog: after the line on
    stderr it goes on, writes the mode into the controller info and reads
    the height through the null mode info. *)
Theorem setOutputMode_absent_mode_faults :
  find (fun info => XRRModeInfo.id info =? 999) (videoOutputModes Examples.alone)
  = None /\
  exists s' m' c',
    setOutputMode 0 999 Examples.alone = Fault s' /\
    printed s' = [stderr "error querying new output mode info\n"] /\
    monitors s' !! 0%nat = Some m' /\
    videoModeInfo m' = None /\
    videoControllerInfo m' = Some c' /\
    XRRCrtcInfo.mode c' = 999.
Proof.
  split; [reflexivity|].
  eexists _, _, _. split; [vm_compute; reflexivity|].
  repeat split.
Qed.

(** ** applyConfiguration on a released monitor *)

(** C10, the code at a monitor that release() has reset: isOff() is true
    because the controller is None, and the one commit reads x through the
    null controller info. *)
Theorem applyConfiguration_after_release_faults :
  exists s1 m1,
    release 0 Examples.alone = Done tt s1 /\
    monitors s1 !! 0%nat = Some m1 /\
    videoController m1 = None_ /\
    videoControllerInfo m1 = None /\
    isOff 0 s1 = Done true s1 /\
    applyConfiguration Examples.build 4 0 s1 = Fault s1.
Proof.
  eexists _, _. split; [vm_compute; reflexivity|].
  repeat split.
Qed.

(** ** requestSuspend *)

(** C9: on a lid event, without a dock nothing is suspended, a line is
    written and the result is false; with a dock that is docked nothing is
    suspended and the result is false; with a dock that is not docked
    suspend() is called and the result is true.  On a button event
    suspend() is called whatever the dock says. *)
Theorem requestSuspend_gate cfg fs bus :
  (Dock.probe cfg fs = false ->
   PowerManager.requestSuspend cfg fs bus PowerManager.SUSPEND_REASON_LID
   = (false, [PowerManager.written (stderr "dock is not sane/present")])) /\
  (Dock.probe cfg fs = true -> Dock.isDocked fs = true ->
   fst (PowerManager.requestSuspend cfg fs bus PowerManager.SUSPEND_REASON_LID)
   = false /\
   ~ In PowerManager.suspend_called
       (snd (PowerManager.requestSuspend cfg fs bus
               PowerManager.SUSPEND_REASON_LID))) /\
  (Dock.probe cfg fs = true -> Dock.isDocked fs = false ->
   fst (PowerManager.requestSuspend cfg fs bus PowerManager.SUSPEND_REASON_LID)
   = true /\
   snd (PowerManager.requestSuspend cfg fs bus PowerManager.SUSPEND_REASON_LID)
   = snd (PowerManager.suspend cfg bus) /\
   In PowerManager.suspend_called
     (snd (PowerManager.requestSuspend cfg fs bus
             PowerManager.SUSPEND_REASON_LID))) /\
  (PowerManager.requestSuspend cfg fs bus PowerManager.SUSPEND_REASON_BUTTON
   = PowerManager.suspend cfg bus /\
   In PowerManager.suspend_called (snd (PowerManager.suspend cfg bus))).
Proof.
  assert (Hcalled : In PowerManager.suspend_called
                      (snd (PowerManager.suspend cfg bus))).
  { unfold PowerManager.suspend.
    destruct (SYSTEMD cfg), (PowerManager.bus_opens bus),
      (PowerManager.suspend_error bus); cbn; auto. }
  unfold PowerManager.requestSuspend.
  split; [|split; [|split]].
  - intros ->. reflexivity.
  - intros -> ->. cbn. split; [reflexivity|]. intros [H|[]]. discriminate.
  - intros -> ->. cbn. split; [reflexivity|]. split; [reflexivity|exact Hcalled].
  - split; [reflexivity|exact Hcalled].
Qed.

Lemma requestSuspend_gate_witness :
  PowerManager.requestSuspend Examples.build Examples.no_dock Examples.logind_up
    PowerManager.SUSPEND_REASON_LID
  = (false, [PowerManager.written (stderr "dock is not sane/present")]) /\
  fst (PowerManager.requestSuspend Examples.build Examples.docked
         Examples.logind_up PowerManager.SUSPEND_REASON_LID) = false /\
  fst (PowerManager.requestSuspend Examples.build Examples.undocked
         Examples.logind_up PowerManager.SUSPEND_REASON_LID) = true /\
  In PowerManager.suspend_called
    (snd (PowerManager.requestSuspend Examples.build Examples.undocked
            Examples.logind_up PowerManager.SUSPEND_REASON_LID)).
Proof.
  split; [|split; [|split]].
  - apply (requestSuspend_gate Examples.build Examples.no_dock Examples.logind_up).
    reflexivity.
  - apply (requestSuspend_gate Examples.build Examples.docked Examples.logind_up);
      reflexivity.
  - apply (requestSuspend_gate Examples.build Examples.undocked Examples.logind_up);
      reflexivity.
  - apply (requestSuspend_gate Examples.build Examples.undocked Examples.logind_up);
      reflexivity.
Defined.

(** ** The faults, for every monitor *)

Lemma find_absent (mode : VideoOutputMode) (infos : list XRRModeInfo.t) :
  (forall info, In info infos -> XRRModeInfo.id info <> mode) ->
  find (fun info => XRRModeInfo.id info =? mode) infos = None.
Proof.
  intros H. destruct (find _ infos) as [found|] eqn:E; [|reflexivity].
  apply find_some in E as [Hin Hid]. apply N.eqb_eq in Hid.
  destruct (H found Hin Hid).
Qed.

Lemma controllerInfo_null p m s :
  monitors s !! p = Some m -> videoControllerInfo m = None ->
  controllerInfo p s = Fault s.
Proof.
  intros H Hc. unfold controllerInfo.
  rewrite (bind_Done _ _ _ _ _ (load_Done _ _ _ H)). unfold deref. rewrite Hc.
  reflexivity.
Qed.

Lemma modeInfo_null p m s :
  monitors s !! p = Some m -> videoModeInfo m = None -> modeInfo p s = Fault s.
Proof.
  intros H Hc. unfold modeInfo.
  rewrite (bind_Done _ _ _ _ _ (load_Done _ _ _ H)). unfold deref. rewrite Hc.
  reflexivity.
Qed.

(** With a mode that is not in the catalog setOutputMode never returns
    normally: it reads through the null controller info or, after it has
    written the mode, through the null mode info. *)
Lemma setOutputMode_absent_always_faults this mode s m :
  monitors s !! this = Some m ->
  (forall info, In info (videoOutputModes s) -> XRRModeInfo.id info <> mode) ->
  exists s', setOutputMode this mode s = Fault s'.
Proof.
  intros Hm Habsent. unfold setOutputMode.
  rewrite (bind_Done _ _ _ _ _ (assign_Done _ _ _ _ Hm)).
  fold (put this (set_videoModeInfo None m) s).
  rewrite run_bind. cbn [videoOutputModes put set_monitors].
  rewrite (find_absent _ _ Habsent).
  fold (put this (set_videoModeInfo None m) s).
  set (m1 := set_videoModeInfo None m).
  rewrite (bind_Done (mret tt) _ (put this m1 s) tt (put this m1 s) eq_refl).
  rewrite (bind_Done _ _ _ _ _ (load_put this m s Hm m1)).
  rewrite run_bind.
  cbn [when bool_decide decide_rel option_eq_None_dec m1 videoModeInfo
         set_videoModeInfo fprintf].
  set (s1 := set_printed _ (put this m1 s)).
  assert (H1 : monitors s1 !! this = Some m1) by (eapply lookup_put_eq, Hm).
  assert (Hc1 : videoControllerInfo m1 = videoControllerInfo m) by reflexivity.
  destruct (videoControllerInfo m) as [c|] eqn:Hc.
  - rewrite (bind_Done _ _ _ _ _ (controllerInfo_Done this m1 c _ H1 Hc1)).
    rewrite (bind_Done _ _ _ _ _ (assign_Done _ _ _ _ H1)).
    set (m2 := set_videoControllerInfo _ m1).
    set (s2 := set_monitors _ s1).
    assert (H2 : monitors s2 !! this = Some m2).
    { cbn. apply list_lookup_insert_eq. eapply lookup_lt_Some, H1. }
    rewrite (bind_Done _ _ _ _ _ (controllerInfo_Done this m2 _ _ H2 eq_refl)).
    rewrite run_bind, (modeInfo_null this m2 s2 H2 eq_refl). eauto.
  - rewrite run_bind, (controllerInfo_null this m1 s1 H1 Hc1). eauto.
Qed.

(** After release() a commit always reads through the null controller
    info, in every build that sends requests. *)
Lemma applyConfiguration_released_always_faults cfg fuel this s m :
  DRYRUN cfg = false ->
  monitors s !! this = Some m ->
  exists s1,
    release this s = Done tt s1 /\
    isOff this s1 = Done true s1 /\
    applyConfiguration cfg fuel this s1 = Fault s1.
Proof.
  intros Hdry Hm.
  set (s0 := if negb (videoController m =? None_)
             then set_availableControllers
                    (ScreenResources.releaseController (videoController m)
                       (availableControllers s)) s
             else s).
  assert (H0 : monitors s0 !! this = Some m).
  { unfold s0. destruct (negb _); exact Hm. }
  set (m3 := set_videoModeInfo None
               (set_videoController None_ (set_videoControllerInfo None m))).
  exists (put this m3 s0).
  assert (Hrel : release this s = Done tt (put this m3 s0)).
  { unfold release. rewrite (bind_Done _ _ _ _ _ (load_Done _ _ _ Hm)).
    rewrite (bind_Done _ _ s tt s0) by (unfold s0, when; destruct (negb _); reflexivity).
    rewrite (bind_Done _ _ _ _ _ (assign_Done _ _ _ _ H0)).
    fold (put this (set_videoControllerInfo None m) s0).
    rewrite (bind_Done _ _ _ _ _ (assign_put _ _ _ _ _ H0)).
    rewrite (assign_put _ _ _ _ _ H0). reflexivity. }
  assert (H3 : monitors (put this m3 s0) !! this = Some m3)
    by (eapply lookup_put_eq, H0).
  assert (Hoff : isOff this (put this m3 s0) = Done true (put this m3 s0)).
  { unfold isOff. rewrite (bind_Done _ _ _ _ _ (load_Done _ _ _ H3)). reflexivity. }
  split; [exact Hrel|]. split; [exact Hoff|].
  unfold applyConfiguration. rewrite (bind_Done _ _ _ _ _ Hoff).
  unfold applyConfiguration_monitor. rewrite Hdry.
  rewrite run_bind, (bind_Done _ _ _ _ _ (load_Done _ _ _ H3)). reflexivity.
Qed.

(** The scenario of the canvas height, for every such topology: an anchor
    of height 1080, one top neighbour of height 900, nothing below and
    nothing taller than 1980 on the horizontal axis give the height 1980. *)
Lemma calculateLimits_height_1980 fuel this s t ls rs p :
  monitors s !! this = Some t ->
  chain fuel leftMonitor (monitors s) (leftMonitor t) = Some ls ->
  chain fuel rightMonitor (monitors s) (rightMonitor t) = Some rs ->
  chain fuel topMonitor (monitors s) (topMonitor t) = Some [p] ->
  chain fuel bottomMonitor (monitors s) (bottomMonitor t) = Some [] ->
  forallb (measurable (monitors s)) (this :: ls ++ rs ++ [p]) = true ->
  zeroed t ->
  height_at (monitors s) this = 1080 ->
  height_at (monitors s) p = 900 ->
  max_over (height_at (monitors s)) (ls ++ rs) <= 1980 ->
  exists t',
    calculateLimits fuel this s = Done tt (put this t' s) /\ screenHeight t' = 1980.
Proof.
  intros Ht Hl Hr Htop Hb Hall Hzero Hthis Hp Hmax.
  exists (limited (monitors s) this t ls rs [p] []).
  split; [apply calculateLimits_Done; assumption|].
  assert (E : screenHeight (limited (monitors s) this t ls rs [p] [])
              = N.max (height_at (monitors s) this
                       + sum_over (height_at (monitors s)) [p]
                       + sum_over (height_at (monitors s)) [])
                  (max_over (height_at (monitors s)) (this :: ls ++ rs))).
  { pose proof (limits_limited (monitors s) this t ls rs [p] [] Hall Hzero) as E.
    cbv zeta in E. unfold limits in E at 1.
    injection E as _ _ _ _ _ E _ _. exact E. }
  rewrite E, max_over_cons.
  cbn [sum_over foldr]. rewrite Hthis, Hp. lia.
Qed.

(** * More of the library *)

(** ** The pool: markControllerAsBusy and repeated leases *)

(** X1: markControllerAsBusy removes one occurrence of the controller, if
    there is one, and nothing else: every other controller keeps its
    number of occurrences. *)
Theorem markControllerAsBusy_count (c d : VideoController)
  (pool : list VideoController) :
  count_occ N.eq_dec (Pool.markControllerAsBusy c pool) d
  = if N.eq_dec d c then Nat.pred (count_occ N.eq_dec pool c)
    else count_occ N.eq_dec pool d.
Proof.
  induction pool as [|a pool IH]; cbn.
  - destruct (N.eq_dec d c); reflexivity.
  - destruct (N.eqb_spec a c) as [->|Hne].
    + destruct (N.eq_dec d c) as [->|Hd].
      * destruct (N.eq_dec c c); [reflexivity|contradiction].
      * destruct (N.eq_dec c d); [congruence|reflexivity].
    + cbn. rewrite IH. destruct (N.eq_dec d c) as [->|Hd].
      * destruct (N.eq_dec a c); [contradiction|reflexivity].
      * reflexivity.
Qed.

Lemma markControllerAsBusy_absent c pool :
  ~ In c pool -> Pool.markControllerAsBusy c pool = pool.
Proof.
  induction pool as [|a pool IH]; cbn; [reflexivity|]. intros H.
  destruct (N.eqb_spec a c) as [->|Hne]; [destruct H; auto|].
  rewrite IH; [reflexivity|]. intros Hin. apply H. auto.
Qed.

(** X2: releasing a controller that is not in the pool and marking it busy
    again gives back the pool, order included. *)
Theorem release_markControllerAsBusy c pool :
  ~ In c pool ->
  Pool.markControllerAsBusy c (ScreenResources.releaseController c pool) = pool.
Proof.
  unfold ScreenResources.releaseController.
  induction pool as [|a pool IH]; cbn; intros H.
  - rewrite N.eqb_refl. reflexivity.
  - destruct (N.eqb_spec a c) as [->|Hne]; [destruct H; auto|].
    rewrite IH; [reflexivity|]. intros Hin. apply H. auto.
Qed.

Lemma release_markControllerAsBusy_witness :
  Pool.markControllerAsBusy 7 (ScreenResources.releaseController 7 [3; 5]) = [3; 5].
Proof.
  apply (release_markControllerAsBusy 7 [3; 5]).
  intros [H|[H|[]]]; discriminate.
Defined.

Lemma markControllerAsBusy_incl c pool d :
  In d (Pool.markControllerAsBusy c pool) -> In d pool.
Proof.
  induction pool as [|a pool IH]; cbn; [tauto|].
  destruct (a =? c); cbn; tauto.
Qed.

Lemma markControllerAsBusy_gone c pool :
  List.NoDup pool -> ~ In c (Pool.markControllerAsBusy c pool).
Proof.
  intros Hnd. induction Hnd as [|a pool Ha Hnd IH]; cbn; [tauto|].
  destruct (N.eqb_spec a c) as [->|Hne]; [exact Ha|].
  cbn. intros [H|H]; [contradiction|]. apply IH, H.
Qed.

Lemma markControllerAsBusy_distinct c pool :
  List.NoDup pool -> List.NoDup (Pool.markControllerAsBusy c pool).
Proof.
  intros Hnd. induction Hnd as [|a pool Ha Hnd IH]; cbn; [constructor|].
  destruct (a =? c); [exact Hnd|].
  constructor; [|exact IH]. intros H. apply Ha.
  eapply markControllerAsBusy_incl, H.
Qed.

(** X3: in a pool without duplicates a controller that was marked busy is
    not available any more; the pool still has no duplicates and has
    gained nothing. *)
Theorem markControllerAsBusy_NoDup c pool :
  List.NoDup pool ->
  ~ In c (Pool.markControllerAsBusy c pool) /\
  List.NoDup (Pool.markControllerAsBusy c pool) /\
  (forall d, In d (Pool.markControllerAsBusy c pool) -> In d pool).
Proof.
  intros Hnd. split; [apply markControllerAsBusy_gone, Hnd|].
  split; [apply markControllerAsBusy_distinct, Hnd|].
  intros d. apply markControllerAsBusy_incl.
Qed.

Lemma markControllerAsBusy_NoDup_witness :
  ~ In 5 (Pool.markControllerAsBusy 5 [3; 5; 8]) /\
  List.NoDup (Pool.markControllerAsBusy 5 [3; 5; 8]) /\
  (forall d, In d (Pool.markControllerAsBusy 5 [3; 5; 8]) -> In d [3; 5; 8]).
Proof.
  apply (markControllerAsBusy_NoDup 5 [3; 5; 8]).
  repeat constructor; cbn; intros H; repeat destruct H as [H|H]; try discriminate;
    exact H.
Defined.

(** X4: controllers are leased in the order of the vector: n calls of
    requestController return its first n controllers, then None for every
    call that finds it empty, and leave what is behind the first n. *)
Theorem lease_in_order (n : nat) (pool : list VideoController) :
  Pool.lease n pool
  = (firstn n pool ++ repeat None_ (n - length pool), skipn n pool).
Proof.
  revert pool. induction n as [|n IH]; intros pool; cbn.
  - reflexivity.
  - destruct pool as [|c pool]; cbn.
    + rewrite (IH []). cbn. rewrite firstn_nil, skipn_nil, Nat.sub_0_r. reflexivity.
    + rewrite (IH pool). reflexivity.
Qed.

(** ** Monitor: position, turnOff and release *)

Lemma reads_Done {A : Type} (f : State -> A) s : reads f s = Done (f s) s.
Proof. reflexivity. Qed.

Lemma writes_Done (f : State -> State) s : writes f s = Done tt (f s).
Proof. reflexivity. Qed.

Lemma point_eta (p : point.t) : point.mk (point.x p) (point.y p) = p.
Proof. destruct p; reflexivity. Qed.

(** X5: on a monitor without controller info setPosition only writes a
    line, and getPosition answers (-1, -1) and only writes a line: no
    monitor, no request and no controller of the pool changes. *)
Theorem position_of_inactive_monitor this position s m :
  monitors s !! this = Some m ->
  videoControllerInfo m = None ->
  exists s1 s2,
    setPosition this position s = Done tt s1 /\
    getPosition this s1 = Done (point.mk (-1) (-1)) s2 /\
    monitors s2 = monitors s /\
    requests s2 = requests s /\
    availableControllers s2 = availableControllers s /\
    printed s2
    = printed s ++ [stderr "requested to set position on inactive monitor\n";
                    stderr "requested position of inactive monitor\n"].
Proof.
  intros Hm Hc.
  set (s1 := set_printed
               (printed s ++ [stderr "requested to set position on inactive monitor\n"])
               s).
  exists s1. eexists. split; [|split].
  - unfold setPosition. rewrite (bind_Done _ _ _ _ _ (load_Done _ _ _ Hm)), Hc.
    reflexivity.
  - unfold getPosition.
    rewrite (bind_Done _ _ _ _ _ (load_Done this m s1 Hm)), Hc. reflexivity.
  - cbn. rewrite <- app_assoc. auto.
Qed.

Lemma position_of_inactive_monitor_witness :
  exists s1 s2,
    setPosition 1 (point.mk 10 20) MoreExamples.unbound = Done tt s1 /\
    getPosition 1 s1 = Done (point.mk (-1) (-1)) s2 /\
    monitors s2 = monitors MoreExamples.unbound /\
    requests s2 = requests MoreExamples.unbound /\
    availableControllers s2 = availableControllers MoreExamples.unbound /\
    printed s2
    = printed MoreExamples.unbound
      ++ [stderr "requested to set position on inactive monitor\n";
          stderr "requested position of inactive monitor\n"].
Proof.
  apply (position_of_inactive_monitor 1 (point.mk 10 20) MoreExamples.unbound
           MoreExamples.no_controller); reflexivity.
Defined.

(** What setPosition leaves on a monitor with controller info, and what
    getPosition reads there. *)
Lemma setPosition_Done this position s m c :
  monitors s !! this = Some m ->
  videoControllerInfo m = Some c ->
  setPosition this position s
  = Done tt
      (put this
         (set_videoControllerInfo
            (Some (XRRCrtcInfo.mk (point.x position) (point.y position)
                     (XRRCrtcInfo.width c) (XRRCrtcInfo.height c)
                     (XRRCrtcInfo.mode c))) m) s).
Proof.
  intros Hm Hc. unfold setPosition.
  rewrite (bind_Done _ _ _ _ _ (load_Done _ _ _ Hm)), Hc.
  apply (store_Done _ m), Hm.
Qed.

Lemma getPosition_Done this s m c :
  monitors s !! this = Some m ->
  videoControllerInfo m = Some c ->
  getPosition this s = Done (point.mk (XRRCrtcInfo.x c) (XRRCrtcInfo.y c)) s.
Proof.
  intros Hm Hc. unfold getPosition.
  rewrite (bind_Done _ _ _ _ _ (load_Done _ _ _ Hm)), Hc. reflexivity.
Qed.

(** X6: on a monitor with controller info getPosition after setPosition
    gives the position back; the size and the mode of the controller info
    and every other monitor are as before. *)
Theorem setPosition_getPosition this position s m c :
  monitors s !! this = Some m ->
  videoControllerInfo m = Some c ->
  exists s' m' c',
    setPosition this position s = Done tt s' /\
    getPosition this s' = Done position s' /\
    monitors s' !! this = Some m' /\
    videoControllerInfo m' = Some c' /\
    XRRCrtcInfo.width c' = XRRCrtcInfo.width c /\
    XRRCrtcInfo.height c' = XRRCrtcInfo.height c /\
    XRRCrtcInfo.mode c' = XRRCrtcInfo.mode c /\
    unplaced m' = unplaced m /\
    (forall q, q <> this -> monitors s' !! q = monitors s !! q).
Proof.
  intros Hm Hc.
  set (c' := XRRCrtcInfo.mk (point.x position) (point.y position)
               (XRRCrtcInfo.width c) (XRRCrtcInfo.height c) (XRRCrtcInfo.mode c)).
  set (m' := set_videoControllerInfo (Some c') m).
  exists (put this m' s), m', c'.
  assert (H' : monitors (put this m' s) !! this = Some m')
    by (eapply lookup_put_eq, Hm).
  split; [|split; [|split; [exact H'|repeat split]]].
  - exact (setPosition_Done this position s m c Hm Hc).
  - rewrite (getPosition_Done this _ m' c' H' eq_refl). cbn. rewrite point_eta.
    reflexivity.
  - destruct m; cbn in *. subst. reflexivity.
  - intros q Hq. apply lookup_put_ne. congruence.
Qed.

Lemma setPosition_getPosition_witness :
  exists s' m' c',
    setPosition 0 (point.mk 10 20) Examples.alone = Done tt s' /\
    getPosition 0 s' = Done (point.mk 10 20) s' /\
    monitors s' !! 0%nat = Some m' /\
    videoControllerInfo m' = Some c' /\
    XRRCrtcInfo.width c' = 1920 /\
    XRRCrtcInfo.height c' = 1080 /\
    XRRCrtcInfo.mode c' = 101 /\
    unplaced m'
    = unplaced (Examples.monitor 11 1 Examples.full_hd 510 290 true None None
                  None None) /\
    (forall q, q <> 0%nat -> monitors s' !! q = monitors Examples.alone !! q).
Proof.
  apply (setPosition_getPosition 0 (point.mk 10 20) Examples.alone
           (Examples.monitor 11 1 Examples.full_hd 510 290 true None None None None)
           (XRRCrtcInfo.mk 0 0 1920 1080 101)); reflexivity.
Defined.

(** X7: turnOff on a monitor with controller info makes it off and leaves
    it its controller: the controller is not given back to the pool, and the
    position stays in the controller info. *)
Theorem turnOff_keeps_controller this s m c :
  monitors s !! this = Some m ->
  videoControllerInfo m = Some c ->
  exists s' m' c',
    turnOff this s = Done tt s' /\
    isOff this s' = Done true s' /\
    monitors s' !! this = Some m' /\
    videoController m' = videoController m /\
    videoModeInfo m' = None /\
    videoControllerInfo m' = Some c' /\
    XRRCrtcInfo.mode c' = None_ /\
    XRRCrtcInfo.x c' = XRRCrtcInfo.x c /\ XRRCrtcInfo.y c' = XRRCrtcInfo.y c /\
    availableControllers s' = availableControllers s.
Proof.
  intros Hm Hc.
  set (c' := XRRCrtcInfo.mk (XRRCrtcInfo.x c) (XRRCrtcInfo.y c)
               (XRRCrtcInfo.width c) (XRRCrtcInfo.height c) None_).
  set (m' := set_videoModeInfo None (set_videoControllerInfo (Some c') m)).
  exists (put this m' s), m', c'.
  assert (H' : monitors (put this m' s) !! this = Some m')
    by (eapply lookup_put_eq, Hm).
  split; [|split; [|split; [exact H'|repeat split]]].
  - unfold turnOff. rewrite (bind_Done _ _ _ _ _ (load_Done _ _ _ Hm)), Hc.
    rewrite (bind_Done _ _ _ _ _ (assign_Done _ _ _ _ Hm)).
    fold (put this (set_videoControllerInfo (Some c') m) s).
    apply (assign_put _ _ _ _ _ Hm).
  - unfold isOff. rewrite (bind_Done _ _ _ _ _ (load_Done _ _ _ H')).
    cbn [m' videoController set_videoModeInfo set_videoControllerInfo].
    destruct (videoController m =? None_); reflexivity.
Qed.

Lemma turnOff_keeps_controller_witness :
  exists s' m' c',
    turnOff 0 Examples.alone = Done tt s' /\
    isOff 0 s' = Done true s' /\
    monitors s' !! 0%nat = Some m' /\
    videoController m' = 1 /\
    videoModeInfo m' = None /\
    videoControllerInfo m' = Some c' /\
    XRRCrtcInfo.mode c' = None_ /\
    XRRCrtcInfo.x c' = 0%Z /\ XRRCrtcInfo.y c' = 0%Z /\
    availableControllers s' = [].
Proof.
  apply (turnOff_keeps_controller 0 Examples.alone
           (Examples.monitor 11 1 Examples.full_hd 510 290 true None None None None)
           (XRRCrtcInfo.mk 0 0 1920 1080 101)); reflexivity.
Defined.

(** X8: for a monitor that is off and has a controller info
    applyConfiguration sends one XRRSetCrtcConfig and nothing else: no
    grab, no canvas size, no sync, and no monitor changes (limits and
    positions are not calculated).  With the mode None the request carries
    no output. *)
Theorem applyConfiguration_off_one_request cfg fuel this s m c :
  DRYRUN cfg = false ->
  monitors s !! this = Some m ->
  videoControllerInfo m = Some c ->
  isOff this s = Done true s ->
  exists s',
    applyConfiguration cfg fuel this s = Done true s' /\
    monitors s' = monitors s /\
    requests s' = requests s ++ [crtc_config m c] /\
    (XRRCrtcInfo.mode c = None_ ->
     crtc_config m c
     = XRRSetCrtcConfig (videoController m) (XRRCrtcInfo.x c) (XRRCrtcInfo.y c)
         None_ [] 0).
Proof.
  intros Hdry Hm Hc Hoff.
  assert (Hready : exists s',
            applyConfiguration_monitor cfg this s = Done tt s' /\
            monitors s' = monitors s /\
            requests s' = requests s ++ [crtc_config m c]).
  { unfold applyConfiguration_monitor. rewrite Hdry.
    rewrite (bind_Done _ _ _ _ _ (load_Done _ _ _ Hm)).
    unfold deref at 1. rewrite run_bind, Hc.
    rewrite (bind_Done (request _) _ _ _ _ eq_refl).
    rewrite run_bind. cbn [set_config_ok set_requests].
    destruct (set_config_ok s (crtc_config m c)); cbn;
      eexists; (split; [reflexivity|]); split; reflexivity. }
  destruct Hready as (s' & Hrun & Hmon & Hreq).
  exists s'. split; [|split; [assumption|split; [assumption|]]].
  - unfold applyConfiguration. rewrite (bind_Done _ _ _ _ _ Hoff).
    rewrite (bind_Done _ _ _ _ _ Hrun). reflexivity.
  - intros Hmode. unfold crtc_config. rewrite Hmode. reflexivity.
Qed.

Lemma applyConfiguration_off_one_request_witness :
  exists s',
    applyConfiguration Examples.build 4 0 MoreExamples.turned_off = Done true s' /\
    monitors s' = monitors MoreExamples.turned_off /\
    requests s' = [XRRSetCrtcConfig 1 640 0 None_ [] 0] /\
    (None_ = None_ ->
     XRRSetCrtcConfig 1 640 0 None_ [] 0 = XRRSetCrtcConfig 1 640 0 None_ [] 0).
Proof.
  apply (applyConfiguration_off_one_request Examples.build 4 0
           MoreExamples.turned_off MoreExamples.dark
           (XRRCrtcInfo.mk 640 0 1920 1080 None_)); reflexivity.
Defined.

(** What release() leaves: the state with the controller appended to the
    pool, when there is one, and [this] without controller, controller info
    and mode info. *)
Lemma release_Done this s m :
  monitors s !! this = Some m ->
  release this s
  = Done tt
      (put this
         (set_videoModeInfo None
            (set_videoController None_ (set_videoControllerInfo None m)))
         (if negb (videoController m =? None_)
          then set_availableControllers
                 (ScreenResources.releaseController (videoController m)
                    (availableControllers s)) s
          else s)).
Proof.
  intros Hm.
  set (s0 := if negb (videoController m =? None_) then _ else s).
  assert (H0 : monitors s0 !! this = Some m).
  { unfold s0. destruct (negb _); exact Hm. }
  unfold release. rewrite (bind_Done _ _ _ _ _ (load_Done _ _ _ Hm)).
  rewrite (bind_Done _ _ s tt s0) by (unfold s0, when; destruct (negb _); reflexivity).
  rewrite (bind_Done _ _ _ _ _ (assign_Done _ _ _ _ H0)).
  fold (put this (set_videoControllerInfo None m) s0).
  rewrite (bind_Done _ _ _ _ _ (assign_put _ _ _ _ _ H0)).
  rewrite (assign_put _ _ _ _ _ H0). reflexivity.
Qed.

(** X9: release() on a monitor that holds a controller appends that
    controller to the pool, behind the controllers that wait there, and
    leaves the monitor off, without controller, controller info and mode
    info; the other monitors are as before. *)
Theorem release_returns_controller this s m :
  monitors s !! this = Some m ->
  videoController m <> None_ ->
  exists s' m',
    release this s = Done tt s' /\
    availableControllers s' = availableControllers s ++ [videoController m] /\
    monitors s' !! this = Some m' /\
    videoController m' = None_ /\
    videoControllerInfo m' = None /\
    videoModeInfo m' = None /\
    isOff this s' = Done true s' /\
    (forall q, q <> this -> monitors s' !! q = monitors s !! q).
Proof.
  intros Hm Hc. eexists _, _. split; [apply release_Done, Hm|].
  apply N.eqb_neq in Hc. rewrite Hc. cbn [negb].
  set (s0 := set_availableControllers _ s).
  assert (H0 : monitors s0 !! this = Some m) by exact Hm.
  split; [reflexivity|]. split; [eapply lookup_put_eq; exact H0|].
  split; [reflexivity|]. split; [reflexivity|]. split; [reflexivity|]. split.
  - unfold isOff.
    rewrite (bind_Done _ _ _ _ _
               (load_Done _ _ _ (lookup_put_eq this m _ s0 H0))).
    reflexivity.
  - intros q Hq. rewrite lookup_put_ne by congruence. reflexivity.
Qed.

Lemma release_returns_controller_witness :
  exists s' m',
    release 0 MoreExamples.unbound = Done tt s' /\
    availableControllers s' = [2; 1] /\
    monitors s' !! 0%nat = Some m' /\
    videoController m' = None_ /\
    videoControllerInfo m' = None /\
    videoModeInfo m' = None /\
    isOff 0 s' = Done true s' /\
    (forall q, q <> 0%nat -> monitors s' !! q = monitors MoreExamples.unbound !! q).
Proof.
  apply (release_returns_controller 0 MoreExamples.unbound
           (Examples.monitor 11 1 Examples.full_hd 510 290 true None None None None));
    [reflexivity|discriminate].
Defined.

(** X10: a second release() changes nothing: the controller is appended to
    the pool once, however often release() is called. *)
Theorem release_twice this s m :
  monitors s !! this = Some m ->
  exists s', release this s = Done tt s' /\ release this s' = Done tt s'.
Proof.
  intros Hm. eexists. split; [apply release_Done, Hm|].
  set (s0 := if negb (videoController m =? None_) then _ else s).
  assert (H0 : monitors s0 !! this = Some m).
  { unfold s0. destruct (negb _); exact Hm. }
  set (m' := set_videoModeInfo None _).
  rewrite (release_Done this (put this m' s0) m') by (eapply lookup_put_eq, H0).
  cbn [m' videoController set_videoModeInfo set_videoController N.eqb None_ negb].
  rewrite put_put. reflexivity.
Qed.

Lemma release_twice_witness :
  exists s', release 0 MoreExamples.unbound = Done tt s' /\ release 0 s' = Done tt s'.
Proof.
  apply (release_twice 0 MoreExamples.unbound
           (Examples.monitor 11 1 Examples.full_hd 510 290 true None None None None)).
  reflexivity.
Defined.

(** ** Monitor: reconfigure *)

Lemma setController_Done x this controller s m :
  monitors s !! this = Some m ->
  setController x this controller s
  = Done tt
      (let s' :=
         put this
           (set_videoControllerInfo (XRRGetCrtcInfo x controller)
              (set_videoController controller m)) s in
       if present (XRRGetCrtcInfo x controller) then s'
       else set_printed (printed s' ++ [stderr "error querying new controller\n"]) s').
Proof.
  intros Hm. unfold setController.
  rewrite (bind_Done _ _ _ _ _ (assign_Done _ _ _ _ Hm)).
  fold (put this (set_videoController controller m) s).
  rewrite (bind_Done _ _ _ _ _ (load_put this m s Hm _)).
  rewrite (bind_Done _ _ _ _ _ (assign_put _ _ _ _ _ Hm)).
  rewrite (bind_Done _ _ _ _ _ (load_put this m s Hm _)).
  cbv zeta. cbn [videoController videoControllerInfo set_videoController
                   set_videoControllerInfo].
  destruct (XRRGetCrtcInfo x controller); reflexivity.
Qed.

(** What reconfigure() leaves when the pool starts with a controller. *)
Lemma reconfigure_Done x this s m c rest :
  monitors s !! this = Some m ->
  availableControllers s = c :: rest ->
  c <> None_ ->
  reconfigure x this s
  = Done true
      (let s' :=
         put this
           (set_videoControllerInfo (XRRGetCrtcInfo x c) (set_videoController c m))
           (set_availableControllers rest s) in
       if present (XRRGetCrtcInfo x c) then s'
       else set_printed (printed s' ++ [stderr "error querying new controller\n"]) s').
Proof.
  intros Hm Hpool Hc. apply N.eqb_neq in Hc.
  set (s0 := set_availableControllers rest s).
  assert (H0 : monitors s0 !! this = Some m) by exact Hm.
  unfold reconfigure.
  rewrite (bind_Done _ _ _ _ _ (reads_Done _ s)).
  rewrite (bind_Done _ _ _ _ _ (writes_Done _ s)).
  rewrite Hpool. cbn [ScreenResources.requestController fst snd]. rewrite Hc.
  fold s0. rewrite (bind_Done _ _ _ _ _ (setController_Done x this c s0 m H0)).
  reflexivity.
Qed.

(** X11: reconfigure() on an allocated monitor answers false exactly when
    the pool is empty or its first controller is None, then after one line
    on stderr and without a change to any monitor; in every case the first
    controller has left the pool. *)
Theorem reconfigure_false_iff x this s m :
  monitors s !! this = Some m ->
  exists b s',
    reconfigure x this s = Done b s' /\
    (b = false <-> hd None_ (availableControllers s) = None_) /\
    availableControllers s' = tl (availableControllers s) /\
    (b = false ->
     monitors s' = monitors s /\
     printed s'
     = printed s ++ [stderr "can't reconfigure output: no available controllers"]).
Proof.
  intros Hm. destruct (availableControllers s) as [|c rest] eqn:Hpool.
  - exists false. eexists. split.
    + unfold reconfigure.
      rewrite (bind_Done _ _ _ _ _ (reads_Done _ s)).
      rewrite (bind_Done _ _ _ _ _ (writes_Done _ s)).
      rewrite Hpool. reflexivity.
    + cbn. intuition reflexivity.
  - destruct (N.eqb_spec c None_) as [->|Hc].
    + exists false. eexists. split.
      * unfold reconfigure.
        rewrite (bind_Done _ _ _ _ _ (reads_Done _ s)).
        rewrite (bind_Done _ _ _ _ _ (writes_Done _ s)).
        rewrite Hpool. reflexivity.
      * cbn. intuition reflexivity.
    + exists true. eexists.
      split; [exact (reconfigure_Done x this s m c rest Hm Hpool Hc)|].
      cbn [hd tl]. split; [split; [discriminate|contradiction]|].
      split; [|discriminate].
      cbv zeta. destruct (present (XRRGetCrtcInfo x c)); reflexivity.
Qed.

Lemma reconfigure_false_iff_witness :
  exists b s',
    reconfigure MoreExamples.xlib 0 Examples.alone = Done b s' /\
    (b = false <-> hd None_ (availableControllers Examples.alone) = None_) /\
    availableControllers s' = tl (availableControllers Examples.alone) /\
    (b = false ->
     monitors s' = monitors Examples.alone /\
     printed s'
     = printed Examples.alone
       ++ [stderr "can't reconfigure output: no available controllers"]).
Proof.
  apply (reconfigure_false_iff MoreExamples.xlib 0 Examples.alone
           (Examples.monitor 11 1 Examples.full_hd 510 290 true None None None None)).
  reflexivity.
Defined.

(** X12: reconfigure() takes the first controller of the pool, whatever
    the monitor held: the monitor has that controller and what
    XRRGetCrtcInfo answers for it, its mode info is untouched, and the pool
    is what was behind the first controller; a controller the monitor held
    before is not put back. *)
Theorem reconfigure_takes_first x this s m c rest :
  monitors s !! this = Some m ->
  availableControllers s = c :: rest ->
  c <> None_ ->
  exists s' m',
    reconfigure x this s = Done true s' /\
    availableControllers s' = rest /\
    monitors s' !! this = Some m' /\
    videoController m' = c /\
    videoControllerInfo m' = XRRGetCrtcInfo x c /\
    videoModeInfo m' = videoModeInfo m.
Proof.
  intros Hm Hpool Hc.
  set (s0 := set_availableControllers rest s).
  assert (H0 : monitors s0 !! this = Some m) by exact Hm.
  eexists _, _. split; [|split; [|split; [|split; [|split]]]].
  - exact (reconfigure_Done x this s m c rest Hm Hpool Hc).
  - cbv zeta. destruct (present (XRRGetCrtcInfo x c)); reflexivity.
  - cbv zeta. destruct (present (XRRGetCrtcInfo x c)); cbn [monitors set_printed];
      eapply lookup_put_eq, H0.
  - reflexivity.
  - reflexivity.
  - reflexivity.
Qed.

Lemma reconfigure_takes_first_witness :
  exists s' m',
    reconfigure MoreExamples.xlib 0 MoreExamples.unbound = Done true s' /\
    availableControllers s' = [] /\
    monitors s' !! 0%nat = Some m' /\
    videoController m' = 2 /\
    videoControllerInfo m' = Some (XRRCrtcInfo.mk 0 0 0 0 None_) /\
    videoModeInfo m' = Some Examples.full_hd.
Proof.
  apply (reconfigure_takes_first MoreExamples.xlib 0 MoreExamples.unbound
           (Examples.monitor 11 1 Examples.full_hd 510 290 true None None None None)
           2 []); [reflexivity|reflexivity|discriminate].
Defined.

(** X13: a monitor that releases its controller and reconfigures gets the
    controller that waits first in the pool, its own only when the pool was
    empty; its own controller then waits last. *)
Theorem release_then_reconfigure x this s m :
  monitors s !! this = Some m ->
  videoController m <> None_ ->
  hd (videoController m) (availableControllers s) <> None_ ->
  exists s1 s2 m2,
    release this s = Done tt s1 /\
    reconfigure x this s1 = Done true s2 /\
    monitors s2 !! this = Some m2 /\
    videoController m2 = hd (videoController m) (availableControllers s) /\
    availableControllers s2
    = tl (availableControllers s ++ [videoController m]).
Proof.
  intros Hm Hc Hhd.
  pose proof (release_Done this s m Hm) as Hrel.
  rewrite (proj2 (N.eqb_neq _ _) Hc) in Hrel. cbn [negb] in Hrel.
  set (m1 := set_videoModeInfo None _) in Hrel.
  set (s1 := put this m1 _) in Hrel.
  assert (Hm1 : monitors s1 !! this = Some m1) by (eapply lookup_put_eq, Hm).
  assert (Hpool1 : availableControllers s1
                   = availableControllers s ++ [videoController m]) by reflexivity.
  assert (Hhd1 : hd (videoController m) (availableControllers s)
                 :: tl (availableControllers s ++ [videoController m])
                 = availableControllers s1)
    by (rewrite Hpool1; destruct (availableControllers s); reflexivity).
  pose proof (reconfigure_Done x this s1 m1 _ _ Hm1 (eq_sym Hhd1) Hhd) as Hrec.
  exists s1. eexists _, _. split; [exact Hrel|]. split; [exact Hrec|].
  cbv zeta. destruct (present (XRRGetCrtcInfo x _)).
  - split; [eapply lookup_put_eq, Hm1|]. split; reflexivity.
  - split; [eapply lookup_put_eq, Hm1|]. split; reflexivity.
Qed.

Lemma release_then_reconfigure_witness :
  exists s1 s2 m2,
    release 0 MoreExamples.unbound = Done tt s1 /\
    reconfigure MoreExamples.xlib 0 s1 = Done true s2 /\
    monitors s2 !! 0%nat = Some m2 /\
    videoController m2 = 2 /\
    availableControllers s2 = [1].
Proof.
  apply (release_then_reconfigure MoreExamples.xlib 0 MoreExamples.unbound
           (Examples.monitor 11 1 Examples.full_hd 510 290 true None None None None));
    [reflexivity|discriminate|discriminate].
Defined.

(** X14: when XRRGetCrtcInfo has no answer for the leased controller,
    reconfigure() still returns true, after a line on stderr; the
    monitor then has a controller and no controller info, and isOff() reads
    through the null pointer. *)
Theorem reconfigure_without_info x this s m c rest :
  monitors s !! this = Some m ->
  availableControllers s = c :: rest ->
  c <> None_ ->
  XRRGetCrtcInfo x c = None ->
  exists s',
    reconfigure x this s = Done true s' /\
    printed s' = printed s ++ [stderr "error querying new controller\n"] /\
    isOff this s' = Fault s'.
Proof.
  intros Hm Hpool Hc Hnone.
  set (s0 := set_availableControllers rest s).
  assert (H0 : monitors s0 !! this = Some m) by exact Hm.
  set (m' := set_videoControllerInfo None (set_videoController c m)).
  set (s' := set_printed
               (printed (put this m' s0) ++ [stderr "error querying new controller\n"])
               (put this m' s0)).
  exists s'. split; [|split].
  - rewrite (reconfigure_Done x this s m c rest Hm Hpool Hc), Hnone. reflexivity.
  - reflexivity.
  - unfold isOff.
    assert (H' : monitors s' !! this = Some m') by (eapply lookup_put_eq, H0).
    rewrite (bind_Done _ _ _ _ _ (load_Done _ _ _ H')).
    cbn [m' videoController set_videoControllerInfo set_videoController].
    apply N.eqb_neq in Hc. rewrite Hc. reflexivity.
Qed.

Lemma reconfigure_without_info_witness :
  exists s',
    reconfigure MoreExamples.xlib_silent 0 MoreExamples.unbound = Done true s' /\
    printed s' = [stderr "error querying new controller\n"] /\
    isOff 0 s' = Fault s'.
Proof.
  apply (reconfigure_without_info MoreExamples.xlib_silent 0 MoreExamples.unbound
           (Examples.monitor 11 1 Examples.full_hd 510 290 true None None None None)
           2 []); [reflexivity|reflexivity|discriminate|reflexivity].
Defined.

(** ** Monitor: a chain that does not end *)

Lemma walk_self_x this s t info out :
  monitors s !! this = Some t ->
  videoModeInfo t = Some info ->
  videoOutputInfo t = Some out ->
  leftMonitor t = Some this ->
  forall fuel u, frame u = frame t ->
    walk fuel leftMonitor (fun ptr _ => limits_along_x this ptr) (Some this) tt
      (put this u s)
    = Diverge.
Proof.
  intros Ht Hi Ho Hl. induction fuel as [|fuel IH]; intros u Hu; [reflexivity|].
  cbn [walk].
  rewrite (bind_Done _ _ _ _ _
             (limits_along_x_put this this t u t info out s Ht Ht Hi Ho
                (frame_proj videoModeInfo u t ltac:(intros []; reflexivity) Hu)
                (frame_proj videoOutputInfo u t ltac:(intros []; reflexivity) Hu))).
  rewrite (bind_Done _ _ _ _ _ (load_put this t s Ht _)).
  replace (leftMonitor (along_x info out u)) with (Some this).
  - apply IH. destruct u; exact Hu.
  - rewrite <- Hl. symmetry.
    apply (frame_proj leftMonitor (along_x info out u) t);
      [intros []; reflexivity|]. destruct u; exact Hu.
Qed.

(** X15: the neighbour setters check nothing: a monitor can be made its own
    left neighbour, and then calculateLimits() does not come back from the
    loop over the left wing, whatever the budget of rounds. *)
Theorem calculateLimits_own_neighbour fuel this s m info out :
  monitors s !! this = Some m ->
  videoModeInfo m = Some info ->
  videoOutputInfo m = Some out ->
  (setLeftMonitor this (Some this);; calculateLimits fuel this) s = Diverge.
Proof.
  intros Hm Hi Ho.
  unfold setLeftMonitor. rewrite (bind_Done _ _ _ _ _ (assign_Done _ _ _ _ Hm)).
  fold (put this (set_leftMonitor (Some this) m) s).
  set (t := set_leftMonitor (Some this) m). set (s1 := put this t s).
  assert (Ht : monitors s1 !! this = Some t) by (eapply lookup_put_eq, Hm).
  unfold calculateLimits. rewrite (bind_Done _ _ _ _ _ (load_Done _ _ _ Ht)).
  change (leftMonitor t) with (Some this).
  pose proof (walk_self_x this s1 t info out Ht Hi Ho eq_refl fuel t eq_refl) as W.
  rewrite (put_same this t s1 Ht) in W.
  rewrite run_bind, W. reflexivity.
Qed.

Lemma calculateLimits_own_neighbour_witness :
  (setLeftMonitor 0 (Some 0%nat);; calculateLimits 1000 0) Examples.alone = Diverge.
Proof.
  apply (calculateLimits_own_neighbour 1000 0 Examples.alone
           (Examples.monitor 11 1 Examples.full_hd 510 290 true None None None None)
           Examples.full_hd (XRROutputInfo.mk 1 510 290)); reflexivity.
Defined.

(** ** Monitor: the origin of the anchor *)

Lemma walk_sum (size : XRRModeInfo.t -> N) (at_ : list Monitor -> addr -> N)
  (next : Monitor -> option addr) fuel s ptr ps acc :
  (forall p m info, monitors s !! p = Some m -> videoModeInfo m = Some info ->
     at_ (monitors s) p = size info) ->
  chain fuel next (monitors s) ptr = Some ps ->
  forallb (measurable (monitors s)) ps = true ->
  acc < 2 ^ 32 ->
  walk fuel next
    (fun ptr acc => info ← modeInfo ptr; mret (to_unsigned_int (acc + size info)))
    ptr acc s
  = Done (to_unsigned_int (acc + sum_over (at_ (monitors s)) ps)) s.
Proof.
  intros Hat Hc Hps Hacc.
  destruct (walk_chain
    (fun rest (l : N) σ =>
       σ = s /\ forallb (measurable (monitors s)) rest = true /\
       l < 2 ^ 32 /\
       to_unsigned_int (l + sum_over (at_ (monitors s)) rest)
       = to_unsigned_int (acc + sum_over (at_ (monitors s)) ps))
    next
    (fun ptr acc => info ← modeInfo ptr; mret (to_unsigned_int (acc + size info))))
    with (fuel := fuel) (ptr := ptr) (ps := ps) (l := acc) (s := s)
    as (l' & s' & Hrun & -> & _ & Hl' & E).
  - intros p rest l σ (-> & Hrest & Hl & E). cbn in Hrest.
    apply andb_true_iff in Hrest as [Hp Hrest].
    destruct (measurable_infos _ _ Hp) as (m & info & out & Hm & Hi & Ho).
    exists (to_unsigned_int (l + size info)), s. split.
    + rewrite (bind_Done _ _ _ _ _ (modeInfo_Done _ _ _ _ Hm Hi)). reflexivity.
    + split; [|reflexivity]. split; [reflexivity|]. split; [assumption|].
      split; [apply N.mod_lt; discriminate|].
      rewrite to_unsigned_int_add, <- E.
      change (sum_over (at_ (monitors s)) (p :: rest))
        with (at_ (monitors s) p + sum_over (at_ (monitors s)) rest).
      rewrite (Hat p m info Hm Hi). f_equal. lia.
  - exact Hc.
  - auto.
  - rewrite Hrun. cbn in E. rewrite N.add_0_r in E. rewrite <- E.
    rewrite to_unsigned_int_range by exact Hl'. reflexivity.
Qed.

(** X16: getPrimaryRelativePosition() on a monitor with controller info
    whose left and top chain end, with mode infos all along and sums within
    the range of int: it returns (sum of the left widths, sum of the top
    heights) and has written that as the position of the monitor itself; no
    other monitor has changed. *)
Theorem getPrimaryRelativePosition_origin fuel this s t c ls ts :
  monitors s !! this = Some t ->
  videoControllerInfo t = Some c ->
  chain fuel leftMonitor (monitors s) (leftMonitor t) = Some ls ->
  chain fuel topMonitor (monitors s) (topMonitor t) = Some ts ->
  forallb (measurable (monitors s)) (ls ++ ts) = true ->
  (Z.of_N (sum_over (width_at (monitors s)) ls) < 2 ^ 31)%Z ->
  (Z.of_N (sum_over (height_at (monitors s)) ts) < 2 ^ 31)%Z ->
  let root :=
    point.mk (Z.of_N (sum_over (width_at (monitors s)) ls))
      (Z.of_N (sum_over (height_at (monitors s)) ts)) in
  exists s',
    getPrimaryRelativePosition fuel this s = Done root s' /\
    getPosition this s' = Done root s' /\
    (forall q, q <> this -> monitors s' !! q = monitors s !! q).
Proof.
  intros Ht Hc Hl Htop Hall Hwidth Hheight root.
  apply forallb_app_true in Hall as [Hls Hts].
  pose proof (setPosition_Done this root s t c Ht Hc) as Hset.
  set (c' := XRRCrtcInfo.mk (point.x root) (point.y root) (XRRCrtcInfo.width c)
               (XRRCrtcInfo.height c) (XRRCrtcInfo.mode c)) in Hset.
  set (t' := set_videoControllerInfo (Some c') t) in Hset.
  exists (put this t' s). split; [|split].
  2: { rewrite (getPosition_Done this _ t' c' (lookup_put_eq _ _ _ _ Ht) eq_refl).
       reflexivity. }
  2: { intros q Hq. apply lookup_put_ne. congruence. }
  unfold getPrimaryRelativePosition.
  rewrite (bind_Done _ _ _ _ _ (load_Done _ _ _ Ht)).
  rewrite (bind_Done _ _ _ _ _
             (walk_sum XRRModeInfo.width width_at leftMonitor fuel s _ ls 0
                ltac:(intros p m info Hm Hi; unfold width_at; rewrite Hm; cbn;
                      rewrite Hi; reflexivity) Hl Hls eq_refl)).
  rewrite (bind_Done _ _ _ _ _ (load_Done _ _ _ Ht)).
  rewrite (bind_Done _ _ _ _ _
             (walk_sum XRRModeInfo.height height_at topMonitor fuel s _ ts 0
                ltac:(intros p m info Hm Hi; unfold height_at; rewrite Hm; cbn;
                      rewrite Hi; reflexivity) Htop Hts eq_refl)).
  cbv zeta. rewrite !N.add_0_l.
  rewrite (to_int_unsigned _ Hwidth), (to_int_unsigned _ Hheight). fold root.
  rewrite (bind_Done _ _ _ _ _ Hset). reflexivity.
Qed.

Lemma getPrimaryRelativePosition_origin_witness :
  exists s',
    getPrimaryRelativePosition 4 0 Examples.shared = Done (point.mk 1280 1024) s' /\
    getPosition 0 s' = Done (point.mk 1280 1024) s' /\
    (forall q, q <> 0%nat -> monitors s' !! q = monitors Examples.shared !! q).
Proof.
  apply (getPrimaryRelativePosition_origin 4 0 Examples.shared
           (Examples.monitor 11 1 Examples.full_hd 510 290 true (Some 1%nat)
              (Some 2%nat) (Some 1%nat) None)
           (XRRCrtcInfo.mk 0 0 1920 1080 101) [1%nat] [1%nat]); reflexivity.
Defined.

(** ** The modes an output advertises *)

Lemma scan_in_array mode modes : forall n i,
  (i + n <= length modes)%nat ->
  OutputModes.scan n i modes mode
  = Some (existsb (fun rrMode => rrMode =? mode) (firstn n (skipn i modes))).
Proof.
  induction n as [|n IH]; intros i Hlen; cbn; [reflexivity|].
  destruct (nth_error modes i) as [r|] eqn:E.
  - assert (Hs : skipn i modes = r :: skipn (S i) modes).
    { clear -E. revert modes E. induction i as [|i IH]; intros [|a l] E;
        cbn in *; try discriminate.
      - injection E as ->. reflexivity.
      - apply IH, E. }
    rewrite Hs. cbn. destruct (r =? mode); [reflexivity|].
    apply IH. lia.
  - apply nth_error_None in E. lia.
Qed.

Lemma isOutputModeSupported_existsb (info : OutputModes.t) mode :
  OutputModes.nmode info = Z.of_nat (length (OutputModes.modes info)) ->
  OutputModes.isOutputModeSupported info mode
  = Some (existsb (fun rrMode => rrMode =? mode) (OutputModes.modes info)).
Proof.
  intros Hn. unfold OutputModes.isOutputModeSupported.
  rewrite Hn, Nat2Z.id, scan_in_array by (cbn; lia).
  cbn [skipn]. rewrite firstn_all. reflexivity.
Qed.

(** X17: when nmode is the length of the array, isOutputModeSupported()
    reads inside the array only and answers true exactly for the ids in
    it. *)
Theorem isOutputModeSupported_iff (info : OutputModes.t) (mode : VideoOutputMode) :
  OutputModes.nmode info = Z.of_nat (length (OutputModes.modes info)) ->
  exists b,
    OutputModes.isOutputModeSupported info mode = Some b /\
    (b = true <-> In mode (OutputModes.modes info)).
Proof.
  intros Hn. rewrite (isOutputModeSupported_existsb info mode Hn).
  eexists. split; [reflexivity|].
  rewrite existsb_exists. split.
  - intros (r & Hin & Heq). apply N.eqb_eq in Heq. subst. exact Hin.
  - intros Hin. exists mode. split; [exact Hin|apply N.eqb_refl].
Qed.

Lemma isOutputModeSupported_iff_witness :
  exists b,
    OutputModes.isOutputModeSupported (OutputModes.mk 3 1 [101; 102; 104]) 104
    = Some b /\
    (b = true <-> In 104 [101; 102; 104]).
Proof.
  apply (isOutputModeSupported_iff (OutputModes.mk 3 1 [101; 102; 104]) 104).
  reflexivity.
Defined.

(** X18: getPreferredOutputMode() reads inside the array exactly when
    1 <= npreferred <= length of the array; with npreferred = 0, as for an
    output without modes, it reads the element before the array. *)
Theorem getPreferredOutputMode_in_array (info : OutputModes.t) :
  OutputModes.getPreferredOutputMode info <> None
  <-> (1 <= OutputModes.npreferred info
         <= Z.of_nat (length (OutputModes.modes info)))%Z.
Proof.
  unfold OutputModes.getPreferredOutputMode. cbv zeta.
  destruct (Z.ltb_spec (OutputModes.npreferred info - 1) 0) as [Hneg|Hpos].
  - split; [congruence|lia].
  - rewrite nth_error_Some. lia.
Qed.

(** X19: for 1 <= npreferred <= nmode = length of the array,
    getPreferredOutputMode() returns the last of the first npreferred ids,
    and isOutputModeSupported() accepts it. *)
Theorem getPreferredOutputMode_supported (info : OutputModes.t) :
  OutputModes.nmode info = Z.of_nat (length (OutputModes.modes info)) ->
  (1 <= OutputModes.npreferred info <= OutputModes.nmode info)%Z ->
  exists mode,
    OutputModes.getPreferredOutputMode info = Some mode /\
    last (firstn (Z.to_nat (OutputModes.npreferred info)) (OutputModes.modes info))
      None_ = mode /\
    OutputModes.isOutputModeSupported info mode = Some true.
Proof.
  intros Hn Hp.
  destruct (OutputModes.getPreferredOutputMode info) as [mode|] eqn:E.
  2: { exfalso. unfold OutputModes.getPreferredOutputMode in E. cbv zeta in E.
       destruct (Z.ltb_spec (OutputModes.npreferred info - 1) 0) as [?|_]; [lia|].
       apply nth_error_None in E. lia. }
  exists mode. split; [reflexivity|].
  unfold OutputModes.getPreferredOutputMode in E. cbv zeta in E.
  destruct (Z.ltb_spec (OutputModes.npreferred info - 1) 0) as [?|_]; [lia|].
  split.
  - replace (Z.to_nat (OutputModes.npreferred info))
      with (S (Z.to_nat (OutputModes.npreferred info - 1))) by lia.
    revert E. generalize (Z.to_nat (OutputModes.npreferred info - 1)).
    generalize (OutputModes.modes info). clear.
    induction l as [|a l IH]; intros [|n] E; cbn in *; try discriminate.
    + destruct l; cbn; congruence.
    + destruct l as [|b l]; [destruct n; discriminate|].
      specialize (IH n E). cbn in IH |- *. exact IH.
  - rewrite (isOutputModeSupported_existsb info mode Hn). f_equal.
    apply existsb_exists. exists mode.
    split; [eapply nth_error_In, E|apply N.eqb_refl].
Qed.

Lemma getPreferredOutputMode_supported_witness :
  exists mode,
    OutputModes.getPreferredOutputMode (OutputModes.mk 3 2 [101; 102; 104])
    = Some mode /\
    last (firstn 2 [101; 102; 104]) None_ = mode /\
    OutputModes.isOutputModeSupported (OutputModes.mk 3 2 [101; 102; 104]) mode
    = Some true.
Proof.
  apply (getPreferredOutputMode_supported (OutputModes.mk 3 2 [101; 102; 104]));
    [reflexivity|cbn; lia].
Defined.

(** ** Suspend *)

(** X20: requestSuspend() never answers true without having called
    suspend(), whatever the reason, the dock files and logind. *)
Theorem requestSuspend_true_called cfg fs bus reason :
  fst (PowerManager.requestSuspend cfg fs bus reason) = true ->
  In PowerManager.suspend_called
    (snd (PowerManager.requestSuspend cfg fs bus reason)).
Proof.
  assert (Hcalled : In PowerManager.suspend_called
                      (snd (PowerManager.suspend cfg bus))).
  { unfold PowerManager.suspend.
    destruct (SYSTEMD cfg), (PowerManager.bus_opens bus),
      (PowerManager.suspend_error bus); cbn; auto. }
  unfold PowerManager.requestSuspend. destruct reason.
  - destruct (Dock.probe cfg fs); cbn; [|discriminate].
    destruct (Dock.isDocked fs); cbn; [discriminate|]. intros _. exact Hcalled.
  - intros _. exact Hcalled.
  - cbn. discriminate.
Qed.

Lemma requestSuspend_true_called_witness :
  In PowerManager.suspend_called
    (snd (PowerManager.requestSuspend Examples.build Examples.undocked
            Examples.logind_up PowerManager.SUSPEND_REASON_LID)).
Proof.
  apply (requestSuspend_true_called Examples.build Examples.undocked
           Examples.logind_up PowerManager.SUSPEND_REASON_LID).
  reflexivity.
Defined.

(** X21: on a button event the answer is the one of suspend(): true exactly
    in a SYSTEMD build when the bus opens and logind accepts the call.  On a
    lid event with an undocked dock the answer of suspend() is dropped: the
    result is true also when suspend() failed. *)
Theorem requestSuspend_result cfg fs bus :
  (fst (PowerManager.requestSuspend cfg fs bus PowerManager.SUSPEND_REASON_BUTTON)
   = true
   <-> SYSTEMD cfg = true /\ PowerManager.bus_opens bus = true /\
       PowerManager.suspend_error bus = None) /\
  (Dock.probe cfg fs = true -> Dock.isDocked fs = false ->
   fst (PowerManager.requestSuspend cfg fs bus PowerManager.SUSPEND_REASON_LID)
   = true /\
   (fst (PowerManager.suspend cfg bus) = false ->
    fst (PowerManager.requestSuspend cfg fs bus PowerManager.SUSPEND_REASON_LID)
    <> fst (PowerManager.requestSuspend cfg fs bus
              PowerManager.SUSPEND_REASON_BUTTON))).
Proof.
  split.
  - unfold PowerManager.requestSuspend, PowerManager.suspend.
    destruct (SYSTEMD cfg), (PowerManager.bus_opens bus),
      (PowerManager.suspend_error bus); cbn; intuition congruence.
  - intros Hp Hd. unfold PowerManager.requestSuspend. rewrite Hp, Hd. cbn.
    split; [reflexivity|]. intros ->. discriminate.
Qed.

(** A build without SYSTEMD, the dock present and not docked: the lid event
    answers true, the button event false. *)
Lemma requestSuspend_result_witness :
  fst (PowerManager.requestSuspend MoreExamples.no_systemd Examples.undocked
         Examples.logind_up PowerManager.SUSPEND_REASON_LID) = true /\
  fst (PowerManager.requestSuspend MoreExamples.no_systemd Examples.undocked
         Examples.logind_up PowerManager.SUSPEND_REASON_LID)
  <> fst (PowerManager.requestSuspend MoreExamples.no_systemd Examples.undocked
            Examples.logind_up PowerManager.SUSPEND_REASON_BUTTON).
Proof.
  destruct (proj2 (requestSuspend_result MoreExamples.no_systemd Examples.undocked
                     Examples.logind_up) eq_refl eq_refl) as [H1 H2].
  split; [exact H1|exact (H2 eq_refl)].
Defined.

(** ** The dock *)

Lemma c_str_app (a b : string) :
  Dock.c_str a = a -> Dock.c_str (a ++ b) = (a ++ Dock.c_str b)%string.
Proof.
  induction a as [|c a IH]; cbn; [reflexivity|].
  destruct (Ascii.eqb c zero); [discriminate|].
  intros H. injection H as H. rewrite (IH H). reflexivity.
Qed.

Lemma eqb_app_self (a b : string) : String.eqb (a ++ b) a = String.eqb b "".
Proof.
  induction a as [|c a IH]; cbn.
  - destruct b; reflexivity.
  - rewrite Ascii.eqb_refl. exact IH.
Qed.

(** X22: probe() compares as strcmp does: when the modalias file starts
    with the dock id (an id without NUL byte), the answer is true exactly
    when the id is the whole file or is followed by a NUL byte; any other
    byte behind it, a newline as well, makes the answer false. *)
Theorem probe_prefix cfg fs (rest : string) :
  Dock.c_str (IBM_DOCK_ID cfg) = IBM_DOCK_ID cfg ->
  Dock.IBM_DOCK_MODALIAS fs = Dock.contents (IBM_DOCK_ID cfg ++ rest) ->
  Dock.probe cfg fs
  = match rest with
    | EmptyString => true
    | String c _ => Ascii.eqb c zero
    end.
Proof.
  intros Hid Hfile. unfold Dock.probe. rewrite Hfile, Hid.
  rewrite (c_str_app _ _ Hid), eqb_app_self.
  destruct rest as [|c rest]; cbn; [reflexivity|].
  destruct (Ascii.eqb c zero); reflexivity.
Qed.

Lemma probe_prefix_witness :
  Dock.probe Examples.build MoreExamples.modalias_newline = false.
Proof.
  apply (probe_prefix Examples.build MoreExamples.modalias_newline
           (String "010" EmptyString)); reflexivity.
Defined.

(** ** The default X server *)

(** X23: a failed connection is kept: when XOpenDisplay fails,
    getDefaultXServer() answers null after two lines on stderr, but it has
    stored the object; every later call answers that object, whose display
    is null, without a line and without calling XOpenDisplay again, also
    when the display could be opened by then. *)
Theorem getDefaultXServer_keeps_failure w :
  XServer.server w = None ->
  XServer.XOpenDisplay w = None ->
  let '(first, w1) := XServer.getDefaultXServer w in
  first = None /\
  XServer.written w1
  = XServer.written w ++ [stderr "Error opening X11 local connection";
                          stderr "Error connecting to default X Server!"] /\
  forall reachable,
    let w1' := XServer.mkWorld (XServer.server w1) reachable (XServer.written w1) in
    XServer.getDefaultXServer w1'
    = (Some (XServer.mk None None None), w1').
Proof.
  intros Hs Hx. unfold XServer.getDefaultXServer, XServer.connect.
  rewrite Hs, Hx. cbn. rewrite <- app_assoc. auto.
Qed.

Lemma getDefaultXServer_keeps_failure_witness :
  let '(first, w1) :=
    XServer.getDefaultXServer (XServer.mkWorld None None []) in
  first = None /\
  XServer.written w1
  = [] ++ [stderr "Error opening X11 local connection";
           stderr "Error connecting to default X Server!"] /\
  forall reachable,
    let w1' := XServer.mkWorld (XServer.server w1) reachable (XServer.written w1) in
    XServer.getDefaultXServer w1'
    = (Some (XServer.mk None None None), w1').
Proof.
  apply (getDefaultXServer_keeps_failure (XServer.mkWorld None None []));
    reflexivity.
Defined.

(** ** Discovery *)

Lemma current_mode_keeps {A : Type} (f : Monitor -> A) mode infos :
  (forall v m, f (set_videoModeInfo v m) = f m) ->
  forall m, f (Discovery.current_mode mode infos m) = f m.
Proof.
  intros Hf. unfold Discovery.current_mode.
  induction infos as [|info infos IH]; intros m; cbn; [reflexivity|].
  rewrite IH. destruct (XRRModeInfo.id info =? mode); [apply Hf|reflexivity].
Qed.

Lemma find_append {A : Type} (p : A -> bool) (l1 l2 : list A) :
  find p (l1 ++ l2)
  = match find p l1 with
    | Some a => Some a
    | None => find p l2
    end.
Proof.
  induction l1 as [|a l1 IH]; cbn; [reflexivity|].
  destruct (p a); [reflexivity|exact IH].
Qed.

(** The loop of the constructor leaves the last catalog entry with the id
    of the current mode, where setOutputMode takes the first. *)
Lemma current_mode_last mode infos m :
  videoModeInfo (Discovery.current_mode mode infos m)
  = match find (fun info => XRRModeInfo.id info =? mode) (rev infos) with
    | Some info => Some info
    | None => videoModeInfo m
    end.
Proof.
  unfold Discovery.current_mode. revert m.
  induction infos as [|info infos IH]; intros m; cbn; [reflexivity|].
  rewrite IH, find_append.
  destruct (find _ (rev infos)); [reflexivity|]. cbn.
  destruct (XRRModeInfo.id info =? mode); reflexivity.
Qed.

Lemma Monitor_new_Done x blank output s :
  exists m s',
    Discovery.Monitor_new x blank output s = Done m s' /\
    monitors s' = monitors s /\
    videoOutputModes s' = videoOutputModes s /\
    requests s' = requests s /\
    availableControllers s'
    = fold_left (fun pool c => Pool.markControllerAsBusy c pool)
        (Discovery.driving x [output]) (availableControllers s) /\
    videoOutput m = output /\
    videoOutputInfo m = XRRGetOutputInfo x output /\
    videoController m
    = hd (videoController blank) (Discovery.driving x [output]).
Proof.
  unfold Discovery.Monitor_new, Discovery.driving. cbv zeta.
  cbn [videoOutputInfo set_videoOutputInfo flat_map].
  destruct (XRRGetOutputInfo x output) as [info|].
  2: { eexists _, _. split; [reflexivity|]. cbn. auto 10. }
  destruct (XRROutputInfo.crtc info =? None_).
  { eexists _, _. split; [reflexivity|]. cbn. auto 10. }
  rewrite (bind_Done _ _ _ _ _ (writes_Done _ s)).
  cbn [videoControllerInfo videoController set_videoControllerInfo
         set_videoController].
  destruct (XRRGetCrtcInfo x (XRROutputInfo.crtc info)) as [c|].
  2: { eexists _, _. split; [reflexivity|]. cbn. auto 10. }
  destruct (XRRCrtcInfo.mode c =? None_).
  { eexists _, _. split; [reflexivity|]. cbn. auto 10. }
  rewrite (bind_Done _ _ _ _ _ (reads_Done _ _)).
  set (m := Discovery.current_mode _ _ _).
  assert (E1 : videoOutput m = output)
    by (unfold m; rewrite current_mode_keeps by reflexivity; reflexivity).
  assert (E2 : videoOutputInfo m = Some info)
    by (unfold m; rewrite current_mode_keeps by reflexivity; reflexivity).
  assert (E3 : videoController m = XRROutputInfo.crtc info)
    by (unfold m; rewrite current_mode_keeps by reflexivity; reflexivity).
  destruct (present (videoModeInfo m));
    eexists _, _; (split; [reflexivity|]); cbn; auto 10.
Qed.

Lemma driving_cons x output outputs :
  Discovery.driving x (output :: outputs)
  = Discovery.driving x [output] ++ Discovery.driving x outputs.
Proof. unfold Discovery.driving. cbn. rewrite app_nil_r. reflexivity. Qed.

Lemma driving_one x output :
  Discovery.driving x [output] = []
  \/ exists c, Discovery.driving x [output] = [c] /\ c <> None_.
Proof.
  unfold Discovery.driving. cbn. destruct (XRRGetOutputInfo x output) as [info|];
    [|auto].
  destruct (N.eqb_spec (XRROutputInfo.crtc info) None_); [auto|]. right. eauto.
Qed.

(** The loop of getMonitors: it returns; one monitor is appended per
    output, in output order, with the info of its output and, when the
    output is driven, its controller; the controllers that drive an output
    are marked busy one after the other. *)
Lemma make_monitors_Done x blank outputs : forall s,
  exists s',
    Discovery.make_monitors x blank outputs s = Done tt s' /\
    requests s' = requests s /\
    videoOutputModes s' = videoOutputModes s /\
    availableControllers s'
    = fold_left (fun pool c => Pool.markControllerAsBusy c pool)
        (Discovery.driving x outputs) (availableControllers s) /\
    exists new,
      monitors s' = monitors s ++ new /\
      videoOutput <$> new = outputs /\
      videoOutputInfo <$> new = XRRGetOutputInfo x <$> outputs /\
      Forall
        (fun m => videoController m = videoController blank \/
                  In (videoController m) (Discovery.driving x outputs)) new.
Proof.
  induction outputs as [|output outputs IH]; intros s.
  - exists s. cbn. repeat split. exists []. rewrite app_nil_r. auto.
  - destruct (Monitor_new_Done x blank output s)
      as (m & s1 & Hnew & Hm1 & Hc1 & Hr1 & Hp1 & Ho & Hi & Hc).
    set (s2 := set_monitors (monitors s1 ++ [m]) s1).
    destruct (IH s2) as (s' & Hrun & Hr & Hcat & Hp & new & Hmon & Hos & His & Hcs).
    exists s'. split; [|split; [|split; [|split]]].
    + cbn [Discovery.make_monitors]. rewrite (bind_Done _ _ _ _ _ Hnew).
      rewrite (bind_Done _ _ _ _ _ (writes_Done _ s1)). exact Hrun.
    + rewrite Hr. exact Hr1.
    + rewrite Hcat. exact Hc1.
    + rewrite Hp. cbn [availableControllers s2 set_monitors]. rewrite Hp1.
      rewrite (driving_cons x output outputs), fold_left_app. reflexivity.
    + exists (m :: new). split; [|split; [|split]].
      * rewrite Hmon. cbn [monitors s2 set_monitors]. rewrite Hm1, <- app_assoc.
        reflexivity.
      * cbn. rewrite Ho. f_equal. exact Hos.
      * cbn. rewrite Hi. f_equal. exact His.
      * rewrite (driving_cons x output outputs). constructor.
        -- rewrite Hc. destruct (driving_one x output) as [->|(c & -> & _)];
             cbn; auto.
        -- eapply Forall_impl; [|exact Hcs]. cbn. intros a [H|H]; [auto|].
           right. apply in_or_app. auto.
Qed.

(** getMonitors() on a resource object without monitors runs the loop over
    the outputs and returns the whole vector. *)
Lemma getMonitors_fresh x blank videoOutputs s s' :
  monitors s = [] ->
  Discovery.make_monitors x blank videoOutputs s = Done tt s' ->
  Discovery.getMonitors x blank videoOutputs s
  = Done (seq 0 (length (monitors s'))) s'.
Proof.
  intros Hempty Hrun. unfold Discovery.getMonitors.
  rewrite (bind_Done _ _ _ _ _ (reads_Done _ s)). rewrite Hempty.
  cbn [length Nat.eqb negb].
  rewrite (bind_Done _ _ _ _ _ Hrun), (bind_Done _ _ _ _ _ (reads_Done _ s')).
  reflexivity.
Qed.

(** X24: on a resource object without monitors getMonitors() makes one
    monitor per output, in the order of the outputs, each with what
    XRRGetOutputInfo answers for its output, and returns them all. *)
Theorem getMonitors_one_per_output x blank videoOutputs s :
  monitors s = [] ->
  exists s',
    Discovery.getMonitors x blank videoOutputs s
    = Done (seq 0 (length videoOutputs)) s' /\
    videoOutput <$> monitors s' = videoOutputs /\
    videoOutputInfo <$> monitors s' = XRRGetOutputInfo x <$> videoOutputs.
Proof.
  intros Hempty.
  destruct (make_monitors_Done x blank videoOutputs s)
    as (s' & Hrun & _ & _ & _ & new & Hmon & Hos & His & _).
  rewrite Hempty in Hmon. cbn in Hmon.
  exists s'. split; [|rewrite Hmon; auto].
  rewrite (getMonitors_fresh x blank videoOutputs s s' Hempty Hrun).
  rewrite Hmon. rewrite <- Hos, length_fmap. reflexivity.
Qed.

Lemma getMonitors_one_per_output_witness :
  exists s',
    Discovery.getMonitors MoreExamples.xlib MoreExamples.blank [11; 12]
      MoreExamples.found
    = Done (seq 0 2) s' /\
    videoOutput <$> monitors s' = [11; 12] /\
    videoOutputInfo <$> monitors s'
    = XRRGetOutputInfo MoreExamples.xlib <$> [11; 12].
Proof.
  apply (getMonitors_one_per_output MoreExamples.xlib MoreExamples.blank [11; 12]
           MoreExamples.found).
  reflexivity.
Defined.

Lemma markControllerAsBusy_filter c pool :
  List.NoDup pool ->
  Pool.markControllerAsBusy c pool = List.filter (fun d => negb (d =? c)) pool.
Proof.
  induction 1 as [|a pool Ha Hnd IH]; cbn; [reflexivity|].
  destruct (N.eqb_spec a c) as [->|Hne]; cbn.
  - rewrite <- IH. symmetry. apply markControllerAsBusy_absent, Ha.
  - rewrite IH. reflexivity.
Qed.

Lemma mark_all_filter used : forall pool,
  List.NoDup pool ->
  fold_left (fun pool c => Pool.markControllerAsBusy c pool) used pool
  = List.filter (fun d => negb (existsb (N.eqb d) used)) pool.
Proof.
  induction used as [|c used IH]; intros pool Hnd; cbn.
  - induction pool as [|a pool IHp]; cbn; [reflexivity|].
    rewrite <- IHp at 1; [reflexivity|]. inversion Hnd; assumption.
  - rewrite IH by (apply markControllerAsBusy_distinct, Hnd).
    rewrite (markControllerAsBusy_filter c pool Hnd).
    clear. induction pool as [|a pool IHp]; cbn; [reflexivity|].
    destruct (a =? c); cbn; [exact IHp|].
    destruct (existsb (N.eqb a) used); cbn; [exact IHp|]. rewrite IHp. reflexivity.
Qed.

(** X25: after getMonitors() on a resource object without monitors and
    with a pool without duplicates, no monitor holds an available
    controller: the pool is what it was without the controllers that drive
    an output, and these are the controllers of the monitors (a monitor made
    for an undriven output has the controller of the default
    initialiser, None). *)
Theorem getMonitors_held_not_available x blank videoOutputs s :
  monitors s = [] ->
  List.NoDup (availableControllers s) ->
  videoController blank = None_ ->
  exists l s',
    Discovery.getMonitors x blank videoOutputs s = Done l s' /\
    availableControllers s'
    = List.filter
        (fun c => negb (existsb (N.eqb c) (Discovery.driving x videoOutputs)))
        (availableControllers s) /\
    forall m, In m (monitors s') -> videoController m <> None_ ->
      In (videoController m) (Discovery.driving x videoOutputs) /\
      ~ In (videoController m) (availableControllers s').
Proof.
  intros Hempty Hnd Hblank.
  destruct (make_monitors_Done x blank videoOutputs s)
    as (s' & Hrun & _ & _ & Hp & new & Hmon & _ & _ & Hcs).
  pose proof (getMonitors_fresh x blank videoOutputs s s' Hempty Hrun) as Hget.
  rewrite Hempty in Hmon. cbn in Hmon.
  rewrite (mark_all_filter _ _ Hnd) in Hp.
  eexists _, s'. split; [exact Hget|]. split; [exact Hp|].
  intros m Hin Hc. rewrite Hmon in Hin.
  rewrite Forall_forall in Hcs.
  destruct (Hcs m Hin) as [E|Hdr]; [congruence|].
  split; [exact Hdr|]. rewrite Hp, filter_In. intros [_ Hf].
  apply negb_true_iff in Hf.
  assert (Ht : existsb (N.eqb (videoController m)) (Discovery.driving x videoOutputs)
               = true).
  { apply existsb_exists. exists (videoController m).
    split; [exact Hdr|apply N.eqb_refl]. }
  congruence.
Qed.

(** Controller 1 drives output 11, output 12 is not driven: controller 2
    stays available. *)
Lemma getMonitors_held_not_available_witness :
  exists l s',
    Discovery.getMonitors MoreExamples.xlib MoreExamples.blank [11; 12]
      MoreExamples.found = Done l s' /\
    availableControllers s' = [2] /\
    forall m, In m (monitors s') -> videoController m <> None_ ->
      In (videoController m) [1] /\
      ~ In (videoController m) (availableControllers s').
Proof.
  apply (getMonitors_held_not_available MoreExamples.xlib MoreExamples.blank
           [11; 12] MoreExamples.found); [reflexivity| |reflexivity].
  repeat constructor; cbn; intros H; repeat destruct H as [H|H]; try discriminate;
    exact H.
Defined.

(** X26: getMonitors() builds the monitors once: after a call that made
    monitors, every later call returns the same monitors and changes
    nothing, whatever the X library answers by then. *)
Theorem getMonitors_once x blank videoOutputs s :
  monitors s = [] ->
  videoOutputs <> [] ->
  exists l s',
    Discovery.getMonitors x blank videoOutputs s = Done l s' /\
    forall x' blank' videoOutputs',
      Discovery.getMonitors x' blank' videoOutputs' s' = Done l s'.
Proof.
  intros Hempty Hne.
  destruct (make_monitors_Done x blank videoOutputs s)
    as (s' & Hrun & _ & _ & _ & new & Hmon & Hos & _).
  pose proof (getMonitors_fresh x blank videoOutputs s s' Hempty Hrun) as Hget.
  rewrite Hempty in Hmon. cbn in Hmon.
  eexists _, s'. split; [exact Hget|].
  intros x' blank' outs'. unfold Discovery.getMonitors.
  rewrite (bind_Done _ _ _ _ _ (reads_Done _ s')).
  assert (Hlen : length (monitors s') = length videoOutputs)
    by (rewrite Hmon, <- Hos, length_fmap; reflexivity).
  rewrite Hlen. destruct videoOutputs; [congruence|]. reflexivity.
Qed.

Lemma getMonitors_once_witness :
  exists l s',
    Discovery.getMonitors MoreExamples.xlib MoreExamples.blank [11; 12]
      MoreExamples.found = Done l s' /\
    forall x' blank' videoOutputs',
      Discovery.getMonitors x' blank' videoOutputs' s' = Done l s'.
Proof.
  apply (getMonitors_once MoreExamples.xlib MoreExamples.blank [11; 12]
           MoreExamples.found); [reflexivity|discriminate].
Defined.

(** X27: the constructor of Monitor, for an output that a controller
    drives in some mode: it returns a monitor with that controller and its
    controller info, the first occurrence of the controller has left the
    pool, and the mode info is the last catalog entry with the id of the
    mode; when the catalog has no such entry a line is written and the mode
    info stays null.  No monitor of the arena changes. *)
Theorem Monitor_new_driven x blank output s info c :
  XRRGetOutputInfo x output = Some info ->
  XRROutputInfo.crtc info <> None_ ->
  XRRGetCrtcInfo x (XRROutputInfo.crtc info) = Some c ->
  XRRCrtcInfo.mode c <> None_ ->
  videoModeInfo blank = None ->
  exists m s',
    Discovery.Monitor_new x blank output s = Done m s' /\
    availableControllers s'
    = Pool.markControllerAsBusy (XRROutputInfo.crtc info) (availableControllers s) /\
    videoController m = XRROutputInfo.crtc info /\
    videoControllerInfo m = Some c /\
    videoModeInfo m
    = find (fun entry => XRRModeInfo.id entry =? XRRCrtcInfo.mode c)
        (rev (videoOutputModes s)) /\
    printed s'
    = printed s ++ (if present (videoModeInfo m) then []
                    else [stderr "error fetching info about current mode\n"]) /\
    monitors s' = monitors s.
Proof.
  intros Hinfo Hcrtc Hc Hmode Hblank.
  apply N.eqb_neq in Hcrtc. apply N.eqb_neq in Hmode.
  unfold Discovery.Monitor_new. cbv zeta.
  cbn [videoOutputInfo set_videoOutputInfo]. rewrite Hinfo, Hcrtc.
  rewrite (bind_Done _ _ _ _ _ (writes_Done _ s)).
  cbn [videoControllerInfo videoController set_videoControllerInfo
         set_videoController].
  rewrite Hc, Hmode.
  rewrite (bind_Done _ _ _ _ _ (reads_Done _ _)).
  cbn [videoOutputModes set_availableControllers].
  set (m := Discovery.current_mode _ _ _).
  assert (Em : videoModeInfo m
               = find (fun entry => XRRModeInfo.id entry =? XRRCrtcInfo.mode c)
                   (rev (videoOutputModes s))).
  { unfold m. rewrite current_mode_last. cbn. rewrite Hblank.
    destruct (find _ _); reflexivity. }
  assert (E3 : videoController m = XRROutputInfo.crtc info)
    by (unfold m; rewrite current_mode_keeps by reflexivity; reflexivity).
  assert (E4 : videoControllerInfo m = Some c)
    by (unfold m; rewrite current_mode_keeps by reflexivity; reflexivity).
  destruct (present (videoModeInfo m)) eqn:Hp;
    eexists m, _; (split; [cbn; rewrite ?Hp; reflexivity|]); cbn; rewrite ?Hp;
    rewrite ?app_nil_r; auto 10.
Qed.

Lemma Monitor_new_driven_witness :
  exists m s',
    Discovery.Monitor_new MoreExamples.xlib MoreExamples.blank 11 MoreExamples.found
    = Done m s' /\
    availableControllers s' = [2] /\
    videoController m = 1 /\
    videoControllerInfo m = Some (XRRCrtcInfo.mk 0 0 1920 1080 101) /\
    videoModeInfo m = Some Examples.full_hd /\
    printed s'
    = [] ++ (if present (videoModeInfo m) then []
             else [stderr "error fetching info about current mode\n"]) /\
    monitors s' = [].
Proof.
  apply (Monitor_new_driven MoreExamples.xlib MoreExamples.blank 11 MoreExamples.found
           (XRROutputInfo.mk 1 510 290) (XRRCrtcInfo.mk 0 0 1920 1080 101));
    [reflexivity|discriminate|reflexivity|discriminate|reflexivity].
Defined.

(** X28: when XRRGetScreenResourcesCurrent fails the constructor of
    ScreenResources writes a line and leaves every vector empty:
    getMonitors() then makes no monitor and requestController() answers
    None. *)
Theorem ScreenResources_new_failure x blank w :
  XRRGetScreenResourcesCurrent x = None ->
  let '((controllers, videoOutputs), s) := Discovery.ScreenResources_new x w in
  controllers = [] /\
  printed s = printed w ++ [stderr "Error getting screen resources!"] /\
  Discovery.getMonitors x blank videoOutputs s = Done [] s /\
  ScreenResources.requestController (availableControllers s) = (None_, []).
Proof.
  intros Hnone. unfold Discovery.ScreenResources_new. rewrite Hnone.
  repeat split.
Qed.

Lemma ScreenResources_new_failure_witness :
  let '((controllers, videoOutputs), s) :=
    Discovery.ScreenResources_new MoreExamples.xlib_down (Examples.state []) in
  controllers = [] /\
  printed s = printed (Examples.state []) ++ [stderr "Error getting screen resources!"] /\
  Discovery.getMonitors MoreExamples.xlib_down MoreExamples.blank videoOutputs s
  = Done [] s /\
  ScreenResources.requestController (availableControllers s) = (None_, []).
Proof.
  apply (ScreenResources_new_failure MoreExamples.xlib_down MoreExamples.blank
           (Examples.state [])).
  reflexivity.
Defined.

(** ** calculateRelativePositions, position by position *)

Lemma unplaced_moved position m : unplaced (moved position m) = unplaced m.
Proof.
  unfold moved. destruct m as [? ? ? ? [c|]]; reflexivity.
Qed.

Lemma place_unplaced p position s :
  unplaced <$> monitors (place p position s) = unplaced <$> monitors s.
Proof.
  unfold place. destruct (monitors s !! p) as [m|] eqn:Hm; [|reflexivity].
  apply (fmap_put unplaced p m); [exact Hm|apply unplaced_moved].
Qed.

Lemma place_all_unplaced ws : forall s,
  unplaced <$> monitors (place_all ws s) = unplaced <$> monitors s.
Proof.
  induction ws as [|w ws IH]; intros s; cbn; [reflexivity|].
  unfold place_all in IH. rewrite IH. apply place_unplaced.
Qed.

Lemma place_requests p position s : requests (place p position s) = requests s.
Proof. unfold place. destruct (monitors s !! p); reflexivity. Qed.

Lemma setPosition_place p position s :
  ready (monitors s) p = true ->
  setPosition p position s = Done tt (place p position s).
Proof.
  intros H. destruct (ready_infos _ _ H) as (m & info & out & c & Hm & _ & _ & Hc).
  unfold setPosition, place. rewrite (bind_Done _ _ _ _ _ (load_Done _ _ _ Hm)).
  rewrite Hm, Hc. rewrite (store_Done _ m) by assumption.
  unfold moved. rewrite Hc. reflexivity.
Qed.

Lemma info_at_unplaced (h h' : list Monitor) p :
  unplaced <$> h' = unplaced <$> h -> info_at h' p = info_at h p.
Proof.
  intros E. unfold info_at.
  assert (Ep : unplaced <$> (h' !! p) = unplaced <$> (h !! p)).
  { rewrite <- !list_lookup_fmap, E. reflexivity. }
  destruct (h' !! p) as [m'|], (h !! p) as [m|]; try discriminate; [|reflexivity].
  apply (inj Some) in Ep. cbn.
  rewrite (unplaced_proj videoModeInfo m' m ltac:(intros []; reflexivity) Ep).
  reflexivity.
Qed.

Lemma modeInfo_info_at p s :
  ready (monitors s) p = true -> modeInfo p s = Done (info_at (monitors s) p) s.
Proof.
  intros H. destruct (ready_infos _ _ H) as (m & info & out & c & Hm & Hi & _).
  unfold info_at. rewrite Hm. cbn. rewrite Hi. eapply modeInfo_Done; eauto.
Qed.

(** The two shapes of the loops: the position is computed and written
    (left and top wing), or written and then advanced (right and bottom
    wing). *)
Lemma round_computed (f : point.t -> XRRModeInfo.t -> point.t) h0 p l s :
  unplaced <$> monitors s = unplaced <$> h0 ->
  ready h0 p = true ->
  (info ← modeInfo p; let position := f l info in
   setPosition p position;; mret position) s
  = Done (f l (info_at h0 p)) (place p (f l (info_at h0 p)) s).
Proof.
  intros E Hr. rewrite <- (ready_unplaced _ _ p E) in Hr.
  rewrite (bind_Done _ _ _ _ _ (modeInfo_info_at p s Hr)). cbv zeta.
  rewrite (info_at_unplaced _ _ p E).
  rewrite (bind_Done _ _ _ _ _ (setPosition_place p _ s Hr)). reflexivity.
Qed.

Lemma round_advanced (f : point.t -> XRRModeInfo.t -> point.t) h0 p l s :
  unplaced <$> monitors s = unplaced <$> h0 ->
  ready h0 p = true ->
  (setPosition p l;; info ← modeInfo p; mret (f l info)) s
  = Done (f l (info_at h0 p)) (place p l s).
Proof.
  intros E Hr. pose proof Hr as Hr0. rewrite <- (ready_unplaced _ _ p E) in Hr.
  rewrite (bind_Done _ _ _ _ _ (setPosition_place p _ s Hr)).
  assert (E' : unplaced <$> monitors (place p l s) = unplaced <$> h0)
    by (rewrite place_unplaced; exact E).
  rewrite <- (ready_unplaced _ _ p E') in Hr0.
  rewrite (bind_Done _ _ _ _ _ (modeInfo_info_at p _ Hr0)).
  rewrite (info_at_unplaced _ _ p E'). reflexivity.
Qed.

(** A loop that writes one position per round, run to its end. *)
Lemma walk_placing (wr nx : addr -> point.t -> point.t)
  (next : Monitor -> option addr) (body : addr -> point.t -> M point.t) h0 :
  (forall m, next (unplaced m) = next m) ->
  (forall p l s, unplaced <$> monitors s = unplaced <$> h0 -> ready h0 p = true ->
     body p l s = Done (nx p l) (place p (wr p l) s)) ->
  forall fuel ptr ps l s,
    unplaced <$> monitors s = unplaced <$> h0 ->
    chain fuel next h0 ptr = Some ps ->
    forallb (ready h0) ps = true ->
    walk fuel next body ptr l s
    = Done (local_after nx ps l) (place_all (placements wr nx ps l) s).
Proof.
  intros Hnext Hbody.
  induction fuel as [|fuel IH]; intros [p|] ps l s E Hc Hps; cbn in Hc;
    try discriminate.
  - injection Hc as <-. reflexivity.
  - destruct (h0 !! p) as [m0|] eqn:Hp; [|discriminate].
    destruct (chain fuel next h0 (next m0)) as [rest|] eqn:Hrest; [|discriminate].
    injection Hc as <-. cbn in Hps. apply andb_true_iff in Hps as [Hrp Hps].
    cbn [walk]. rewrite (bind_Done _ _ _ _ _ (Hbody p l s E Hrp)).
    assert (E' : unplaced <$> monitors (place p (wr p l) s) = unplaced <$> h0)
      by (rewrite place_unplaced; exact E).
    destruct (lookup_unplaced _ _ _ _ E' Hp) as (m1 & Hm1 & Eu).
    rewrite (bind_Done _ _ _ _ _ (load_Done _ _ _ Hm1)).
    rewrite (unplaced_proj next m1 m0 Hnext Eu).
    rewrite (IH (next m0) rest (nx p l) _ E' Hrest Hps). reflexivity.
  - injection Hc as <-. reflexivity.
Qed.

Section Positions.

Variables (fuel : nat) (this : addr) (s : State) (t : Monitor).
Variables ls rs ts bs : list addr.
Hypothesis Ht : monitors s !! this = Some t.
Hypothesis Hl : chain fuel leftMonitor (monitors s) (leftMonitor t) = Some ls.
Hypothesis Hr : chain fuel rightMonitor (monitors s) (rightMonitor t) = Some rs.
Hypothesis Htop : chain fuel topMonitor (monitors s) (topMonitor t) = Some ts.
Hypothesis Hb : chain fuel bottomMonitor (monitors s) (bottomMonitor t) = Some bs.
Hypothesis Hthis : ready (monitors s) this = true.
Hypothesis Hls : forallb (ready (monitors s)) ls = true.
Hypothesis Hrs : forallb (ready (monitors s)) rs = true.
Hypothesis Hts : forallb (ready (monitors s)) ts = true.
Hypothesis Hbs : forallb (ready (monitors s)) bs = true.

Local Abbreviation h0 := (monitors s).
Local Abbreviation root := (origin_int (monitors s) ls ts).

Lemma forallb_ready_measurable ps :
  forallb (ready h0) ps = true -> forallb (measurable h0) ps = true.
Proof.
  intros H. apply forallb_forall. intros p Hp. apply ready_measurable.
  exact (proj1 (forallb_forall _ _) H p Hp).
Qed.

Lemma getPrimaryRelativePosition_place :
  getPrimaryRelativePosition fuel this s = Done root (place this root s).
Proof.
  unfold getPrimaryRelativePosition.
  rewrite (bind_Done _ _ _ _ _ (load_Done _ _ _ Ht)).
  rewrite (bind_Done _ _ _ _ _
             (walk_sum XRRModeInfo.width width_at leftMonitor fuel s _ ls 0
                ltac:(intros p m info Hm Hi; unfold width_at; rewrite Hm; cbn;
                      rewrite Hi; reflexivity) Hl (forallb_ready_measurable _ Hls)
                eq_refl)).
  rewrite (bind_Done _ _ _ _ _ (load_Done _ _ _ Ht)).
  rewrite (bind_Done _ _ _ _ _
             (walk_sum XRRModeInfo.height height_at topMonitor fuel s _ ts 0
                ltac:(intros p m info Hm Hi; unfold height_at; rewrite Hm; cbn;
                      rewrite Hi; reflexivity) Htop (forallb_ready_measurable _ Hts)
                eq_refl)).
  cbv zeta. rewrite !N.add_0_l. fold (origin_int h0 ls ts).
  rewrite (bind_Done _ _ _ _ _ (setPosition_place this root s Hthis)). reflexivity.
Qed.

(** Runs the loop at the head of the goal with [walk_placing]. *)
Ltac run_placing f wr nx Hc Hps E :=
  match goal with
  | |- context [mbind _ (walk fuel ?next ?body ?ptr ?loc) ?σ] =>
      let Hbody := fresh "Hbody" in
      assert (Hbody : forall pp ll ss, unplaced <$> monitors ss = unplaced <$> h0 ->
                ready h0 pp = true ->
                body pp ll ss = Done (nx pp ll) (place pp (wr pp ll) ss));
      [ intros pp ll ss EE RR;
        first [ exact (round_computed f h0 pp ll ss EE RR)
              | exact (round_advanced f h0 pp ll ss EE RR) ]
      | rewrite (bind_Done _ _ _ _ _
                   (walk_placing wr nx next body h0 ltac:(intros []; reflexivity)
                      Hbody fuel ptr _ loc σ E Hc Hps));
        clear Hbody ]
  end.

(** Reads [this] at the head of the goal in a state that differs from [s]
    by positions only. *)
Ltac run_this E :=
  match goal with
  | |- context [mbind _ (load this) ?σ] =>
      let t' := fresh "t" in
      let Hl' := fresh "Hload" in
      let Eu := fresh "Eu" in
      destruct (lookup_unplaced _ _ _ _ E Ht) as (t' & Hl' & Eu);
      rewrite (bind_Done _ _ _ _ _ (load_Done this t' σ Hl'));
      try rewrite (unplaced_proj leftMonitor t' t ltac:(intros []; reflexivity) Eu);
      try rewrite (unplaced_proj rightMonitor t' t ltac:(intros []; reflexivity) Eu);
      try rewrite (unplaced_proj topMonitor t' t ltac:(intros []; reflexivity) Eu);
      try rewrite (unplaced_proj bottomMonitor t' t ltac:(intros []; reflexivity) Eu);
      clear t' Hl' Eu
  end.

Lemma modeInfo_this σ :
  unplaced <$> monitors σ = unplaced <$> h0 ->
  modeInfo this σ = Done (info_at h0 this) σ.
Proof.
  intros E. rewrite <- (info_at_unplaced _ _ this E). apply modeInfo_info_at.
  rewrite (ready_unplaced _ _ this E). exact Hthis.
Qed.

(** [Monitor::calculateRelativePositions]: the state it leaves is [s] with
    the position of the anchor and then the positions of the four loops
    written one after the other. *)
Lemma calculateRelativePositions_places :
  calculateRelativePositions fuel this s
  = Done tt
      (place_all (written_bottom h0 root this bs)
         (place_all (written_top h0 root ts)
            (place_all (written_right h0 root this rs)
               (place_all (written_left h0 root ls) (place this root s))))).
Proof.
  unfold calculateRelativePositions.
  rewrite (bind_Done _ _ _ _ _ getPrimaryRelativePosition_place).
  assert (E0 : unplaced <$> monitors (place this root s) = unplaced <$> h0)
    by apply place_unplaced.
  (* the left wing *)
  run_this E0.
  run_placing
    (fun (l : point.t) info =>
       point.mk (point.x root - Z.of_N (XRRModeInfo.width info)) (point.y l))
    (fun p l => point.mk (point.x root - wz h0 p) (point.y l))
    (fun p l => point.mk (point.x root - wz h0 p) (point.y l)) Hl Hls E0.
  fold (written_left h0 root ls).
  set (s1 := place_all (written_left h0 root ls) _) in *.
  assert (E1 : unplaced <$> monitors s1 = unplaced <$> h0)
    by (unfold s1; rewrite place_all_unplaced; exact E0).
  (* the right wing *)
  rewrite (bind_Done _ _ _ _ _ (modeInfo_this _ E1)). cbv zeta.
  run_this E1.
  run_placing
    (fun (l : point.t) info =>
       point.mk (point.x l + Z.of_N (XRRModeInfo.width info)) (point.y l))
    (fun (p : addr) (l : point.t) => l)
    (fun p l => point.mk (point.x l + wz h0 p) (point.y l)) Hr Hrs E1.
  fold (wz h0 this). fold (written_right h0 root this rs).
  set (s2 := place_all (written_right h0 root this rs) _) in *.
  assert (E2 : unplaced <$> monitors s2 = unplaced <$> h0)
    by (unfold s2; rewrite place_all_unplaced; exact E1).
  (* the top wing *)
  run_this E2.
  run_placing
    (fun (l : point.t) info =>
       point.mk (point.x l) (point.y l - Z.of_N (XRRModeInfo.height info)))
    (fun p l => point.mk (point.x l) (point.y l - hz h0 p))
    (fun p l => point.mk (point.x l) (point.y l - hz h0 p)) Htop Hts E2.
  fold (written_top h0 root ts).
  set (s3 := place_all (written_top h0 root ts) _) in *.
  assert (E3 : unplaced <$> monitors s3 = unplaced <$> h0)
    by (unfold s3; rewrite place_all_unplaced; exact E2).
  (* the bottom wing *)
  rewrite (bind_Done _ _ _ _ _ (modeInfo_this _ E3)). cbv zeta.
  run_this E3.
  run_placing
    (fun (l : point.t) info =>
       point.mk (point.x l) (point.y l + Z.of_N (XRRModeInfo.height info)))
    (fun (p : addr) (l : point.t) => l)
    (fun p l => point.mk (point.x l) (point.y l + hz h0 p)) Hb Hbs E3.
  reflexivity.
Qed.

End Positions.

Lemma getPosition_placed p position s :
  placed (monitors s) p position -> getPosition p s = Done position s.
Proof.
  intros (m & c & Hm & Hc & <-). unfold getPosition.
  rewrite (bind_Done _ _ _ _ _ (load_Done _ _ _ Hm)), Hc. reflexivity.
Qed.

Lemma place_lookup_ne p q position s :
  p <> q -> monitors (place p position s) !! q = monitors s !! q.
Proof.
  intros Hne. unfold place. destruct (monitors s !! p); [|reflexivity].
  apply lookup_put_ne, Hne.
Qed.

Lemma place_all_lookup_out ws q : forall s,
  ~ In q (fst <$> ws) ->
  monitors (place_all ws s) !! q = monitors s !! q.
Proof.
  induction ws as [|[p position] ws IH]; intros s Hout; cbn; [reflexivity|].
  unfold place_all in IH. rewrite IH.
  - apply place_lookup_ne. intros ->. apply Hout. cbn. auto.
  - intros Hin. apply Hout. cbn. auto.
Qed.

Lemma place_placed p position s :
  ready (monitors s) p = true -> placed (monitors (place p position s)) p position.
Proof.
  intros H. destruct (ready_infos _ _ H) as (m & info & out & c & Hm & _ & _ & Hc).
  unfold place. rewrite Hm. exists (moved position m). eexists.
  split; [eapply lookup_put_eq, Hm|]. unfold moved. rewrite Hc. cbn.
  split; [reflexivity|apply point_eta].
Qed.

(** Of the positions written to distinct monitors each one is there at the
    end. *)
Lemma place_all_placed ws p position : forall s,
  List.NoDup (fst <$> ws) ->
  In (p, position) ws ->
  ready (monitors s) p = true ->
  placed (monitors (place_all ws s)) p position.
Proof.
  induction ws as [|[q position'] ws IH]; intros s Hnd Hin Hr; [destruct Hin|].
  cbn in Hnd. inversion Hnd as [|? ? Hq Hnd']; subst.
  cbn [place_all fold_left fst snd]. fold (place_all ws (place q position' s)).
  destruct Hin as [E|Hin].
  - injection E as -> ->.
    destruct (place_placed p position s Hr) as (m & c & Hm & Hc & Hpos).
    exists m, c. rewrite place_all_lookup_out by exact Hq. auto.
  - apply IH; [assumption|assumption|].
    rewrite (ready_unplaced (monitors s)); [assumption|apply place_unplaced].
Qed.

Lemma placements_fst wr nx ps : forall l, fst <$> placements wr nx ps l = ps.
Proof.
  induction ps as [|p ps IH]; intros l; cbn; [reflexivity|]. rewrite IH. reflexivity.
Qed.

Lemma info_at_width h p : XRRModeInfo.width (info_at h p) = width_at h p.
Proof. unfold info_at, width_at. destruct (h !! p ≫= videoModeInfo); reflexivity. Qed.

Lemma info_at_height h p : XRRModeInfo.height (info_at h p) = height_at h p.
Proof. unfold info_at, height_at. destruct (h !! p ≫= videoModeInfo); reflexivity. Qed.

(** The position that each loop writes in its round [i]. *)
Lemma written_left_at h root ls i p :
  ls !! i = Some p ->
  In (p, point.mk (point.x root - Z.of_N (width_at h p)) (point.y root))
    (written_left h root ls).
Proof.
  unfold written_left.
  assert (G : forall ls (l : point.t) i, ls !! i = Some p ->
    In (p, point.mk (point.x root - Z.of_N (width_at h p)) (point.y l))
      (placements (fun p l => point.mk (point.x root - wz h p) (point.y l))
         (fun p l => point.mk (point.x root - wz h p) (point.y l)) ls l)).
  { clear. induction ls as [|q ls IH]; intros l [|i] H; cbn in H; try discriminate.
    - injection H as ->. left. unfold wz. rewrite info_at_width. reflexivity.
    - right. exact (IH (point.mk (point.x root - wz h q) (point.y l)) i H). }
  apply G.
Qed.

Lemma written_right_at h root this rs i p :
  rs !! i = Some p ->
  In (p, point.mk (point.x root + Z.of_N (width_at h this)
                   + Z.of_N (sum_over (width_at h) (take i rs))) (point.y root))
    (written_right h root this rs).
Proof.
  unfold written_right. unfold wz at 2. rewrite info_at_width.
  generalize (point.x root + Z.of_N (width_at h this))%Z. intros x0.
  revert x0 i. induction rs as [|q rs IH]; intros x0 [|i] H; cbn in H;
    try discriminate.
  - injection H as ->. left. cbn. rewrite Z.add_0_r. reflexivity.
  - right. cbn [placements point.x point.y].
    specialize (IH (x0 + wz h q)%Z i H).
    change (take (S i) (q :: rs)) with (q :: take i rs).
    change (sum_over (width_at h) (q :: take i rs))
      with (width_at h q + sum_over (width_at h) (take i rs)).
    replace (x0 + Z.of_N (width_at h q + sum_over (width_at h) (take i rs)))%Z
      with (x0 + wz h q + Z.of_N (sum_over (width_at h) (take i rs)))%Z; [exact IH|].
    unfold wz. rewrite info_at_width. lia.
Qed.

Lemma written_top_at h root ts i p :
  ts !! i = Some p ->
  In (p, point.mk (point.x root)
           (point.y root - Z.of_N (sum_over (height_at h) (take (S i) ts))))
    (written_top h root ts).
Proof.
  unfold written_top. destruct root as [x0 y0]. cbn [point.x point.y].
  revert y0 i. induction ts as [|q ts IH]; intros y0 [|i] H; cbn in H;
    try discriminate.
  - injection H as ->. left. cbn. unfold hz. rewrite info_at_height, N.add_0_r.
    reflexivity.
  - right. cbn [placements point.x point.y].
    specialize (IH (y0 - hz h q)%Z i H).
    replace (y0 - Z.of_N (sum_over (height_at h) (take (S (S i)) (q :: ts))))%Z
      with (y0 - hz h q - Z.of_N (sum_over (height_at h) (take (S i) ts)))%Z;
      [exact IH|].
    change (take (S (S i)) (q :: ts)) with (q :: take (S i) ts).
    change (sum_over (height_at h) (q :: take (S i) ts))
      with (height_at h q + sum_over (height_at h) (take (S i) ts)).
    unfold hz. rewrite info_at_height. lia.
Qed.

Lemma written_bottom_at h root this bs i p :
  bs !! i = Some p ->
  In (p, point.mk (point.x root)
           (point.y root + Z.of_N (height_at h this)
            + Z.of_N (sum_over (height_at h) (take i bs))))
    (written_bottom h root this bs).
Proof.
  unfold written_bottom. unfold hz at 2. rewrite info_at_height.
  generalize (point.y root + Z.of_N (height_at h this))%Z. intros y0.
  generalize (point.x root). intros x0.
  revert y0 i. induction bs as [|q bs IH]; intros y0 [|i] H; cbn in H;
    try discriminate.
  - injection H as ->. left. cbn. rewrite Z.add_0_r. reflexivity.
  - right. cbn [placements point.x point.y].
    specialize (IH (y0 + hz h q)%Z i H).
    change (take (S i) (q :: bs)) with (q :: take i bs).
    change (sum_over (height_at h) (q :: take i bs))
      with (height_at h q + sum_over (height_at h) (take i bs)).
    replace (y0 + Z.of_N (height_at h q + sum_over (height_at h) (take i bs)))%Z
      with (y0 + hz h q + Z.of_N (sum_over (height_at h) (take i bs)))%Z; [exact IH|].
    unfold hz. rewrite info_at_height. lia.
Qed.

Lemma written_left_fst h root ls : fst <$> written_left h root ls = ls.
Proof. apply placements_fst. Qed.

Lemma written_right_fst h root this rs : fst <$> written_right h root this rs = rs.
Proof. apply placements_fst. Qed.

Lemma written_top_fst h root ts : fst <$> written_top h root ts = ts.
Proof. apply placements_fst. Qed.

Lemma written_bottom_fst h root this bs : fst <$> written_bottom h root this bs = bs.
Proof. apply placements_fst. Qed.

Lemma place_all_keeps ws p position s :
  ~ In p (fst <$> ws) ->
  placed (monitors s) p position ->
  placed (monitors (place_all ws s)) p position.
Proof.
  intros Hout (m & c & Hm & H). exists m, c.
  rewrite place_all_lookup_out by exact Hout. auto.
Qed.

Lemma place_all_writes h ws p position s :
  unplaced <$> monitors s = unplaced <$> h ->
  ready h p = true ->
  List.NoDup (fst <$> ws) ->
  In (p, position) ws ->
  placed (monitors (place_all ws s)) p position.
Proof.
  intros E Hr Hnd Hin. apply place_all_placed; [assumption|assumption|].
  rewrite (ready_unplaced h); assumption.
Qed.

Lemma NoDup_app_parts {A : Type} (l1 l2 : list A) :
  List.NoDup (l1 ++ l2) ->
  List.NoDup l1 /\ List.NoDup l2 /\ (forall a, In a l1 -> ~ In a l2).
Proof.
  induction l1 as [|a l1 IH]; cbn; intros H.
  - split; [constructor|]. split; [assumption|]. intros a [].
  - inversion H as [|? ? Ha H']; subst. destruct (IH H') as (N1 & N2 & D).
    split.
    + constructor; [|assumption]. intros Hin. apply Ha, in_or_app. auto.
    + split; [assumption|]. intros b [<-|Hb] Hin.
      * apply Ha, in_or_app. auto.
      * exact (D b Hb Hin).
Qed.

Lemma lookup_In {A : Type} (l : list A) i a : l !! i = Some a -> In a l.
Proof.
  revert i. induction l as [|b l IH]; intros [|i] H; cbn in H; try discriminate.
  - injection H as ->. left. reflexivity.
  - right. exact (IH i H).
Qed.

Lemma sum_over_app f ps qs : sum_over f (ps ++ qs) = sum_over f ps + sum_over f qs.
Proof.
  unfold sum_over. induction ps as [|p ps IH]; cbn; [reflexivity|].
  rewrite IH. lia.
Qed.

(** Within the range of [int] the origin is the pair of the two sums. *)
Lemma origin_int_range h this ls rs ts bs :
  (Z.of_N (sum_over (width_at h) (this :: ls ++ rs)) < 2 ^ 31)%Z ->
  (Z.of_N (sum_over (height_at h) (this :: ts ++ bs)) < 2 ^ 31)%Z ->
  origin_int h ls ts = origin h ls ts.
Proof.
  intros Hw Hh.
  change (sum_over (width_at h) (this :: ls ++ rs))
    with (width_at h this + sum_over (width_at h) (ls ++ rs)) in Hw.
  change (sum_over (height_at h) (this :: ts ++ bs))
    with (height_at h this + sum_over (height_at h) (ts ++ bs)) in Hh.
  rewrite sum_over_app in Hw, Hh.
  unfold origin_int, origin. rewrite !to_int_unsigned by lia. reflexivity.
Qed.

(** X29: the layout that calculateRelativePositions writes, read back with
    getPosition.  For an anchor whose four neighbour chains end, in which
    every monitor has its info objects and no monitor occurs twice, and
    sizes within the range of int: the anchor is at (width of the left
    chain, height of the top chain); the i-th monitor to the right is at the
    anchor's x plus the anchor's width plus the widths of the right monitors
    before it; the i-th monitor below likewise along y; the i-th monitor
    above is at the anchor's y minus the heights of the top monitors up to
    and including it; and every monitor to the left is at the anchor's x
    minus its own width, whatever lies between it and the anchor.  Nothing
    but positions is written. *)
Theorem calculateRelativePositions_positions fuel this s t ls rs ts bs :
  monitors s !! this = Some t ->
  chain fuel leftMonitor (monitors s) (leftMonitor t) = Some ls ->
  chain fuel rightMonitor (monitors s) (rightMonitor t) = Some rs ->
  chain fuel topMonitor (monitors s) (topMonitor t) = Some ts ->
  chain fuel bottomMonitor (monitors s) (bottomMonitor t) = Some bs ->
  forallb (ready (monitors s)) (this :: ls ++ rs ++ ts ++ bs) = true ->
  List.NoDup (this :: ls ++ rs ++ ts ++ bs) ->
  (Z.of_N (sum_over (width_at (monitors s)) (this :: ls ++ rs)) < 2 ^ 31)%Z ->
  (Z.of_N (sum_over (height_at (monitors s)) (this :: ts ++ bs)) < 2 ^ 31)%Z ->
  exists s',
    calculateRelativePositions fuel this s = Done tt s' /\
    unplaced <$> monitors s' = unplaced <$> monitors s /\
    getPosition this s' = Done (origin (monitors s) ls ts) s' /\
    (forall i p, ls !! i = Some p ->
       getPosition p s'
       = Done (point.mk
                 (point.x (origin (monitors s) ls ts)
                  - Z.of_N (width_at (monitors s) p))
                 (point.y (origin (monitors s) ls ts))) s') /\
    (forall i p, rs !! i = Some p ->
       getPosition p s'
       = Done (point.mk
                 (point.x (origin (monitors s) ls ts)
                  + Z.of_N (width_at (monitors s) this)
                  + Z.of_N (sum_over (width_at (monitors s)) (take i rs)))
                 (point.y (origin (monitors s) ls ts))) s') /\
    (forall i p, ts !! i = Some p ->
       getPosition p s'
       = Done (point.mk
                 (point.x (origin (monitors s) ls ts))
                 (point.y (origin (monitors s) ls ts)
                  - Z.of_N (sum_over (height_at (monitors s)) (take (S i) ts)))) s') /\
    (forall i p, bs !! i = Some p ->
       getPosition p s'
       = Done (point.mk
                 (point.x (origin (monitors s) ls ts))
                 (point.y (origin (monitors s) ls ts)
                  + Z.of_N (height_at (monitors s) this)
                  + Z.of_N (sum_over (height_at (monitors s)) (take i bs)))) s').
Proof.
  intros Ht Hl Hr Htop Hb Hall Hnd Hwidth Hheight.
  rewrite <- (origin_int_range (monitors s) this ls rs ts bs Hwidth Hheight).
  cbn [forallb] in Hall. rewrite !forallb_app in Hall.
  apply andb_prop in Hall as [Hthis Hall].
  apply andb_prop in Hall as [Hls Hall].
  apply andb_prop in Hall as [Hrs Hall].
  apply andb_prop in Hall as [Hts Hbs].
  inversion Hnd as [|? ? Hout Hnd1]; subst.
  destruct (NoDup_app_parts _ _ Hnd1) as (Nl & Nd2 & Dl).
  destruct (NoDup_app_parts _ _ Nd2) as (Nr & Nd3 & Dr).
  destruct (NoDup_app_parts _ _ Nd3) as (Nt & Nb & Dt).
  assert (Ol : ~ In this ls) by (intros H; apply Hout; apply in_or_app; auto).
  assert (Or : ~ In this rs)
    by (intros H; apply Hout; apply in_or_app; right; apply in_or_app; auto).
  assert (Ot : ~ In this ts)
    by (intros H; apply Hout; apply in_or_app; right; apply in_or_app; right;
        apply in_or_app; auto).
  assert (Ob : ~ In this bs)
    by (intros H; apply Hout; apply in_or_app; right; apply in_or_app; right;
        apply in_or_app; auto).
  set (h := monitors s) in *. set (root := origin_int h ls ts).
  set (s0 := place this root s).
  set (s1 := place_all (written_left h root ls) s0).
  set (s2 := place_all (written_right h root this rs) s1).
  set (s3 := place_all (written_top h root ts) s2).
  assert (E0 : unplaced <$> monitors s0 = unplaced <$> h) by apply place_unplaced.
  assert (E1 : unplaced <$> monitors s1 = unplaced <$> h)
    by (unfold s1; rewrite place_all_unplaced; exact E0).
  assert (E2 : unplaced <$> monitors s2 = unplaced <$> h)
    by (unfold s2; rewrite place_all_unplaced; exact E1).
  assert (E3 : unplaced <$> monitors s3 = unplaced <$> h)
    by (unfold s3; rewrite place_all_unplaced; exact E2).
  exists (place_all (written_bottom h root this bs) s3).
  split; [exact (calculateRelativePositions_places fuel this s t ls rs ts bs
                   Ht Hl Hr Htop Hb Hthis Hls Hrs Hts Hbs)|].
  split; [rewrite place_all_unplaced; exact E3|].
  split; [|split; [|split; [|split]]].
  - apply getPosition_placed.
    apply place_all_keeps; [rewrite written_bottom_fst; exact Ob|].
    apply place_all_keeps; [rewrite written_top_fst; exact Ot|].
    apply place_all_keeps; [rewrite written_right_fst; exact Or|].
    apply place_all_keeps; [rewrite written_left_fst; exact Ol|].
    apply place_placed, Hthis.
  - intros i p Hp. pose proof (lookup_In _ _ _ Hp) as Hin.
    apply getPosition_placed.
    apply place_all_keeps;
      [rewrite written_bottom_fst; intros H;
       apply (Dl p Hin); apply in_or_app; right; apply in_or_app; auto|].
    apply place_all_keeps;
      [rewrite written_top_fst; intros H;
       apply (Dl p Hin); apply in_or_app; right; apply in_or_app; auto|].
    apply place_all_keeps;
      [rewrite written_right_fst; intros H; apply (Dl p Hin); apply in_or_app; auto|].
    apply (place_all_writes h); [exact E0| |rewrite written_left_fst; exact Nl|].
    + exact (proj1 (forallb_forall _ _) Hls p Hin).
    + exact (written_left_at h root ls i p Hp).
  - intros i p Hp. pose proof (lookup_In _ _ _ Hp) as Hin.
    apply getPosition_placed.
    apply place_all_keeps;
      [rewrite written_bottom_fst; intros H; apply (Dr p Hin); apply in_or_app; auto|].
    apply place_all_keeps;
      [rewrite written_top_fst; intros H; apply (Dr p Hin); apply in_or_app; auto|].
    apply (place_all_writes h); [exact E1| |rewrite written_right_fst; exact Nr|].
    + exact (proj1 (forallb_forall _ _) Hrs p Hin).
    + exact (written_right_at h root this rs i p Hp).
  - intros i p Hp. pose proof (lookup_In _ _ _ Hp) as Hin.
    apply getPosition_placed.
    apply place_all_keeps; [rewrite written_bottom_fst; exact (Dt p Hin)|].
    apply (place_all_writes h); [exact E2| |rewrite written_top_fst; exact Nt|].
    + exact (proj1 (forallb_forall _ _) Hts p Hin).
    + exact (written_top_at h root ts i p Hp).
  - intros i p Hp. pose proof (lookup_In _ _ _ Hp) as Hin.
    apply getPosition_placed.
    apply (place_all_writes h); [exact E3| |rewrite written_bottom_fst; exact Nb|].
    + exact (proj1 (forallb_forall _ _) Hbs p Hin).
    + exact (written_bottom_at h root this bs i p Hp).
Qed.

Lemma calculateRelativePositions_positions_witness :
  exists s',
    calculateRelativePositions 8 0 MoreExamples.cross = Done tt s' /\
    unplaced <$> monitors s' = unplaced <$> monitors MoreExamples.cross /\
    getPosition 0 s' = Done (point.mk 1280 768) s' /\
    (forall i p, [1%nat] !! i = Some p ->
       getPosition p s'
       = Done (point.mk
                 (1280 - Z.of_N (width_at (monitors MoreExamples.cross) p)) 768) s') /\
    (forall i p, [2%nat; 3%nat] !! i = Some p ->
       getPosition p s'
       = Done (point.mk
                 (1280 + 1920
                  + Z.of_N (sum_over (width_at (monitors MoreExamples.cross))
                              (take i [2%nat; 3%nat])))
                 768) s') /\
    (forall i p, [4%nat] !! i = Some p ->
       getPosition p s'
       = Done (point.mk 1280
                 (768 - Z.of_N (sum_over (height_at (monitors MoreExamples.cross))
                                  (take (S i) [4%nat])))) s') /\
    (forall i p, [5%nat] !! i = Some p ->
       getPosition p s'
       = Done (point.mk 1280
                 (768 + 1080
                  + Z.of_N (sum_over (height_at (monitors MoreExamples.cross))
                              (take i [5%nat])))) s').
Proof.
  apply (calculateRelativePositions_positions 8 0 MoreExamples.cross
           (Examples.monitor 11 1 Examples.full_hd 510 290 true
              (Some 1%nat) (Some 2%nat) (Some 4%nat) (Some 5%nat))
           [1%nat] [2%nat; 3%nat] [4%nat] [5%nat]);
    try reflexivity.
  repeat constructor; cbn; intros H; repeat destruct H as [H|H]; try discriminate;
    exact H.
Defined.

(** ** Turning a monitor off on the server *)

Lemma turnOff_Done this s m c :
  monitors s !! this = Some m ->
  videoControllerInfo m = Some c ->
  turnOff this s
  = Done tt
      (put this
         (set_videoModeInfo None
            (set_videoControllerInfo
               (Some (XRRCrtcInfo.mk (XRRCrtcInfo.x c) (XRRCrtcInfo.y c)
                        (XRRCrtcInfo.width c) (XRRCrtcInfo.height c) None_)) m)) s).
Proof.
  intros Hm Hc. unfold turnOff.
  rewrite (bind_Done _ _ _ _ _ (load_Done _ _ _ Hm)), Hc.
  rewrite (bind_Done _ _ _ _ _ (assign_Done _ _ _ _ Hm)).
  match goal with
  | |- context [set_monitors (<[this := ?u]> (monitors s)) s] => fold (put this u s)
  end.
  apply (assign_put _ _ _ _ _ Hm).
Qed.

(** X30: turnOff() followed by applyConfiguration(), on a monitor with
    controller info in a build without DRYRUN: the server gets exactly one
    request, an XRRSetCrtcConfig for the monitor's controller at its old
    position with mode None and no output.  There is no grab, no sync, and
    no new canvas size: the canvas keeps the size it had with the monitor
    on. *)
Theorem turnOff_applyConfiguration cfg fuel this s m c :
  DRYRUN cfg = false ->
  monitors s !! this = Some m ->
  videoControllerInfo m = Some c ->
  exists s1 s2,
    turnOff this s = Done tt s1 /\
    applyConfiguration cfg fuel this s1 = Done true s2 /\
    monitors s2 = monitors s1 /\
    requests s2
    = requests s
      ++ [XRRSetCrtcConfig (videoController m) (XRRCrtcInfo.x c) (XRRCrtcInfo.y c)
            None_ [] 0].
Proof.
  intros Hdry Hm Hc.
  pose proof (turnOff_Done this s m c Hm Hc) as Hoff.
  set (c' := XRRCrtcInfo.mk (XRRCrtcInfo.x c) (XRRCrtcInfo.y c)
               (XRRCrtcInfo.width c) (XRRCrtcInfo.height c) None_) in Hoff.
  set (m' := set_videoModeInfo None (set_videoControllerInfo (Some c') m)) in Hoff.
  set (s1 := put this m' s) in Hoff.
  assert (H1 : monitors s1 !! this = Some m') by (eapply lookup_put_eq, Hm).
  assert (Hisoff : isOff this s1 = Done true s1).
  { unfold isOff. rewrite (bind_Done _ _ _ _ _ (load_Done _ _ _ H1)).
    cbn [m' videoController set_videoModeInfo set_videoControllerInfo].
    destruct (videoController m =? None_); reflexivity. }
  assert (Hrun : exists s2,
            applyConfiguration_monitor cfg this s1 = Done tt s2 /\
            monitors s2 = monitors s1 /\
            requests s2 = requests s1 ++ [crtc_config m' c']).
  { unfold applyConfiguration_monitor. rewrite Hdry.
    rewrite (bind_Done _ _ _ _ _ (load_Done _ _ _ H1)).
    unfold deref at 1. rewrite run_bind.
    cbn [m' videoControllerInfo set_videoModeInfo set_videoControllerInfo].
    rewrite (bind_Done (request _) _ _ _ _ eq_refl).
    rewrite run_bind. cbn [set_config_ok set_requests].
    destruct (set_config_ok s1 (crtc_config m' c')); cbn;
      eexists; (split; [reflexivity|]); split; reflexivity. }
  destruct Hrun as (s2 & Hrun & Hmon & Hreq).
  exists s1, s2. split; [exact Hoff|]. split; [|split; [exact Hmon|exact Hreq]].
  unfold applyConfiguration. rewrite (bind_Done _ _ _ _ _ Hisoff).
  rewrite (bind_Done _ _ _ _ _ Hrun). reflexivity.
Qed.

Lemma turnOff_applyConfiguration_witness :
  exists s1 s2,
    turnOff 0 Examples.alone = Done tt s1 /\
    applyConfiguration Examples.build 4 0 s1 = Done true s2 /\
    monitors s2 = monitors s1 /\
    requests s2 = [XRRSetCrtcConfig 1 0 0 None_ [] 0].
Proof.
  apply (turnOff_applyConfiguration Examples.build 4 0 Examples.alone
           (Examples.monitor 11 1 Examples.full_hd 510 290 true None None None None)
           (XRRCrtcInfo.mk 0 0 1920 1080 101)); reflexivity.
Defined.
